(** * Task delegation and scheduling core of the agents repository

    A shallow embedding of
      - [python/teams/base_leader_agent.py]        (module [Leader]),
      - [python/teams/bakery_team/bakery_leader.py] (module [Bakery]),
      - [python/task_scheduler/task_scheduler.py]   (module [Scheduler]),
    together with the fragment of Python they rely on (module [Py]).

    Mutable Python objects are modelled by explicit state passing: a
    method that mutates [self] or a task returns the new value next to
    its result.  A raised exception is a [Raise] result; state changes
    made before the raise are kept, as in Python. *)

From Stdlib Require Import List String Ascii ZArith Lia Bool Arith.
From Stdlib Require Import DecimalString DecimalZ DecimalPos DecimalNat.
Import ListNotations.
Open Scope string_scope.
Set Warnings "-register-all".

(* ================================================================== *)
(** * The Python fragment                                              *)
(* ================================================================== *)

Module Py.

(** JSON-like Python values, as found in a [context] or [metadata]
    mapping ([Dict[str, Any]]).  Dictionary keys are strings and a
    dictionary keeps its insertion order. *)
Inductive pyval : Type :=
| PNone
| PBool (b : bool)
| PInt (z : Z)
| PStr (s : string)
| PList (l : list pyval)
| PDict (d : list (string * pyval)).

Definition pydict : Type := list (string * pyval).

(** Exceptions: the class and what [str(e)] yields. *)
Inductive exn_class : Type :=
| ValueError | TypeError | AttributeError | KeyError | Exception.

Record exn : Type := mkExn { exn_cls : exn_class; exn_str : string }.

(** What a call yields: a returned value or a raised exception. *)
Inductive res (A : Type) : Type :=
| Ok (a : A)
| Raise (e : exn).
Arguments Ok {A} a.
Arguments Raise {A} e.

(** ** Insertion-ordered dictionaries with string keys *)

Section Dict.
Context {V : Type}.

Fixpoint dict_get (d : list (string * V)) (k : string) : option V :=
  match d with
  | [] => None
  | (k', v) :: d' => if String.eqb k k' then Some v else dict_get d' k
  end.

Definition dict_mem (d : list (string * V)) (k : string) : bool :=
  match dict_get d k with Some _ => true | None => false end.

(** [d[k] = v]: an existing key keeps its position, a new key goes last. *)
Fixpoint dict_set (d : list (string * V)) (k : string) (v : V)
  : list (string * V) :=
  match d with
  | [] => [(k, v)]
  | (k', v') :: d' =>
      if String.eqb k k' then (k, v) :: d' else (k', v') :: dict_set d' k v
  end.

(** In-place mutation of the object stored under [k]. *)
Fixpoint dict_update (d : list (string * V)) (k : string) (f : V -> V)
  : list (string * V) :=
  match d with
  | [] => []
  | (k', v') :: d' =>
      if String.eqb k k' then (k', f v') :: d'
      else (k', v') :: dict_update d' k f
  end.

(** [del d[k]]. *)
Fixpoint dict_del (d : list (string * V)) (k : string) : list (string * V) :=
  match d with
  | [] => []
  | (k', v') :: d' =>
      if String.eqb k k' then d' else (k', v') :: dict_del d' k
  end.

Definition dict_keys (d : list (string * V)) : list string := map fst d.

End Dict.

(** ** Truthiness, [.get], iteration *)

Definition truthy (v : pyval) : bool :=
  match v with
  | PNone => false
  | PBool b => b
  | PInt z => negb (Z.eqb z 0)
  | PStr s => negb (String.eqb s "")
  | PList l => match l with [] => false | _ => true end
  | PDict d => match d with [] => false | _ => true end
  end.

(** [d.get(k, default)] on a mapping. *)
Definition get_default (d : pydict) (k : string) (default : pyval) : pyval :=
  match dict_get d k with Some v => v | None => default end.

(** [v.get(k, default)] on an arbitrary value: only dictionaries have
    the method. *)
Definition py_get (v : pyval) (k : string) (default : pyval) : res pyval :=
  match v with
  | PDict d => Ok (get_default d k default)
  | _ => Raise (mkExn AttributeError "object has no attribute 'get'")
  end.

(** [isinstance(v, dict)]. *)
Definition is_dict (v : pyval) : bool :=
  match v with PDict _ => true | _ => false end.

Definition chars_of (s : string) : list pyval :=
  map (fun c => PStr (String c EmptyString)) (list_ascii_of_string s).

(** [v[k]] for a string key. *)
Definition py_getitem (v : pyval) (k : string) : res pyval :=
  match v with
  | PDict d => match dict_get d k with
               | Some x => Ok x
               | None => Raise (mkExn KeyError k)
               end
  | _ => Raise (mkExn TypeError "object is not subscriptable by a string")
  end.

(** The elements a [for] loop visits. *)
Definition py_iter (v : pyval) : res (list pyval) :=
  match v with
  | PList l => Ok l
  | PStr s => Ok (chars_of s)
  | PDict d => Ok (map (fun kv => PStr (fst kv)) d)
  | _ => Raise (mkExn TypeError "object is not iterable")
  end.

(** ** Strings *)

(** [needle in hay]. *)
Fixpoint contains (needle hay : string) : bool :=
  if String.prefix needle hay then true
  else match hay with
       | EmptyString => false
       | String _ hay' => contains needle hay'
       end.

Definition mem_str (s : string) (l : list string) : bool :=
  existsb (String.eqb s) l.

Definition is_upper (c : ascii) : bool :=
  let n := nat_of_ascii c in (65 <=? n)%nat && (n <=? 90)%nat.

(** [str.lower] on ASCII text. *)
Definition ascii_lower (s : string) : string :=
  string_of_list_ascii
    (map (fun c => if is_upper c then ascii_of_nat (nat_of_ascii c + 32) else c)
         (list_ascii_of_string s)).

(** [s.replace(old, new)] for a non-empty [old]: every non-overlapping
    occurrence, left to right.  [skip] counts the characters of a
    matched occurrence still to be dropped. *)
Fixpoint replace_from (old new : string) (skip : nat) (s : string) : string :=
  match s with
  | EmptyString => EmptyString
  | String c s' =>
      match skip with
      | S k => replace_from old new k s'
      | O =>
          if String.prefix old s
          then new ++ replace_from old new (String.length old - 1) s'
          else String c (replace_from old new 0 s')
      end
  end.

Definition str_replace (old new s : string) : string :=
  replace_from old new 0 s.

Definition mem_ascii (c : ascii) (chars : string) : bool :=
  existsb (Ascii.eqb c) (list_ascii_of_string chars).

(** [s.rstrip(chars)]. *)
Fixpoint rstrip (chars s : string) : string :=
  match s with
  | EmptyString => EmptyString
  | String c s' =>
      match rstrip chars s' with
      | EmptyString => if mem_ascii c chars then EmptyString
                       else String c EmptyString
      | r => String c r
      end
  end.

(** [s[-1]]. *)
Fixpoint last_char (s : string) : option ascii :=
  match s with
  | EmptyString => None
  | String c EmptyString => Some c
  | String _ s' => last_char s'
  end.

(** [l[i:]]: a negative [i] counts from the end, and an index beyond
    either end is clamped to it. *)
Definition py_slice_from {A : Type} (i : Z) (l : list A) : list A :=
  let len := Z.of_nat (List.length l) in
  let start := if (i <? 0)%Z then Z.max (len + i) 0 else Z.min i len in
  skipn (Z.to_nat start) l.

(** [str(n)] for integers. *)
Definition str_of_nat (n : nat) : string :=
  NilZero.string_of_uint (Nat.to_uint n).

Definition str_of_Z (z : Z) : string :=
  NilZero.string_of_int (Z.to_int z).

(** [int(s)] on an optionally signed decimal numeral. *)
Definition int_of_str (s : string) : res Z :=
  match NilZero.int_of_string s with
  | Some d => Ok (Z.of_int d)
  | None => Raise (mkExn ValueError
                     ("invalid literal for int() with base 10: " ++ s))
  end.


(** ** Binary floating point, as far as a success rate needs it

    A finite positive double is a pair [(m, e)] standing for [m * 2^e].
    [round53 p q] is [p / q] rounded to nearest, ties to even, with a
    53-bit significand; the quotients met here are far from the
    subnormal and overflow ranges. *)

Definition round_half_even (num den : Z) : Z :=
  let q := (num / den)%Z in
  let r := (num mod den)%Z in
  if (2 * r <? den)%Z then q
  else if (den <? 2 * r)%Z then (q + 1)%Z
  else if Z.even q then q else (q + 1)%Z.

(** [num / den * 2^(-e)] as a fraction. *)
Definition scaled (num den e : Z) : Z * Z :=
  if (0 <=? e)%Z then (num, (den * 2 ^ e)%Z) else ((num * 2 ^ (- e))%Z, den).

Definition round53 (num den : Z) : Z * Z :=
  if (num <=? 0)%Z then (0, 0)%Z
  else
    let k := (Z.log2 num - Z.log2 den)%Z in
    let e0 := (k - 52)%Z in
    let '(n0, d0) := scaled num den e0 in
    let e := if (2 ^ 52 <=? n0 / d0)%Z then e0 else (e0 - 1)%Z in
    let '(n, d) := scaled num den e in
    (round_half_even n d, e).

(** [a / b] on integers (true division). *)
Definition float_div (a b : Z) : Z * Z := round53 a b.

(** [x * n] for a double [x] and a small integer [n]. *)
Definition float_mul_int (x : Z * Z) (n : Z) : Z * Z :=
  let '(m, e) := x in
  if (0 <=? e)%Z then round53 (m * n * 2 ^ e) 1
  else round53 (m * n) (2 ^ (- e)).

(** [f"{x:.1f}"] for a non-negative double: the exact value rounded to
    tenths, ties to even. *)
Definition format_1f (x : Z * Z) : string :=
  let '(m, e) := x in
  let tenths :=
    if (0 <=? e)%Z then (m * 10 * 2 ^ e)%Z
    else round_half_even (m * 10) (2 ^ (- e)) in
  str_of_Z (tenths / 10) ++ "." ++ str_of_Z (tenths mod 10).

(** ** Stateful code that may raise

    [M S A]: a computation over a state [S] that returns an [A] or
    raises; the state reached is kept in both cases. *)

Definition M (S A : Type) : Type := S -> res A * S.

Definition ret {S A : Type} (a : A) : M S A := fun s => (Ok a, s).

Definition bind {S A B : Type} (m : M S A) (k : A -> M S B) : M S B :=
  fun s => match m s with
           | (Ok a, s') => k a s'
           | (Raise e, s') => (Raise e, s')
           end.

Definition lift {S A : Type} (r : res A) : M S A := fun s => (r, s).

Notation "x <- m ;; k" := (bind m (fun x => k))
  (at level 61, m at next level, right associativity).

(** [for x in l: out.append(body(x))]. *)
Fixpoint for_append {S X A : Type} (l : list X) (body : X -> M S A) : M S (list A) :=
  match l with
  | [] => ret []
  | x :: l' => a <- body x ;; rest <- for_append l' body ;; ret (a :: rest)
  end.

(** ** Facts about dictionaries *)

Section DictFacts.
Context {V : Type}.
Implicit Types (d : list (string * V)) (k : string).

Lemma dict_keys_update d k (f : V -> V) :
  dict_keys (dict_update d k f) = dict_keys d.
Proof.
  unfold dict_keys.
  induction d as [|[k' v'] d IH]; simpl; [reflexivity|].
  destruct (String.eqb k k'); simpl; [reflexivity|].
  now rewrite IH.
Qed.

Lemma dict_get_update d k k' (f : V -> V) :
  dict_get (dict_update d k f) k' =
  if String.eqb k' k then option_map f (dict_get d k') else dict_get d k'.
Proof.
  induction d as [|[k0 v0] d IH]; simpl.
  - now destruct (String.eqb k' k).
  - destruct (String.eqb k k0) eqn:E; simpl.
    + apply String.eqb_eq in E; subst k0.
      destruct (String.eqb k' k) eqn:E'; reflexivity.
    + rewrite IH. destruct (String.eqb k' k0) eqn:E0; [|reflexivity].
      apply String.eqb_eq in E0; subst k0.
      rewrite String.eqb_sym in E. now rewrite E.
Qed.

Lemma dict_get_set d k k' (v : V) :
  dict_get (dict_set d k v) k' =
  if String.eqb k' k then Some v else dict_get d k'.
Proof.
  induction d as [|[k0 v0] d IH]; simpl.
  - reflexivity.
  - destruct (String.eqb k k0) eqn:E; simpl.
    + apply String.eqb_eq in E; subst k0.
      destruct (String.eqb k' k); reflexivity.
    + rewrite IH. destruct (String.eqb k' k0) eqn:E0; [|reflexivity].
      apply String.eqb_eq in E0; subst k0.
      rewrite String.eqb_sym in E. now rewrite E.
Qed.

(** With distinct keys, [dict_update] rewrites the one entry in place. *)
Lemma dict_update_map d k (f : V -> V) :
  NoDup (dict_keys d) ->
  dict_update d k f =
  map (fun kv => if String.eqb k (fst kv) then (fst kv, f (snd kv)) else kv) d.
Proof.
  induction d as [|[k0 v0] d IH]; simpl; [reflexivity|].
  intros Hnd. inversion Hnd as [|? ? Hnotin Hnd']; subst.
  destruct (String.eqb k k0) eqn:E.
  - apply String.eqb_eq in E; subst k0. f_equal.
    clear IH Hnd Hnd'. induction d as [|[k1 v1] d IH]; simpl; [reflexivity|].
    simpl in Hnotin.
    destruct (String.eqb k k1) eqn:E1.
    + apply String.eqb_eq in E1. subst. exfalso. apply Hnotin. now left.
    + f_equal. apply IH. intros H. apply Hnotin. now right.
  - f_equal. now apply IH.
Qed.

Lemma dict_set_split d k (v : V) :
  exists pre post,
    dict_set d k v = (pre ++ (k, v) :: post)%list /\ ~ In k (dict_keys pre).
Proof.
  induction d as [|[k0 v0] d IH]; simpl.
  - exists [], []. split; [reflexivity|intros []].
  - destruct (String.eqb k k0) eqn:E.
    + exists [], d. split; [reflexivity|intros []].
    + destruct IH as (pre & post & Heq & Hnin).
      exists ((k0, v0) :: pre), post. rewrite Heq. split; [reflexivity|].
      simpl. intros [H|H]; [|now apply Hnin].
      subst k0. now rewrite String.eqb_refl in E.
Qed.

Lemma dict_mem_In d k : dict_mem d k = true <-> In k (dict_keys d).
Proof.
  unfold dict_mem, dict_keys. induction d as [|[k0 v0] d IH]; simpl.
  - split; [discriminate|intros []].
  - destruct (String.eqb k k0) eqn:E.
    + apply String.eqb_eq in E. subst. split; auto.
    + rewrite IH. apply String.eqb_neq in E. split; [auto|].
      intros [H|H]; [congruence|exact H].
Qed.

Lemma dict_keys_set d k (v : V) :
  dict_keys (dict_set d k v) =
  if dict_mem d k then dict_keys d else (dict_keys d ++ [k])%list.
Proof.
  unfold dict_mem, dict_keys. induction d as [|[k0 v0] d IH]; simpl; [reflexivity|].
  destruct (String.eqb k k0) eqn:E; simpl.
  - apply String.eqb_eq in E. now subst.
  - rewrite IH. now destruct (dict_get d k).
Qed.

Lemma dict_set_NoDup d k (v : V) :
  NoDup (dict_keys d) -> NoDup (dict_keys (dict_set d k v)).
Proof.
  intros H. rewrite dict_keys_set. destruct (dict_mem d k) eqn:E; [exact H|].
  apply NoDup_app; [exact H|repeat constructor; intros []|].
  intros x Hx [<-|[]]. apply dict_mem_In in Hx. congruence.
Qed.

Lemma dict_get_del_other d k k' :
  k' <> k -> dict_get (dict_del d k) k' = dict_get d k'.
Proof.
  intros Hne. induction d as [|[k0 v0] d IH]; simpl; [reflexivity|].
  destruct (String.eqb k k0) eqn:E; simpl.
  - apply String.eqb_eq in E. subst k0.
    apply String.eqb_neq in Hne. now rewrite Hne.
  - now rewrite IH.
Qed.

Lemma dict_get_del_same d k :
  NoDup (dict_keys d) -> dict_get (dict_del d k) k = None.
Proof.
  unfold dict_keys. induction d as [|[k0 v0] d IH]; simpl; [reflexivity|].
  intros Hnd. inversion Hnd as [|? ? Hnin Hnd']; subst.
  destruct (String.eqb k k0) eqn:E; simpl.
  - apply String.eqb_eq in E. subst k0.
    destruct (dict_get d k) eqn:G; [|reflexivity].
    exfalso. apply Hnin. apply (proj1 (dict_mem_In d k)).
    unfold dict_mem. now rewrite G.
  - rewrite E. now apply IH.
Qed.

Lemma dict_del_absent d k : dict_mem d k = false -> dict_del d k = d.
Proof.
  unfold dict_mem. induction d as [|[k0 v0] d IH]; simpl; [reflexivity|].
  destruct (String.eqb k k0); [discriminate|]. intros H. now rewrite IH.
Qed.

Lemma dict_del_NoDup d k : NoDup (dict_keys d) -> NoDup (dict_keys (dict_del d k)).
Proof.
  unfold dict_keys. induction d as [|[k0 v0] d IH]; simpl; [auto|].
  intros Hnd. inversion Hnd as [|? ? Hnin Hnd']; subst.
  destruct (String.eqb k k0); [exact Hnd'|]. simpl. constructor; [|auto].
  intros Hin. apply Hnin. clear - Hin.
  induction d as [|[k1 v1] d IH]; simpl in *; [exact Hin|].
  destruct (String.eqb k k1); simpl in *; [now right|].
  destruct Hin as [H|H]; [now left|right; now apply IH].
Qed.

Lemma dict_get_In_NoDup d k (v : V) :
  NoDup (dict_keys d) -> In (k, v) d -> dict_get d k = Some v.
Proof.
  unfold dict_keys. induction d as [|[k0 v0] d IH]; simpl; [intros _ []|].
  intros Hnd Hin. inversion Hnd as [|? ? Hnin Hnd']; subst.
  destruct Hin as [[= -> ->]|Hin]; [now rewrite String.eqb_refl|].
  destruct (String.eqb k k0) eqn:E; [|now apply IH].
  apply String.eqb_eq in E. subst k0. exfalso. apply Hnin.
  apply in_map_iff. now exists (k, v).
Qed.

(** Storing a batch of values with distinct keys. *)
Lemma dict_store_batch {X : Type} (key : X -> string) (val : X -> V)
    (xs : list X) : forall d,
  NoDup (map key xs) ->
  (forall x, In x xs ->
             dict_get (fold_left (fun d x => dict_set d (key x) (val x)) xs d) (key x)
             = Some (val x)) /\
  (forall k, ~ In k (map key xs) ->
             dict_get (fold_left (fun d x => dict_set d (key x) (val x)) xs d) k
             = dict_get d k).
Proof.
  induction xs as [|x xs IH]; intros d Hnd; simpl.
  - split; [intros ? []|reflexivity].
  - inversion Hnd as [|? ? Hnin Hnd']; subst.
    destruct (IH (dict_set d (key x) (val x)) Hnd') as [IH1 IH2].
    split.
    + intros y [<-|Hy]; [|now apply IH1].
      rewrite (IH2 (key x) Hnin), dict_get_set. now rewrite String.eqb_refl.
    + intros k Hk. rewrite IH2 by (intros H; apply Hk; now right).
      rewrite dict_get_set.
      destruct (String.eqb k (key x)) eqn:E; [|reflexivity].
      apply String.eqb_eq in E. exfalso. apply Hk. now left.
Qed.

End DictFacts.

(** ** Facts about strings *)

Lemma prefix_refl (s : string) : String.prefix s s = true.
Proof.
  induction s as [|c s IH]; simpl; [reflexivity|].
  destruct (ascii_dec c c); [exact IH|congruence].
Qed.


Lemma contains_cons (s : string) (c : ascii) (h : string) :
  contains s (String c h) =
  if String.prefix s (String c h) then true else contains s h.
Proof. reflexivity. Qed.

Lemma prefix_shorter (a b s : string) :
  String.prefix (a ++ b)%string s = true -> String.prefix a s = true.
Proof.
  revert s. induction a as [|c a IH]; intros s.
  - now destruct s.
  - destruct s as [|c' s]; simpl; [discriminate|].
    destruct (ascii_dec c c'); [apply IH|discriminate].
Qed.

(** A text that holds [a ++ b] holds [a]. *)
Lemma contains_shorter (a b s : string) :
  contains (a ++ b)%string s = true -> contains a s = true.
Proof.
  induction s as [|c s IH].
  - change (contains (a ++ b) "") with (if String.prefix (a ++ b) "" then true else false).
    change (contains a "") with (if String.prefix a "" then true else false).
    destruct (String.prefix (a ++ b) "") eqn:E; [|discriminate].
    intros _. now rewrite (prefix_shorter a b _ E).
  - rewrite !contains_cons.
    destruct (String.prefix (a ++ b) (String c s)) eqn:E.
    + intros _. now rewrite (prefix_shorter a b _ E).
    + intros H. rewrite (IH H). now destruct (String.prefix a (String c s)).
Qed.

(** A text occurs in whatever is written before it followed by it. *)
Lemma contains_suffix (p s : string) : contains s (p ++ s)%string = true.
Proof.
  induction p as [|c p IH].
  - simpl. destruct s as [|a s]; simpl; [reflexivity|].
    destruct (ascii_dec a a); [|congruence]. now rewrite prefix_refl.
  - change (String c p ++ s)%string with (String c (p ++ s)%string).
    rewrite contains_cons.
    destruct (String.prefix s (String c (p ++ s))); [reflexivity|exact IH].
Qed.

Lemma append_assoc (s1 s2 s3 : string) :
  ((s1 ++ s2) ++ s3 = s1 ++ (s2 ++ s3))%string.
Proof. induction s1 as [|c s1 IH]; simpl; [reflexivity|now rewrite IH]. Qed.

(** ** Printing and reading integers *)









(** ** The fragment at work *)

Example lower_and_search :
  contains "plan" (ascii_lower "Weekly PLAN") = true /\
  contains "order" (ascii_lower "Weekly PLAN") = false.
Proof. split; reflexivity. Qed.

Example schedule_text_parses :
  int_of_str (rstrip "smh" (str_replace "every_" "" ("every_" ++ str_of_Z 90 ++ "m")))
  = Ok 90%Z /\
  last_char ("every_" ++ str_of_Z 90 ++ "m") = Some "m"%char.
Proof. split; reflexivity. Qed.

Example dict_keeps_position :
  dict_set [("a", 1); ("b", 2)] "a" 3 = [("a", 3); ("b", 2)] /\
  dict_set [("a", 1); ("b", 2)] "c" 3 = [("a", 1); ("b", 2); ("c", 3)].
Proof. split; reflexivity. Qed.

(** [1/16*100] is [6.25] exactly and prints as [6.2] (ties to even);
    [1/3*100] prints as [33.3]. *)
Example rates_printed :
  format_1f (float_mul_int (float_div 1 16) 100) = "6.2" /\
  format_1f (float_mul_int (float_div 1 3) 100) = "33.3" /\
  format_1f (float_mul_int (float_div 2 3) 100) = "66.7" /\
  float_div 1 3 = (6004799503160661, -54)%Z.
Proof. repeat split; reflexivity. Qed.

End Py.

(* ================================================================== *)
(** * The leader: registry, delegation, execution
      ([python/teams/base_leader_agent.py])                            *)
(* ================================================================== *)

(** Modelling choices.  A task is a record threaded through the
    delegator and the executor, which return it as mutated; the tasks
    of a batch are distinct objects, as every planner of the repository
    builds them.  [team_members] is an insertion-ordered dictionary.
    Calls to the logger change nothing the leader reads and are left
    out. *)

Module Leader.
Import Py.

Inductive TaskStatus : Type :=
| PENDING | IN_PROGRESS | COMPLETED | FAILED | DELEGATED.

(** [TaskStatus.value]. *)
Definition status_value (s : TaskStatus) : string :=
  match s with
  | PENDING => "pending"
  | IN_PROGRESS => "in_progress"
  | COMPLETED => "completed"
  | FAILED => "failed"
  | DELEGATED => "delegated"
  end.

Inductive TaskPriority : Type := LOW | MEDIUM | HIGH | CRITICAL.

(** Timestamps ([datetime]) are microseconds on the integer line. *)
Definition time : Type := Z.

Record Task : Type := mkTask {
  task_id : string;
  description : string;
  task_type : string;
  priority : TaskPriority;
  assigned_to : option string;
  status : TaskStatus;
  created_at : time;
  completed_at : option time;
  result : option pyval;
  error : option string;
  metadata : pydict
}.

(** [Task.__init__]; [now] is the value [datetime.now()] returned. *)
Definition Task_init (task_id description task_type : string)
    (priority : TaskPriority) (assigned_to : option string)
    (metadata : option pydict) (now : time) : Task :=
  {| task_id := task_id;
     description := description;
     task_type := task_type;
     priority := priority;
     assigned_to := assigned_to;
     status := PENDING;
     created_at := now;
     completed_at := None;
     result := None;
     error := None;
     metadata := match metadata with Some m => m | None => [] end |}.

(** The mutations the delegator and the executor apply to a task. *)
Definition mark_unroutable (t : Task) : Task :=
  {| task_id := task_id t; description := description t;
     task_type := task_type t; priority := priority t;
     assigned_to := assigned_to t;
     status := FAILED;
     created_at := created_at t; completed_at := completed_at t;
     result := result t;
     error := Some ("No agent available for task type: " ++ task_type t);
     metadata := metadata t |}.

Definition mark_delegated (t : Task) (agent_name : string) : Task :=
  {| task_id := task_id t; description := description t;
     task_type := task_type t; priority := priority t;
     assigned_to := Some agent_name;
     status := DELEGATED;
     created_at := created_at t; completed_at := completed_at t;
     result := result t; error := error t; metadata := metadata t |}.

Definition mark_completed (t : Task) (r : pyval) (now : time) : Task :=
  {| task_id := task_id t; description := description t;
     task_type := task_type t; priority := priority t;
     assigned_to := assigned_to t;
     status := COMPLETED;
     created_at := created_at t; completed_at := Some now;
     result := Some r; error := error t; metadata := metadata t |}.

Definition mark_failed (t : Task) (e : exn) (now : time) : Task :=
  {| task_id := task_id t; description := description t;
     task_type := task_type t; priority := priority t;
     assigned_to := assigned_to t;
     status := FAILED;
     created_at := created_at t; completed_at := Some now;
     result := result t; error := Some (exn_str e); metadata := metadata t |}.

(** [min(l, key=key)] on a non-empty sequence [best :: l]: the first
    element whose key is minimal. *)
Fixpoint min_by {A : Type} (key : A -> nat) (best : A) (l : list A) : A :=
  match l with
  | [] => best
  | x :: l' => min_by key (if (key x <? key best)%nat then x else best) l'
  end.

Section Registry.
Set Default Proof Using "Type".

(** Worker objects and the world their [execute] and [initialize]
    methods act on.  A worker is opaque to the leader: [agent_execute
    inst kwargs w] is the call of [inst.execute] with keyword arguments
    [kwargs] in world [w],
    [agent_initialize] the effect of [inst.initialize()] (an exception
    it raises is logged and dropped, a worker without the method is
    left alone). Workers do not call back into the leader. *)
Variables Inst W : Type.
Variable agent_execute : Inst -> pydict -> W -> res pyval * W.
Variable agent_initialize : Inst -> W -> W.

(** [clock n] is what the [n]-th call of [datetime.now()] returns. *)
Variable clock : nat -> time.

(** An entry of [team_members]. *)
Record AgentData : Type := mkAgentData {
  instance : Inst;
  capabilities : list string;
  tasks_assigned : nat;
  tasks_completed : nat;
  tasks_failed : nat
}.

Record Leader : Type := mkLeader {
  team_name : string;
  config : pydict;
  team_members : list (string * AgentData);
  tasks : list (string * Task);
  task_counter : nat;
  initialized : bool;
  world : W;
  clock_reads : nat
}.

Definition set_team_members (L : Leader) (m : list (string * AgentData)) :=
  {| team_name := team_name L; config := config L; team_members := m;
     tasks := tasks L; task_counter := task_counter L;
     initialized := initialized L; world := world L;
     clock_reads := clock_reads L |}.

Definition set_tasks (L : Leader) (ts : list (string * Task)) :=
  {| team_name := team_name L; config := config L;
     team_members := team_members L;
     tasks := ts; task_counter := task_counter L;
     initialized := initialized L; world := world L;
     clock_reads := clock_reads L |}.

Definition set_task_counter (L : Leader) (n : nat) :=
  {| team_name := team_name L; config := config L;
     team_members := team_members L;
     tasks := tasks L; task_counter := n;
     initialized := initialized L; world := world L;
     clock_reads := clock_reads L |}.

Definition set_initialized (L : Leader) (b : bool) :=
  {| team_name := team_name L; config := config L;
     team_members := team_members L;
     tasks := tasks L; task_counter := task_counter L;
     initialized := b; world := world L;
     clock_reads := clock_reads L |}.

Definition set_world (L : Leader) (w : W) :=
  {| team_name := team_name L; config := config L;
     team_members := team_members L;
     tasks := tasks L; task_counter := task_counter L;
     initialized := initialized L; world := w;
     clock_reads := clock_reads L |}.

(** [datetime.now()]. *)
Definition now (L : Leader) : time * Leader :=
  (clock (clock_reads L),
   {| team_name := team_name L; config := config L;
      team_members := team_members L;
      tasks := tasks L; task_counter := task_counter L;
      initialized := initialized L; world := world L;
      clock_reads := S (clock_reads L) |}).

(** [BaseLeaderAgent.__init__]. *)
Definition Leader_init (team_name : string) (config : option pydict)
    (w : W) (reads : nat) : Leader :=
  {| team_name := team_name;
     config := match config with Some c => c | None => [] end;
     team_members := [];
     tasks := [];
     task_counter := 0;
     initialized := false;
     world := w;
     clock_reads := reads |}.

Definition incr_assigned (d : AgentData) : AgentData :=
  {| instance := instance d; capabilities := capabilities d;
     tasks_assigned := S (tasks_assigned d);
     tasks_completed := tasks_completed d; tasks_failed := tasks_failed d |}.

Definition incr_completed (d : AgentData) : AgentData :=
  {| instance := instance d; capabilities := capabilities d;
     tasks_assigned := tasks_assigned d;
     tasks_completed := S (tasks_completed d); tasks_failed := tasks_failed d |}.

Definition incr_failed (d : AgentData) : AgentData :=
  {| instance := instance d; capabilities := capabilities d;
     tasks_assigned := tasks_assigned d;
     tasks_completed := tasks_completed d; tasks_failed := S (tasks_failed d) |}.

(** [register_agent]: a plain dictionary store, so a name already in
    use gets a fresh entry (counters at zero) at its old position. *)
Definition register_agent (agent_name : string) (agent_instance : Inst)
    (caps : list string) (L : Leader) : Leader :=
  set_team_members L
    (dict_set (team_members L) agent_name
       {| instance := agent_instance; capabilities := caps;
          tasks_assigned := 0; tasks_completed := 0; tasks_failed := 0 |}).

(** [initialize]: every member's [initialize], in registration order. *)
Definition initialize (L : Leader) : Leader :=
  set_initialized
    (fold_left (fun L' nd => set_world L' (agent_initialize (instance (snd nd)) (world L')))
               (team_members L) L)
    true.

(** The list comprehension opening [delegate_task]. *)
Definition capable_for (ty : string) (members : list (string * AgentData))
  : list (string * AgentData) :=
  filter (fun nd => mem_str ty (capabilities (snd nd))) members.

Definition capable_agents (t : Task) (L : Leader) : list (string * AgentData) :=
  capable_for (task_type t) (team_members L).

(** [delegate_task]: returns the flag, the task as mutated, the leader
    as mutated. *)
Definition delegate_task (t : Task) (L : Leader) : bool * Task * Leader :=
  match capable_agents t L with
  | [] => (false, mark_unroutable t, L)
  | c :: cs =>
      let chosen := min_by (fun x => tasks_assigned (snd x)) c cs in
      (true, mark_delegated t (fst chosen),
       set_team_members L (dict_update (team_members L) (fst chosen) incr_assigned))
  end.

Definition set_status (t : Task) (s : TaskStatus) : Task :=
  {| task_id := task_id t; description := description t;
     task_type := task_type t; priority := priority t;
     assigned_to := assigned_to t;
     status := s;
     created_at := created_at t; completed_at := completed_at t;
     result := result t; error := error t; metadata := metadata t |}.

Definition not_assigned : exn := mkExn ValueError "Task not assigned to any agent".

(** [execute_task]: the value returned or the exception raised, the
    task as mutated, the leader as mutated. *)
Definition execute_task (t : Task) (L : Leader) : res pyval * Task * Leader :=
  match assigned_to t with
  | None => (Raise not_assigned, t, L)
  | Some name =>
      if String.eqb name "" then (Raise not_assigned, t, L)
      else
        match dict_get (team_members L) name with
        | None => (Raise (mkExn ValueError ("Agent '" ++ name ++ "' not found")), t, L)
        | Some agent_data =>
            let t1 := set_status t IN_PROGRESS in
            match agent_execute (instance agent_data) (metadata t) (world L) with
            | (Ok r, w') =>
                let '(tm, L1) := now (set_world L w') in
                (Ok r, mark_completed t1 r tm,
                 set_team_members L1
                   (dict_update (team_members L1) name incr_completed))
            | (Raise e, w') =>
                let '(tm, L1) := now (set_world L w') in
                (Raise e, mark_failed t1 e tm,
                 set_team_members L1
                   (dict_update (team_members L1) name incr_failed))
            end
        end
  end.

(** Step 2 of [execute_goal]: [for task in tasks: self.delegate_task(task)]. *)
Fixpoint delegate_all (ts : list Task) (L : Leader) : list Task * Leader :=
  match ts with
  | [] => ([], L)
  | t :: ts' =>
      let '(_, t', L1) := delegate_task t L in
      let '(ts'', L2) := delegate_all ts' L1 in
      (t' :: ts'', L2)
  end.

(** Step 3 of [execute_goal]: the loop with its [try]/[except]; the
    returned value of a task that succeeds joins [results], an
    exception is logged and dropped. *)
Fixpoint execute_all (ts : list Task) (L : Leader)
  : list pyval * list Task * Leader :=
  match ts with
  | [] => ([], [], L)
  | t :: ts' =>
      let '(r, t', L1) := execute_task t L in
      let '(rs, ts'', L2) := execute_all ts' L1 in
      (match r with Ok v => v :: rs | Raise _ => rs end, t' :: ts'', L2)
  end.

(** Step 1b of [execute_goal]: [self.tasks[task.task_id] = task].  The
    dictionary holds references, so what it shows once [execute_goal]
    is over is each task as the later steps left it; the store is
    therefore written here with the final records. *)
Definition store_tasks (ts : list Task) (L : Leader) : Leader :=
  set_tasks L (fold_left (fun d t => dict_set d (task_id t) t) ts (tasks L)).

Section Orchestrator.

(** The two abstract methods of [BaseLeaderAgent]. *)
Variable Report : Type.
Variable plan_tasks : string -> option pydict -> Leader -> res (list Task) * Leader.
Variable aggregate_results : list Task -> Leader -> Report.

Definition execute_goal (goal : string) (context : option pydict) (L : Leader)
  : res Report * Leader :=
  let L0 := if initialized L then L else initialize L in
  match plan_tasks goal context L0 with
  | (Raise e, L1) => (Raise e, L1)
  | (Ok planned, L1) =>
      let '(delegated, L2) := delegate_all planned L1 in
      let '(_, final, L3) := execute_all delegated L2 in
      let L4 := store_tasks final L3 in
      (Ok (aggregate_results final L4), L4)
  end.

(** The orchestrator's operations, for reasoning about sessions. *)
Inductive operation : Type :=
| OpRegister (agent_name : string) (agent_instance : Inst) (caps : list string)
| OpInitialize
| OpDelegate (t : Task)
| OpExecute (t : Task)
| OpExecuteGoal (goal : string) (context : option pydict).

Definition apply_op (o : operation) (L : Leader) : Leader :=
  match o with
  | OpRegister n i c => register_agent n i c L
  | OpInitialize => initialize L
  | OpDelegate t => snd (delegate_task t L)
  | OpExecute t => snd (execute_task t L)
  | OpExecuteGoal g c => snd (execute_goal g c L)
  end.

Definition run_session (ops : list operation) (L : Leader) : Leader :=
  fold_left (fun L' o => apply_op o L') ops L.

(** No [register_agent] of the session reuses a name present at that
    point. *)
Fixpoint fresh_registrations (ops : list operation) (names : list string) : bool :=
  match ops with
  | [] => true
  | OpRegister n _ _ :: ops' =>
      negb (mem_str n names) && fresh_registrations ops' (n :: names)
  | _ :: ops' => fresh_registrations ops' names
  end.


(** Both phases of [execute_goal] on a batch. *)
Definition run_tasks (ts : list Task) (L : Leader)
  : list pyval * list Task * Leader :=
  let '(delegated, L1) := delegate_all ts L in
  execute_all delegated L1.

(** How many tasks of a batch went to [agent_name]. *)
Definition count_assigned (agent_name : string) (ts : list Task) : nat :=
  List.length
    (filter (fun t => match assigned_to t with
                      | Some n => String.eqb n agent_name
                      | None => false
                      end) ts).

(** The task names a registered worker, so [execute_task] reaches the
    worker call. *)
Definition runnable (t : Task) (L : Leader) : bool :=
  match assigned_to t with
  | Some n => negb (String.eqb n "") && dict_mem (team_members L) n
  | None => false
  end.

(** The marks the executor leaves on a task it ran. *)
Definition was_run (t : Task) : Prop :=
  (status t = COMPLETED \/ status t = FAILED) /\ completed_at t <> None.

(** An entry kept its worker and capabilities and no counter went down. *)
Definition entry_le (d d' : AgentData) : Prop :=
  instance d = instance d' /\ capabilities d = capabilities d' /\
  tasks_assigned d <= tasks_assigned d' /\
  tasks_completed d <= tasks_completed d' /\
  tasks_failed d <= tasks_failed d'.

Definition registry_le (m m' : list (string * AgentData)) : Prop :=
  forall k d, dict_get m k = Some d ->
              exists d', dict_get m' k = Some d' /\ entry_le d d'.

(** Counters of the worker registered as [k]; zero for an unknown name. *)
Definition assigned_of (m : list (string * AgentData)) (k : string) : nat :=
  match dict_get m k with Some d => tasks_assigned d | None => 0 end.

Definition completed_of (m : list (string * AgentData)) (k : string) : nat :=
  match dict_get m k with Some d => tasks_completed d | None => 0 end.

Definition failed_of (m : list (string * AgentData)) (k : string) : nat :=
  match dict_get m k with Some d => tasks_failed d | None => 0 end.

Definition status_eqb (a b : TaskStatus) : bool :=
  match a, b with
  | PENDING, PENDING | IN_PROGRESS, IN_PROGRESS | COMPLETED, COMPLETED
  | FAILED, FAILED | DELEGATED, DELEGATED => true
  | _, _ => false
  end.

Definition given_to (agent_name : string) (t : Task) : bool :=
  match assigned_to t with
  | Some n => String.eqb n agent_name
  | None => false
  end.

(** How many tasks of a batch went to [agent_name] and ended in status [s]. *)
Definition count_ended (agent_name : string) (s : TaskStatus) (ts : list Task) : nat :=
  List.length (filter (fun t => given_to agent_name t && status_eqb (status t) s) ts).

(** A task as a planner hands it over. *)
Definition unstarted (t : Task) : Prop :=
  assigned_to t = None /\ status t = PENDING /\ completed_at t = None /\
  result t = None /\ error t = None.

(** A task that reached its end: completed by a worker, with a result
    and no error, or failed, with an error and no result. *)
Definition settled (t : Task) : Prop :=
  (status t = COMPLETED /\ result t <> None /\ error t = None /\
   assigned_to t <> None /\ completed_at t <> None) \/
  (status t = FAILED /\ error t <> None /\ result t = None).

(** A task between the two loops of [execute_goal]. *)
Definition routed (m : list (string * AgentData)) (t : Task) : Prop :=
  result t = None /\
  match assigned_to t with
  | Some n => n <> ""%string /\ dict_mem m n = true /\
              status t = DELEGATED /\ error t = None
  | None => status t = FAILED /\ error t <> None
  end.

(** [get_team_status]: per worker, and the count of stored tasks per
    status.  A success rate is the integer [0] for a worker without
    assignments, a float otherwise. *)
Record AgentStatus : Type := mkAgentStatus {
  st_capabilities : list string;
  st_tasks_assigned : nat;
  st_tasks_completed : nat;
  st_tasks_failed : nat;
  st_success_rate : Z + Z * Z
}.

Record TaskCounts : Type := mkTaskCounts {
  n_total : nat;
  n_pending : nat;
  n_in_progress : nat;
  n_completed : nat;
  n_failed : nat
}.

Record TeamStatus : Type := mkTeamStatus {
  ts_team_name : string;
  ts_agents : list (string * AgentStatus);
  ts_tasks : TaskCounts
}.

Definition count_status (s : TaskStatus) (store : list (string * Task)) : nat :=
  List.length (filter (fun kt => status_eqb (status (snd kt)) s) store).

Definition get_team_status (L : Leader) : TeamStatus :=
  {| ts_team_name := team_name L;
     ts_agents :=
       map (fun nd =>
              (fst nd,
               {| st_capabilities := capabilities (snd nd);
                  st_tasks_assigned := tasks_assigned (snd nd);
                  st_tasks_completed := tasks_completed (snd nd);
                  st_tasks_failed := tasks_failed (snd nd);
                  st_success_rate :=
                    if (0 <? tasks_assigned (snd nd))%nat
                    then inr (float_mul_int
                                (float_div (Z.of_nat (tasks_completed (snd nd)))
                                           (Z.of_nat (tasks_assigned (snd nd))))
                                100)
                    else inl 0%Z |}))
           (team_members L);
     ts_tasks :=
       {| n_total := List.length (tasks L);
          n_pending := count_status PENDING (tasks L);
          n_in_progress := count_status IN_PROGRESS (tasks L);
          n_completed := count_status COMPLETED (tasks L);
          n_failed := count_status FAILED (tasks L) |} |}.

(** The workers able to take type [ty] carry loads that differ by at
    most one. *)
Definition level (ty : string) (m : list (string * AgentData)) : Prop :=
  forall x y, In x (capable_for ty m) -> In y (capable_for ty m) ->
              tasks_assigned (snd x) <= S (tasks_assigned (snd y)).

(** The sum of [tasks_assigned] over some entries. *)
Definition total_assigned (l : list (string * AgentData)) : nat :=
  fold_right (fun x n => tasks_assigned (snd x) + n) 0 l.

(** Names and capabilities of the registry: what routing depends on
    besides the counters. *)
Definition caps_of (m : list (string * AgentData)) : list (string * list string) :=
  map (fun nd => (fst nd, capabilities (snd nd))) m.

Local Open Scope list_scope.

(** ** Choosing the least loaded worker *)

Lemma min_by_spec_gen {A : Type} (key : A -> nat) :
  forall l best pre0 mid,
    (forall x, In x pre0 -> key best < key x) ->
    (forall x, In x mid -> key best <= key x) ->
    exists pre post,
      pre0 ++ best :: mid ++ l = pre ++ min_by key best l :: post /\
      (forall x, In x pre -> key (min_by key best l) < key x) /\
      (forall x, In x post -> key (min_by key best l) <= key x).
Proof.
  induction l as [|x l IH]; intros best pre0 mid Hpre Hmid; simpl.
  - exists pre0, mid. rewrite app_nil_r. auto.
  - destruct (key x <? key best)%nat eqn:E.
    + apply Nat.ltb_lt in E.
      destruct (IH x (pre0 ++ best :: mid) []) as (pre & post & Heq & H1 & H2).
      * intros y Hy. apply in_app_or in Hy. destruct Hy as [Hy|[<-|Hy]].
        -- specialize (Hpre y Hy). lia.
        -- exact E.
        -- specialize (Hmid y Hy). lia.
      * intros y [].
      * exists pre, post. split; [|auto].
        rewrite <- Heq. simpl. rewrite <- app_assoc. reflexivity.
    + apply Nat.ltb_ge in E.
      destruct (IH best pre0 (mid ++ [x])) as (pre & post & Heq & H1 & H2).
      * exact Hpre.
      * intros y Hy. apply in_app_or in Hy. destruct Hy as [Hy|[<-|[]]]; auto.
      * exists pre, post. split; [|auto].
        rewrite <- Heq. rewrite <- app_assoc. reflexivity.
Qed.

Lemma min_by_spec {A : Type} (key : A -> nat) (c : A) (cs : list A) :
  exists pre post,
    c :: cs = pre ++ min_by key c cs :: post /\
    (forall x, In x pre -> key (min_by key c cs) < key x) /\
    (forall x, In x post -> key (min_by key c cs) <= key x).
Proof.
  destruct (min_by_spec_gen key cs c [] []) as (pre & post & Heq & H1 & H2);
    [intros ? []|intros ? []|].
  exists pre, post. auto.
Qed.

Lemma delegate_task_chosen (t : Task) (L : Leader) :
  capable_agents t L <> [] ->
  exists name d pre post,
    capable_agents t L = pre ++ (name, d) :: post /\
    (forall x, In x pre -> tasks_assigned d < tasks_assigned (snd x)) /\
    (forall x, In x post -> tasks_assigned d <= tasks_assigned (snd x)) /\
    delegate_task t L =
      (true, mark_delegated t name,
       set_team_members L (dict_update (team_members L) name incr_assigned)).
Proof.
  intros Hne. unfold delegate_task.
  destruct (capable_agents t L) as [|c cs] eqn:E; [congruence|].
  destruct (min_by_spec (fun x => tasks_assigned (snd x)) c cs)
    as (pre & post & Heq & H1 & H2).
  destruct (min_by (fun x => tasks_assigned (snd x)) c cs) as [name d] eqn:Em.
  exists name, d, pre, post. simpl in *. auto.
Qed.

Lemma filter_keys_NoDup {V : Type} (p : string * V -> bool) (m : list (string * V)) :
  NoDup (dict_keys m) -> NoDup (dict_keys (filter p m)).
Proof.
  unfold dict_keys. induction m as [|[k v] m IH]; simpl; intros Hnd; [constructor|].
  inversion Hnd as [|? ? Hnotin Hnd']; subst.
  destruct (p (k, v)); simpl; [|auto].
  constructor; [|auto].
  intros Hin. apply Hnotin. apply in_map_iff in Hin.
  destruct Hin as ([k' v'] & Hk & Hin). simpl in Hk; subst k'.
  apply filter_In in Hin. apply in_map_iff. exists (k, v').
  split; [reflexivity|apply Hin].
Qed.

Lemma capable_for_update ty m n (f : AgentData -> AgentData) :
  NoDup (dict_keys m) ->
  (forall d, capabilities (f d) = capabilities d) ->
  capable_for ty (dict_update m n f) =
  map (fun kv => if String.eqb n (fst kv) then (fst kv, f (snd kv)) else kv)
      (capable_for ty m).
Proof.
  intros Hnd Hf. rewrite dict_update_map by assumption. clear Hnd.
  unfold capable_for. induction m as [|[k v] m IH]; simpl; [reflexivity|].
  destruct (String.eqb n k) eqn:E; simpl; rewrite ?Hf;
    destruct (mem_str ty (capabilities v)); simpl; rewrite ?E, IH; reflexivity.
Qed.

Lemma incr_assigned_capabilities d : capabilities (incr_assigned d) = capabilities d.
Proof. reflexivity. Qed.

(** One delegation among exactly two capable workers. *)
Lemma delegate_task_two ty a da b db t L :
  NoDup (dict_keys (team_members L)) ->
  capable_for ty (team_members L) = [(a, da); (b, db)] ->
  task_type t = ty ->
  a <> b /\
  let to_b := (tasks_assigned db <? tasks_assigned da)%nat in
  exists L',
    delegate_task t L = (true, mark_delegated t (if to_b then b else a), L') /\
    NoDup (dict_keys (team_members L')) /\
    capable_for ty (team_members L') =
      (if to_b then [(a, da); (b, incr_assigned db)]
       else [(a, incr_assigned da); (b, db)]).
Proof.
  intros Hnd Hcap Hty.
  assert (Hab : a <> b).
  { pose proof (filter_keys_NoDup
                  (fun nd => mem_str ty (capabilities (snd nd))) _ Hnd) as H.
    fold (capable_for ty (team_members L)) in H. rewrite Hcap in H.
    simpl in H. inversion H as [|? ? Hn _]; subst.
    intros ->. apply Hn. now left. }
  split; [exact Hab|]. cbv zeta.
  unfold delegate_task, capable_agents. rewrite Hty, Hcap. simpl.
  destruct (tasks_assigned db <? tasks_assigned da)%nat; simpl;
    (eexists; split; [reflexivity|split]; simpl;
     [rewrite dict_keys_update; exact Hnd|]);
    rewrite capable_for_update
      by (assumption || apply incr_assigned_capabilities);
    rewrite Hcap; simpl; rewrite String.eqb_refl.
  - assert (String.eqb b a = false) as -> by (apply String.eqb_neq; congruence).
    reflexivity.
  - assert (String.eqb a b = false) as -> by (apply String.eqb_neq; congruence).
    reflexivity.
Qed.

Lemma count_assigned_cons name t ts :
  count_assigned name (t :: ts) =
  (match assigned_to t with
   | Some n => if String.eqb n name then 1 else 0
   | None => 0
   end) + count_assigned name ts.
Proof.
  unfold count_assigned. simpl.
  destruct (assigned_to t) as [n|]; [|reflexivity].
  destruct (String.eqb n name); reflexivity.
Qed.

Lemma delegate_all_two ty a b :
  forall ts L da db,
    NoDup (dict_keys (team_members L)) ->
    capable_for ty (team_members L) = [(a, da); (b, db)] ->
    tasks_assigned db <= tasks_assigned da <= tasks_assigned db + 1 ->
    Forall (fun t => task_type t = ty) ts ->
    exists da' db',
      capable_for ty (team_members (snd (delegate_all ts L))) = [(a, da'); (b, db')] /\
      tasks_assigned db' <= tasks_assigned da' <= tasks_assigned db' + 1 /\
      tasks_assigned da' + tasks_assigned db' =
        tasks_assigned da + tasks_assigned db + List.length ts /\
      tasks_assigned da + count_assigned a (fst (delegate_all ts L)) = tasks_assigned da' /\
      tasks_assigned db + count_assigned b (fst (delegate_all ts L)) = tasks_assigned db'.
Proof.
  induction ts as [|t ts IH]; intros L da db Hnd Hcap Hbal Hty; simpl.
  - exists da, db. unfold count_assigned; simpl. repeat split; auto; lia.
  - inversion Hty as [|? ? Ht Hts]; subst.
    destruct (delegate_task_two _ a da b db t L Hnd Hcap eq_refl)
      as (Hab & L' & Hdel & Hnd' & Hcap').
    cbv zeta in *. rewrite Hdel.
    destruct (delegate_all ts L') as [ts' L''] eqn:Eall. simpl.
    rewrite !count_assigned_cons. simpl.
    destruct (tasks_assigned db <? tasks_assigned da)%nat eqn:E.
    + apply Nat.ltb_lt in E.
      destruct (IH L' da (incr_assigned db) Hnd' Hcap') as (da' & db' & H1 & H2 & H3 & H4 & H5);
        [simpl; lia|exact Hts|].
      rewrite Eall in *. simpl in *.
      exists da', db'. rewrite String.eqb_refl.
      assert (String.eqb b a = false) as -> by (apply String.eqb_neq; congruence).
      repeat split; try assumption; lia.
    + apply Nat.ltb_ge in E.
      destruct (IH L' (incr_assigned da) db Hnd' Hcap') as (da' & db' & H1 & H2 & H3 & H4 & H5);
        [simpl; lia|exact Hts|].
      rewrite Eall in *. simpl in *.
      exists da', db'. rewrite String.eqb_refl.
      assert (String.eqb a b = false) as -> by (apply String.eqb_neq; congruence).
      repeat split; try assumption; lia.
Qed.

(** C2. [delegate_task] picks, among the workers whose capabilities
    contain the task's type, the one with the smallest [tasks_assigned],
    the first registered among equals: every capable worker registered
    before the chosen one has a strictly larger counter, every later one
    a counter at least as large.  Being a function of the registry and
    the task, the choice is deterministic.  Two capable workers that
    start level therefore share [N] tasks of that type as
    [ceil(N/2)] for the first registered and [floor(N/2)] for the
    second. *)
Theorem delegate_task_least_loaded :
  (forall (t : Task) (L : Leader),
      capable_agents t L <> [] ->
      exists name d pre post,
        capable_agents t L = pre ++ (name, d) :: post /\
        (forall x, In x pre -> tasks_assigned d < tasks_assigned (snd x)) /\
        (forall x, In x post -> tasks_assigned d <= tasks_assigned (snd x)) /\
        delegate_task t L =
          (true, mark_delegated t name,
           set_team_members L
             (dict_update (team_members L) name incr_assigned))) /\
  (forall (ty a b : string) (da db : AgentData) (L : Leader) (ts : list Task),
      NoDup (dict_keys (team_members L)) ->
      capable_for ty (team_members L) = [(a, da); (b, db)] ->
      tasks_assigned da = tasks_assigned db ->
      Forall (fun t => task_type t = ty) ts ->
      let N := List.length ts in
      count_assigned a (fst (delegate_all ts L)) = (N + 1) / 2 /\
      count_assigned b (fst (delegate_all ts L)) = N / 2 /\
      exists da' db',
        capable_for ty (team_members (snd (delegate_all ts L))) =
          [(a, da'); (b, db')] /\
        tasks_assigned da' = tasks_assigned da + (N + 1) / 2 /\
        tasks_assigned db' = tasks_assigned db + N / 2).
Proof.
  split.
  - exact delegate_task_chosen.
  - intros ty a b da db L ts Hnd Hcap Heq Hty N.
    destruct (delegate_all_two ty a b ts L da db Hnd Hcap) as
      (da' & db' & H1 & H2 & H3 & H4 & H5); [lia|exact Hty|].
    fold N in H3.
    assert (Ha : tasks_assigned da' = tasks_assigned da + (N + 1) / 2).
    { pose proof (Nat.div_mod_eq (N + 1) 2).
      pose proof (Nat.mod_upper_bound (N + 1) 2). lia. }
    assert (Hb : tasks_assigned db' = tasks_assigned db + N / 2).
    { pose proof (Nat.div_mod_eq N 2).
      pose proof (Nat.mod_upper_bound N 2). lia. }
    repeat split; [lia|lia|].
    exists da', db'. auto.
Qed.

(** ** The two loops of [execute_goal] *)

Lemma delegate_all_app pre post L :
  delegate_all (pre ++ post) L =
  let '(pre', L1) := delegate_all pre L in
  let '(post', L2) := delegate_all post L1 in
  (pre' ++ post', L2).
Proof.
  revert L. induction pre as [|t pre IH]; intros L; simpl.
  - now destruct (delegate_all post L).
  - destruct (delegate_task t L) as [[b t'] L1]. rewrite IH.
    destruct (delegate_all pre L1) as [pre' L2].
    now destruct (delegate_all post L2).
Qed.

Lemma execute_all_app pre post L :
  execute_all (pre ++ post) L =
  let '(r1, pre', L1) := execute_all pre L in
  let '(r2, post', L2) := execute_all post L1 in
  (r1 ++ r2, pre' ++ post', L2).
Proof.
  revert L. induction pre as [|t pre IH]; intros L; simpl.
  - now destruct (execute_all post L) as [[r2 post'] L2].
  - destruct (execute_task t L) as [[r t'] L1]. rewrite IH.
    destruct (execute_all pre L1) as [[r1 pre'] L2].
    destruct (execute_all post L2) as [[r2 post'] L3].
    now destruct r.
Qed.

Lemma delegate_task_status t L :
  let t' := snd (fst (delegate_task t L)) in
  status t' = DELEGATED \/ status t' = FAILED.
Proof.
  unfold delegate_task. destruct (capable_agents t L); simpl; auto.
Qed.

Lemma delegate_all_status ts L :
  Forall (fun u => status u = DELEGATED \/ status u = FAILED)
         (fst (delegate_all ts L)).
Proof.
  revert L. induction ts as [|t ts IH]; intros L; simpl; [constructor|].
  pose proof (delegate_task_status t L) as Ht.
  destruct (delegate_task t L) as [[b t'] L1]. specialize (IH L1).
  destruct (delegate_all ts L1) as [ts' L2]. simpl in *. now constructor.
Qed.

Lemma delegate_all_length ts L :
  List.length (fst (delegate_all ts L)) = List.length ts.
Proof.
  revert L. induction ts as [|t ts IH]; intros L; simpl; [reflexivity|].
  destruct (delegate_task t L) as [[b t'] L1]. specialize (IH L1).
  destruct (delegate_all ts L1) as [ts' L2]. simpl in *. now rewrite IH.
Qed.

Lemma execute_all_length ts L :
  List.length (snd (fst (execute_all ts L))) = List.length ts.
Proof.
  revert L. induction ts as [|t ts IH]; intros L; simpl; [reflexivity|].
  destruct (execute_task t L) as [[r t'] L1]. specialize (IH L1).
  destruct (execute_all ts L1) as [[rs ts'] L2]. simpl in *. now rewrite IH.
Qed.

(** ** What [execute_task] does in each case *)

Lemma execute_task_raises t L name d e w' :
  assigned_to t = Some name -> name <> ""%string ->
  dict_get (team_members L) name = Some d ->
  agent_execute (instance d) (metadata t) (world L) = (Raise e, w') ->
  execute_task t L =
    (Raise e,
     mark_failed (set_status t IN_PROGRESS) e (clock (clock_reads L)),
     set_team_members (snd (now (set_world L w')))
       (dict_update (team_members L) name incr_failed)).
Proof.
  intros Ha Hn Hd Hx. unfold execute_task. rewrite Ha.
  apply String.eqb_neq in Hn. rewrite Hn, Hd, Hx. reflexivity.
Qed.

Lemma execute_task_returns t L name d r w' :
  assigned_to t = Some name -> name <> ""%string ->
  dict_get (team_members L) name = Some d ->
  agent_execute (instance d) (metadata t) (world L) = (Ok r, w') ->
  execute_task t L =
    (Ok r,
     mark_completed (set_status t IN_PROGRESS) r (clock (clock_reads L)),
     set_team_members (snd (now (set_world L w')))
       (dict_update (team_members L) name incr_completed)).
Proof.
  intros Ha Hn Hd Hx. unfold execute_task. rewrite Ha.
  apply String.eqb_neq in Hn. rewrite Hn, Hd, Hx. reflexivity.
Qed.

Lemma execute_task_unassigned t L :
  assigned_to t = None ->
  execute_task t L = (Raise not_assigned, t, L).
Proof. intros Ha. unfold execute_task. now rewrite Ha. Qed.

Lemma dict_mem_update (m : list (string * AgentData)) n f k :
  dict_mem (dict_update m n f) k = dict_mem m k.
Proof.
  unfold dict_mem. rewrite dict_get_update.
  destruct (String.eqb k n); [|reflexivity]. now destruct (dict_get m k).
Qed.

Lemma execute_task_members t L k :
  dict_mem (team_members (snd (execute_task t L))) k = dict_mem (team_members L) k.
Proof.
  unfold execute_task. destruct (assigned_to t) as [name|]; [|reflexivity].
  destruct (String.eqb name ""); [reflexivity|].
  destruct (dict_get (team_members L) name) as [d|]; [|reflexivity].
  destruct (agent_execute (instance d) (metadata t) (world L)) as [[r|e] w'];
    simpl; apply dict_mem_update.
Qed.

Lemma runnable_ext t L L' :
  (forall k, dict_mem (team_members L') k = dict_mem (team_members L) k) ->
  runnable t L' = runnable t L.
Proof.
  intros H. unfold runnable. destruct (assigned_to t); [|reflexivity].
  now rewrite H.
Qed.

Lemma execute_task_runnable t L :
  runnable t L = true -> was_run (snd (fst (execute_task t L))).
Proof.
  unfold runnable, execute_task, dict_mem.
  destruct (assigned_to t) as [name|]; [|discriminate].
  destruct (String.eqb name ""); [discriminate|]. simpl.
  destruct (dict_get (team_members L) name) as [d|]; [|discriminate].
  intros _.
  destruct (agent_execute (instance d) (metadata t) (world L)) as [[r|e] w'];
    simpl; (split; [auto|discriminate]).
Qed.

Lemma execute_all_runs ts : forall L L0,
  (forall k, dict_mem (team_members L) k = dict_mem (team_members L0) k) ->
  Forall2 (fun u u' => runnable u L0 = true -> was_run u')
          ts (snd (fst (execute_all ts L))).
Proof.
  induction ts as [|t ts IH]; intros L L0 Hmem; simpl; [constructor|].
  pose proof (execute_task_runnable t L) as Hrun.
  pose proof (execute_task_members t L) as Hkeep.
  destruct (execute_task t L) as [[r t'] L1]. simpl in *.
  specialize (IH L1 L0).
  destruct (execute_all ts L1) as [[rs ts'] L2]. simpl in *.
  constructor.
  - intros Hr. apply Hrun. now rewrite (runnable_ext t L0 L Hmem).
  - apply IH. intros k. now rewrite Hkeep.
Qed.

(** C1. When a worker's [execute] raises on a task of the batch, the
    task ends FAILED with [error] the text of the exception; the
    execution loop goes on with the tasks after it, each of which is
    run by its worker if it names a registered one; and [execute_goal]
    returns its report instead of raising.  All tasks of the batch have
    been through [delegate_task] before the first is executed. *)
Theorem execute_goal_partial_failure :
  forall goal context L planned L1 delegated L2 pre t post rs_pre pre' La
         name d e w',
    plan_tasks goal context (if initialized L then L else initialize L)
      = (Ok planned, L1) ->
    delegate_all planned L1 = (delegated, L2) ->
    delegated = pre ++ t :: post ->
    execute_all pre L2 = (rs_pre, pre', La) ->
    assigned_to t = Some name -> name <> ""%string ->
    dict_get (team_members La) name = Some d ->
    agent_execute (instance d) (metadata t) (world La) = (Raise e, w') ->
    exists t' Lb rs_post post' Lc,
      execute_task t La = (Raise e, t', Lb) /\
      status t' = FAILED /\ error t' = Some (exn_str e) /\
      execute_all post Lb = (rs_post, post', Lc) /\
      List.length post' = List.length post /\
      Forall2 (fun u u' => runnable u L2 = true -> was_run u') post post' /\
      Forall (fun u => status u = DELEGATED \/ status u = FAILED) delegated /\
      List.length delegated = List.length planned /\
      execute_goal goal context L =
        (Ok (aggregate_results (pre' ++ t' :: post')
               (store_tasks (pre' ++ t' :: post') Lc)),
         store_tasks (pre' ++ t' :: post') Lc).
Proof.
  intros goal context L planned L1 delegated L2 pre t post rs_pre pre' La
         name d e w' Hplan Hdel Hsplit Hpre Ha Hn Hd Hx.
  pose proof (execute_task_raises t La name d e w' Ha Hn Hd Hx) as Hexec.
  destruct (execute_all post
              (set_team_members (snd (now (set_world La w')))
                 (dict_update (team_members La) name incr_failed)))
    as [[rs_post post'] Lc] eqn:Epost.
  eexists _, _, rs_post, post', Lc.
  split; [exact Hexec|]. split; [reflexivity|]. split; [reflexivity|].
  split; [exact Epost|].
  split; [|split; [|split; [|split]]].
  - pose proof (execute_all_length post
                  (set_team_members (snd (now (set_world La w')))
                     (dict_update (team_members La) name incr_failed))) as Hl.
    now rewrite Epost in Hl.
  - pose proof (execute_all_runs post
                  (set_team_members (snd (now (set_world La w')))
                     (dict_update (team_members La) name incr_failed)) L2) as Hr.
    rewrite Epost in Hr. apply Hr. intros k. simpl.
    rewrite dict_mem_update.
    clear - Hpre. revert L2 rs_pre pre' La Hpre.
    induction pre as [|u pre IH]; intros L2 rs_pre pre' La Hpre; simpl in Hpre.
    + now inversion Hpre.
    + pose proof (execute_task_members u L2 k) as Hk.
      destruct (execute_task u L2) as [[r u'] Lx].
      destruct (execute_all pre Lx) as [[rs us] Ly] eqn:E.
      inversion Hpre; subst. rewrite (IH _ _ _ _ E). exact Hk.
  - pose proof (delegate_all_status planned L1) as Hs. now rewrite Hdel in Hs.
  - pose proof (delegate_all_length planned L1) as Hl. now rewrite Hdel in Hl.
  - unfold execute_goal. rewrite Hplan, Hdel, Hsplit, execute_all_app, Hpre.
    simpl. rewrite Hexec, Epost. reflexivity.
Qed.

(** ** Tasks no worker can take *)

Lemma caps_of_update m n f :
  (forall d, capabilities (f d) = capabilities d) ->
  caps_of (dict_update m n f) = caps_of m.
Proof.
  intros Hf. induction m as [|[k v] m IH]; simpl; [reflexivity|].
  destruct (String.eqb n k); simpl; [now rewrite Hf|now rewrite IH].
Qed.

Lemma capable_for_nil ty m :
  capable_for ty m = [] <->
  forallb (fun kc => negb (mem_str ty (snd kc))) (caps_of m) = true.
Proof.
  unfold capable_for. induction m as [|[k v] m IH]; simpl; [split; reflexivity|].
  destruct (mem_str ty (capabilities v)); simpl; [split; discriminate|exact IH].
Qed.

Lemma capable_for_nil_ext ty m m' :
  caps_of m' = caps_of m -> capable_for ty m = [] -> capable_for ty m' = [].
Proof. intros E H. apply capable_for_nil. rewrite E. now apply capable_for_nil. Qed.

Lemma delegate_task_caps t L :
  caps_of (team_members (snd (delegate_task t L))) = caps_of (team_members L).
Proof.
  unfold delegate_task. destruct (capable_agents t L); simpl; [reflexivity|].
  now apply caps_of_update.
Qed.

Lemma delegate_all_caps ts L :
  caps_of (team_members (snd (delegate_all ts L))) = caps_of (team_members L).
Proof.
  revert L. induction ts as [|t ts IH]; intros L; simpl; [reflexivity|].
  pose proof (delegate_task_caps t L) as Ht.
  destruct (delegate_task t L) as [[b t'] L1]. specialize (IH L1).
  destruct (delegate_all ts L1) as [ts' L2]. simpl in *. congruence.
Qed.

Lemma delegate_task_unroutable t L :
  capable_agents t L = [] -> delegate_task t L = (false, mark_unroutable t, L).
Proof. intros H. unfold delegate_task. now rewrite H. Qed.

(** C3. A task whose type no registered worker lists is set FAILED by
    [delegate_task], with an [error] that names the type, and [false]
    is returned.  Left without a worker, it makes [execute_task] raise
    before any worker is called and before anything is changed; the
    exception stops in [execute_goal], which returns its report.  The
    whole run is the run of the batch without that task, with the task,
    as [delegate_task] left it, put back at its place: no worker is
    called for it. *)
Theorem unroutable_task_never_executed :
  forall goal context L planned L1 pre t post,
    plan_tasks goal context (if initialized L then L else initialize L)
      = (Ok planned, L1) ->
    planned = pre ++ t :: post ->
    capable_agents t L1 = [] ->
    assigned_to t = None ->
    let t' := mark_unroutable t in
    (forall L', capable_agents t L' = [] -> delegate_task t L' = (false, t', L')) /\
    status t' = FAILED /\
    error t' = Some ("No agent available for task type: " ++ task_type t)%string /\
    (forall L', execute_task t' L' = (Raise not_assigned, t', L')) /\
    exists rs pre' post' Lf,
      List.length pre' = List.length pre /\
      run_tasks (pre ++ post) L1 = (rs, pre' ++ post', Lf) /\
      run_tasks (pre ++ t :: post) L1 = (rs, pre' ++ t' :: post', Lf) /\
      execute_goal goal context L =
        (Ok (aggregate_results (pre' ++ t' :: post')
               (store_tasks (pre' ++ t' :: post') Lf)),
         store_tasks (pre' ++ t' :: post') Lf).
Proof.
  intros goal context L planned L1 pre t post Hplan Hsplit Hcap Hnone t'.
  assert (Hexec : forall L', execute_task t' L' = (Raise not_assigned, t', L')).
  { intros L'. apply execute_task_unassigned. exact Hnone. }
  split; [intros L'; apply delegate_task_unroutable|].
  split; [reflexivity|]. split; [reflexivity|]. split; [exact Hexec|].
  (* delegation *)
  destruct (delegate_all pre L1) as [dpre La] eqn:Edpre.
  assert (Hcap' : capable_agents t La = []).
  { unfold capable_agents in *. apply capable_for_nil_ext with (m := team_members L1);
      [|exact Hcap].
    pose proof (delegate_all_caps pre L1) as H. now rewrite Edpre in H. }
  destruct (delegate_all post La) as [dpost L2] eqn:Edpost.
  assert (Hd1 : delegate_all (pre ++ post) L1 = (dpre ++ dpost, L2)).
  { now rewrite delegate_all_app, Edpre, Edpost. }
  assert (Hd2 : delegate_all (pre ++ t :: post) L1 = (dpre ++ t' :: dpost, L2)).
  { rewrite delegate_all_app, Edpre. simpl.
    rewrite (delegate_task_unroutable t La Hcap'), Edpost. reflexivity. }
  (* execution *)
  destruct (execute_all dpre L2) as [[r1 pre'] Lx] eqn:Epre.
  destruct (execute_all dpost Lx) as [[r2 post'] Lf] eqn:Epost.
  exists (r1 ++ r2), pre', post', Lf.
  assert (He2 : execute_all (dpre ++ t' :: dpost) L2 =
                (r1 ++ r2, pre' ++ t' :: post', Lf)).
  { rewrite execute_all_app, Epre. simpl. rewrite Hexec, Epost. reflexivity. }
  split; [|split; [|split]].
  - pose proof (execute_all_length dpre L2) as H1. rewrite Epre in H1.
    pose proof (delegate_all_length pre L1) as H2. rewrite Edpre in H2.
    simpl in *. congruence.
  - unfold run_tasks. now rewrite Hd1, execute_all_app, Epre, Epost.
  - unfold run_tasks. now rewrite Hd2, He2.
  - unfold execute_goal. rewrite Hplan, Hsplit, Hd2, He2. reflexivity.
Qed.

(** ** Counters over a session *)

Lemma entry_le_refl d : entry_le d d.
Proof. unfold entry_le. repeat split; lia. Qed.

Lemma registry_le_refl m : registry_le m m.
Proof. intros k d H. exists d. split; [exact H|apply entry_le_refl]. Qed.

Lemma registry_le_trans m1 m2 m3 :
  registry_le m1 m2 -> registry_le m2 m3 -> registry_le m1 m3.
Proof.
  intros H12 H23 k d H.
  destruct (H12 k d H) as (d2 & Hd2 & Hle2).
  destruct (H23 k d2 Hd2) as (d3 & Hd3 & Hle3).
  exists d3. split; [exact Hd3|].
  unfold entry_le in *.
  destruct Hle2 as (? & ? & ? & ? & ?), Hle3 as (? & ? & ? & ? & ?).
  repeat split; try congruence; lia.
Qed.

Lemma registry_le_update m n f :
  (forall d, entry_le d (f d)) -> registry_le m (dict_update m n f).
Proof.
  intros Hf k d H. rewrite dict_get_update, H.
  destruct (String.eqb k n); simpl; eexists; split; try reflexivity;
    [apply Hf|apply entry_le_refl].
Qed.

Lemma dict_mem_keys {V : Type} (m : list (string * V)) k :
  dict_mem m k = mem_str k (dict_keys m).
Proof.
  unfold dict_mem, mem_str, dict_keys.
  induction m as [|[k' v] m IH]; simpl; [reflexivity|].
  destruct (String.eqb k k'); simpl; [reflexivity|exact IH].
Qed.

Lemma registry_le_set_fresh m n v :
  mem_str n (dict_keys m) = false -> registry_le m (dict_set m n v).
Proof.
  intros Hfresh k d H. rewrite dict_get_set.
  destruct (String.eqb k n) eqn:E.
  - apply String.eqb_eq in E; subst k.
    rewrite <- dict_mem_keys in Hfresh. unfold dict_mem in Hfresh.
    now rewrite H in Hfresh.
  - exists d. split; [exact H|apply entry_le_refl].
Qed.

Lemma dict_keys_set_fresh {V : Type} (m : list (string * V)) n v :
  mem_str n (dict_keys m) = false -> dict_keys (dict_set m n v) = dict_keys m ++ [n].
Proof.
  unfold dict_keys, mem_str. induction m as [|[k' v'] m IH]; simpl; [reflexivity|].
  destruct (String.eqb n k'); simpl; [discriminate|].
  intros H. now rewrite IH.
Qed.

Lemma mem_str_app k l1 l2 : mem_str k (l1 ++ l2) = mem_str k l1 || mem_str k l2.
Proof. unfold mem_str. apply existsb_app. Qed.

Lemma fresh_registrations_ext ops : forall names names',
  (forall k, mem_str k names = mem_str k names') ->
  fresh_registrations ops names = fresh_registrations ops names'.
Proof.
  induction ops as [|o ops IH]; intros names names' H; simpl; [reflexivity|].
  destruct o; try (now apply IH).
  rewrite H. f_equal. apply IH. intros k. unfold mem_str in *. simpl. now rewrite H.
Qed.

Lemma initialize_team_members L : team_members (initialize L) = team_members L.
Proof.
  unfold initialize. simpl.
  generalize (team_members L) at 1 as l. intros l. revert L.
  induction l as [|nd l IH]; intros L; simpl; [reflexivity|].
  now rewrite IH.
Qed.

Lemma incr_entry_le :
  (forall d, entry_le d (incr_assigned d)) /\
  (forall d, entry_le d (incr_completed d)) /\
  (forall d, entry_le d (incr_failed d)).
Proof. unfold entry_le; repeat split; simpl; lia. Qed.

Lemma delegate_task_le t L :
  registry_le (team_members L) (team_members (snd (delegate_task t L))) /\
  dict_keys (team_members (snd (delegate_task t L))) = dict_keys (team_members L).
Proof.
  unfold delegate_task. destruct (capable_agents t L); simpl.
  - split; [apply registry_le_refl|reflexivity].
  - split; [apply registry_le_update, incr_entry_le|apply dict_keys_update].
Qed.

Lemma execute_task_le t L :
  registry_le (team_members L) (team_members (snd (execute_task t L))) /\
  dict_keys (team_members (snd (execute_task t L))) = dict_keys (team_members L).
Proof.
  unfold execute_task. destruct (assigned_to t) as [name|];
    [|split; [apply registry_le_refl|reflexivity]].
  destruct (String.eqb name ""); [split; [apply registry_le_refl|reflexivity]|].
  destruct (dict_get (team_members L) name) as [d|];
    [|split; [apply registry_le_refl|reflexivity]].
  destruct (agent_execute (instance d) (metadata t) (world L)) as [[r|e] w'];
    simpl; (split; [apply registry_le_update, incr_entry_le|apply dict_keys_update]).
Qed.

Lemma delegate_all_le ts L :
  registry_le (team_members L) (team_members (snd (delegate_all ts L))) /\
  dict_keys (team_members (snd (delegate_all ts L))) = dict_keys (team_members L).
Proof.
  revert L. induction ts as [|t ts IH]; intros L; simpl.
  - split; [apply registry_le_refl|reflexivity].
  - destruct (delegate_task_le t L) as [H1 H2].
    destruct (delegate_task t L) as [[b t'] L1]. destruct (IH L1) as [H3 H4].
    destruct (delegate_all ts L1) as [ts' L2]. simpl in *.
    split; [eapply registry_le_trans; eassumption|congruence].
Qed.

Lemma execute_all_le ts L :
  registry_le (team_members L) (team_members (snd (execute_all ts L))) /\
  dict_keys (team_members (snd (execute_all ts L))) = dict_keys (team_members L).
Proof.
  revert L. induction ts as [|t ts IH]; intros L; simpl.
  - split; [apply registry_le_refl|reflexivity].
  - destruct (execute_task_le t L) as [H1 H2].
    destruct (execute_task t L) as [[r t'] L1]. destruct (IH L1) as [H3 H4].
    destruct (execute_all ts L1) as [[rs ts'] L2]. simpl in *.
    split; [eapply registry_le_trans; eassumption|congruence].
Qed.

(** ** Accounting: what a batch does to the counters *)

Lemma min_by_In {A : Type} (key : A -> nat) (c : A) (cs : list A) :
  In (min_by key c cs) (c :: cs).
Proof.
  destruct (min_by_spec key c cs) as (pre & post & Heq & _).
  rewrite Heq. apply in_or_app. right. now left.
Qed.

Lemma capable_for_registered ty m n d :
  In (n, d) (capable_for ty m) -> dict_mem m n = true.
Proof.
  intros H. apply filter_In in H. destruct H as [H _].
  apply dict_mem_In. unfold dict_keys. apply in_map_iff. now exists (n, d).
Qed.

Lemma counters_update (m : list (string * AgentData)) n f k :
  dict_mem m n = true ->
  dict_get (dict_update m n f) k =
  if String.eqb n k then option_map f (dict_get m k) else dict_get m k.
Proof. intros _. rewrite dict_get_update, String.eqb_sym. reflexivity. Qed.

Lemma count_ended_cons k s t ts :
  count_ended k s (t :: ts) =
  (if given_to k t && status_eqb (status t) s then 1 else 0) + count_ended k s ts.
Proof.
  unfold count_ended. simpl.
  destruct (given_to k t && status_eqb (status t) s); reflexivity.
Qed.

Lemma count_assigned_given k t ts :
  count_assigned k (t :: ts) = (if given_to k t then 1 else 0) + count_assigned k ts.
Proof.
  rewrite count_assigned_cons. unfold given_to.
  destruct (assigned_to t) as [n|]; reflexivity.
Qed.

(** One delegation of a task that names no worker yet. *)
Lemma delegate_task_account t L :
  assigned_to t = None -> result t = None -> error t = None ->
  dict_mem (team_members L) "" = false ->
  let t' := snd (fst (delegate_task t L)) in
  let m' := team_members (snd (delegate_task t L)) in
  routed (team_members L) t' /\
  task_id t' = task_id t /\ completed_at t' = completed_at t /\
  (forall k, dict_mem m' k = dict_mem (team_members L) k) /\
  (forall k, assigned_of m' k
             = assigned_of (team_members L) k + (if given_to k t' then 1 else 0)) /\
  (forall k, completed_of m' k = completed_of (team_members L) k) /\
  (forall k, failed_of m' k = failed_of (team_members L) k).
Proof.
  intros Ha Hres Herr Hempty. cbv zeta. unfold delegate_task, capable_agents.
  destruct (capable_for (task_type t) (team_members L)) as [|c cs] eqn:Ec; simpl.
  - unfold routed, given_to. simpl. rewrite Ha.
    repeat split; auto; try discriminate.
  - pose proof (min_by_In (fun x => tasks_assigned (snd x)) c cs) as Hin.
    rewrite <- Ec in Hin.
    destruct (min_by (fun x => tasks_assigned (snd x)) c cs) as [n d] eqn:Em.
    apply capable_for_registered in Hin. simpl.
    assert (Hn : n <> ""%string) by (intros ->; congruence).
    unfold routed, given_to, assigned_of, completed_of, failed_of. simpl.
    split; [repeat split; auto|]. split; [reflexivity|]. split; [reflexivity|].
    split; [intros k; apply dict_mem_update|].
    repeat split; intros k; rewrite (counters_update _ _ _ _ Hin);
      destruct (String.eqb n k) eqn:E; try reflexivity.
    + apply String.eqb_eq in E. subst k.
      unfold dict_mem in Hin. destruct (dict_get (team_members L) n); [|discriminate].
      simpl. lia.
    + lia.
    + now destruct (dict_get (team_members L) k).
    + now destruct (dict_get (team_members L) k).
Qed.

(** One execution of a task the delegator has been through. *)
Lemma execute_task_account t L :
  routed (team_members L) t ->
  let t' := snd (fst (execute_task t L)) in
  let m' := team_members (snd (execute_task t L)) in
  settled t' /\
  task_id t' = task_id t /\ assigned_to t' = assigned_to t /\
  (forall k, dict_mem m' k = dict_mem (team_members L) k) /\
  (forall k, assigned_of m' k = assigned_of (team_members L) k) /\
  (forall k, completed_of m' k
             = completed_of (team_members L) k
               + (if given_to k t' && status_eqb (status t') COMPLETED then 1 else 0)) /\
  (forall k, failed_of m' k
             = failed_of (team_members L) k
               + (if given_to k t' && status_eqb (status t') FAILED then 1 else 0)) /\
  (match fst (fst (execute_task t L)) with
   | Ok v => status t' = COMPLETED /\ result t' = Some v
   | Raise _ => status t' = FAILED
   end).
Proof.
  intros [Hres Hr]. cbv zeta. unfold execute_task.
  destruct (assigned_to t) as [n|] eqn:Ea.
  - destruct Hr as (Hn & Hmem & Hst & Herr).
    apply String.eqb_neq in Hn. rewrite Hn.
    pose proof Hmem as Hmem'. unfold dict_mem in Hmem'.
    destruct (dict_get (team_members L) n) as [d|] eqn:Eg; [|discriminate].
    destruct (agent_execute (instance d) (metadata t) (world L)) as [[v|e] w'];
      simpl; unfold settled, given_to, assigned_of, completed_of, failed_of; simpl;
      rewrite Ea.
    + split; [left; repeat split; auto; discriminate|].
      split; [reflexivity|]. split; [reflexivity|].
      split; [intros k; apply dict_mem_update|].
      repeat split; intros k; rewrite (counters_update _ _ _ _ Hmem);
        destruct (String.eqb n k) eqn:E; simpl; try lia;
        try (apply String.eqb_eq in E; subst k; rewrite Eg; simpl; lia);
        now destruct (dict_get (team_members L) k).
    + split; [right; repeat split; auto; discriminate|].
      split; [reflexivity|]. split; [reflexivity|].
      split; [intros k; apply dict_mem_update|].
      repeat split; intros k; rewrite (counters_update _ _ _ _ Hmem);
        destruct (String.eqb n k) eqn:E; simpl; try lia;
        try (apply String.eqb_eq in E; subst k; rewrite Eg; simpl; lia);
        now destruct (dict_get (team_members L) k).
  - destruct Hr as [Hst Herr]. simpl.
    unfold settled, given_to. rewrite Ea, Hst. simpl.
    split; [right; auto|]. repeat split; auto.
Qed.

Lemma routed_ext m m' t :
  (forall k, dict_mem m' k = dict_mem m k) -> routed m t -> routed m' t.
Proof.
  intros H [Hres Hr]. split; [exact Hres|].
  destruct (assigned_to t); [|exact Hr]. now rewrite H.
Qed.

Lemma delegate_all_account ts : forall L,
  Forall unstarted ts ->
  dict_mem (team_members L) "" = false ->
  let ts' := fst (delegate_all ts L) in
  let m' := team_members (snd (delegate_all ts L)) in
  Forall (routed m') ts' /\
  map task_id ts' = map task_id ts /\
  (forall k, dict_mem m' k = dict_mem (team_members L) k) /\
  (forall k, assigned_of m' k = assigned_of (team_members L) k + count_assigned k ts') /\
  (forall k, completed_of m' k = completed_of (team_members L) k) /\
  (forall k, failed_of m' k = failed_of (team_members L) k).
Proof.
  induction ts as [|t ts IH]; intros L Hall Hempty; cbv zeta; simpl.
  - unfold count_assigned. simpl. repeat split; auto.
  - inversion Hall as [|? ? (Ha & _ & _ & Hres & Herr) Hall']; subst.
    pose proof (delegate_task_account t L Ha Hres Herr Hempty) as Hstep.
    cbv zeta in Hstep.
    destruct (delegate_task t L) as [[b t'] L1]. simpl in Hstep.
    destruct Hstep as (Hr & Hid & _ & Hmem & Has & Hco & Hfa).
    assert (Hempty1 : dict_mem (team_members L1) "" = false) by now rewrite Hmem.
    specialize (IH L1 Hall' Hempty1). cbv zeta in IH.
    destruct (delegate_all ts L1) as [ts' L2]. simpl in *.
    destruct IH as (Hrs & Hids & Hmem2 & Has2 & Hco2 & Hfa2).
    split; [constructor;
            [apply (routed_ext (team_members L)); [intros k; now rewrite Hmem2|exact Hr]
            |exact Hrs]|].
    split; [now rewrite Hid, Hids|].
    split; [intros k; now rewrite Hmem2, Hmem|].
    split; [intros k; rewrite Has2, Has, count_assigned_given; lia|].
    split; intros k; [now rewrite Hco2|now rewrite Hfa2].
Qed.

Lemma execute_all_account ts : forall L,
  Forall (routed (team_members L)) ts ->
  let ts' := snd (fst (execute_all ts L)) in
  let m' := team_members (snd (execute_all ts L)) in
  Forall settled ts' /\
  map task_id ts' = map task_id ts /\
  map assigned_to ts' = map assigned_to ts /\
  (forall k, dict_mem m' k = dict_mem (team_members L) k) /\
  (forall k, assigned_of m' k = assigned_of (team_members L) k) /\
  (forall k, completed_of m' k
             = completed_of (team_members L) k + count_ended k COMPLETED ts') /\
  (forall k, failed_of m' k
             = failed_of (team_members L) k + count_ended k FAILED ts') /\
  List.length (fst (fst (execute_all ts L)))
  = List.length (filter (fun t => status_eqb (status t) COMPLETED) ts').
Proof.
  induction ts as [|t ts IH]; intros L Hall; cbv zeta; simpl.
  - unfold count_ended. simpl. repeat split; auto.
  - inversion Hall as [|? ? Hr Hall']; subst.
    pose proof (execute_task_account t L Hr) as Hstep. cbv zeta in Hstep.
    destruct (execute_task t L) as [[r t'] L1]. simpl in Hstep.
    destruct Hstep as (Hs & Hid & Has & Hmem & Hao & Hco & Hfa & Hout).
    assert (Hall1 : Forall (routed (team_members L1)) ts).
    { eapply Forall_impl; [|exact Hall']. intros u. apply routed_ext. exact Hmem. }
    specialize (IH L1 Hall1). cbv zeta in IH.
    destruct (execute_all ts L1) as [[rs ts'] L2]. simpl in *.
    destruct IH as (Hss & Hids & Hass & Hmem2 & Hao2 & Hco2 & Hfa2 & Hlen).
    split; [now constructor|].
    split; [now rewrite Hid, Hids|]. split; [now rewrite Has, Hass|].
    split; [intros k; now rewrite Hmem2|].
    split; [intros k; now rewrite Hao2|].
    split; [intros k; rewrite Hco2, Hco, count_ended_cons; lia|].
    split; [intros k; rewrite Hfa2, Hfa, count_ended_cons; lia|].
    destruct r as [v|e].
    + destruct Hout as [Hst _]. rewrite Hst. simpl. now rewrite Hlen.
    + rewrite Hout. simpl. exact Hlen.
Qed.

Lemma count_assigned_map ts ts' k :
  map assigned_to ts' = map assigned_to ts ->
  count_assigned k ts' = count_assigned k ts.
Proof.
  revert ts'. induction ts as [|t ts IH]; intros [|t' ts'] H; try discriminate;
    [reflexivity|].
  simpl in H. inversion H as [[H1 H2]].
  rewrite !count_assigned_cons, H1, (IH ts' H2). reflexivity.
Qed.

Lemma count_ended_split k ts :
  Forall settled ts ->
  count_assigned k ts = count_ended k COMPLETED ts + count_ended k FAILED ts.
Proof.
  induction 1 as [|t ts Hs _ IH]; [reflexivity|].
  rewrite count_assigned_given, !count_ended_cons, IH.
  destruct (given_to k t); simpl; [|lia].
  destruct Hs as [(-> & _)|(-> & _)]; simpl; lia.
Qed.

(** Both loops of [execute_goal] on a batch of unstarted tasks leave
    every task at its end, under the identifier it had. *)
Lemma run_tasks_settled :
  forall (planned : list Task) (L : Leader),
    Forall unstarted planned ->
    dict_mem (team_members L) "" = false ->
    Forall settled (snd (fst (run_tasks planned L))) /\
    map task_id (snd (fst (run_tasks planned L))) = map task_id planned.
Proof.
  intros planned L Hall Hempty. unfold run_tasks.
  pose proof (delegate_all_account planned L Hall Hempty) as Hd. cbv zeta in Hd.
  destruct (delegate_all planned L) as [delegated L1]. simpl in Hd.
  destruct Hd as (Hr & Hids & _).
  pose proof (execute_all_account delegated L1 Hr) as He. cbv zeta in He.
  destruct (execute_all delegated L1) as [[rs final] L2]. simpl in *.
  destruct He as (Hs & Hids2 & _).
  split; [exact Hs|congruence].
Qed.

(** X10. What a batch leaves behind.  When the planned tasks name no
    worker yet and no worker is registered under the empty name, the
    two loops of [execute_goal] return the same tasks in the same order
    and each has reached its end: completed, its result set to what
    the worker returned and no error, or failed, with an error and its
    result never set.  For every worker,
    [tasks_assigned] has grown by the number of tasks given to it,
    [tasks_completed] by the number of those that completed and
    [tasks_failed] by the number that failed, the two adding up to the
    first; and the returned values are as many as the completed
    tasks. *)
Theorem run_tasks_settles_and_accounts :
  forall (planned : list Task) (L : Leader),
    Forall unstarted planned ->
    dict_mem (team_members L) "" = false ->
    let final := snd (fst (run_tasks planned L)) in
    let m' := team_members (snd (run_tasks planned L)) in
    Forall settled final /\
    map task_id final = map task_id planned /\
    List.length (fst (fst (run_tasks planned L)))
      = List.length (filter (fun t => status_eqb (status t) COMPLETED) final) /\
    forall k,
      assigned_of m' k = assigned_of (team_members L) k + count_assigned k final /\
      completed_of m' k
        = completed_of (team_members L) k + count_ended k COMPLETED final /\
      failed_of m' k = failed_of (team_members L) k + count_ended k FAILED final /\
      count_assigned k final
        = count_ended k COMPLETED final + count_ended k FAILED final.
Proof.
  intros planned L Hall Hempty. cbv zeta. unfold run_tasks.
  pose proof (delegate_all_account planned L Hall Hempty) as Hd. cbv zeta in Hd.
  destruct (delegate_all planned L) as [delegated L1]. simpl in Hd.
  destruct Hd as (Hr & Hids & Hmem & Has & Hco & Hfa).
  pose proof (execute_all_account delegated L1 Hr) as He. cbv zeta in He.
  destruct (execute_all delegated L1) as [[rs final] L2]. simpl in *.
  destruct He as (Hs & Hids2 & Hass & Hmem2 & Hao & Hco2 & Hfa2 & Hlen).
  split; [exact Hs|]. split; [congruence|]. split; [exact Hlen|].
  intros k.
  split; [rewrite Hao, Has, (count_assigned_map delegated final k Hass); reflexivity|].
  split; [now rewrite Hco2, Hco|]. split; [now rewrite Hfa2, Hfa|].
  now apply count_ended_split.
Qed.

(** ** Sharing a batch among any number of workers *)

Lemma entry_unique {V : Type} (l : list (string * V)) k (v v' : V) :
  NoDup (dict_keys l) -> In (k, v) l -> In (k, v') l -> v = v'.
Proof.
  intros Hnd H1 H2.
  pose proof (dict_get_In_NoDup l k v Hnd H1) as E1.
  pose proof (dict_get_In_NoDup l k v' Hnd H2) as E2. congruence.
Qed.

Lemma total_assigned_bump (l : list (string * AgentData)) name d :
  NoDup (dict_keys l) -> In (name, d) l ->
  total_assigned
    (map (fun kv => if String.eqb name (fst kv)
                    then (fst kv, incr_assigned (snd kv)) else kv) l)
  = S (total_assigned l).
Proof.
  unfold dict_keys. induction l as [|[k v] l IH]; simpl; [intros _ []|].
  intros Hnd Hin. inversion Hnd as [|? ? Hnin Hnd']; subst.
  destruct (String.eqb name k) eqn:E; simpl.
  - apply String.eqb_eq in E. subst k. f_equal. f_equal.
    clear - Hnin. induction l as [|[k1 v1] l IH]; simpl; [reflexivity|].
    simpl in Hnin. destruct (String.eqb name k1) eqn:E1.
    + apply String.eqb_eq in E1. subst. exfalso. apply Hnin. now left.
    + simpl. f_equal. apply IH. intros H. apply Hnin. now right.
  - destruct Hin as [[= <- <-]|Hin]; [now rewrite String.eqb_refl in E|].
    rewrite (IH Hnd' Hin). lia.
Qed.

Lemma delegate_task_level ty t L :
  NoDup (dict_keys (team_members L)) ->
  task_type t = ty ->
  level ty (team_members L) ->
  capable_for ty (team_members L) <> [] ->
  NoDup (dict_keys (team_members (snd (delegate_task t L)))) /\
  level ty (team_members (snd (delegate_task t L))) /\
  List.length (capable_for ty (team_members (snd (delegate_task t L))))
    = List.length (capable_for ty (team_members L)) /\
  total_assigned (capable_for ty (team_members (snd (delegate_task t L))))
    = S (total_assigned (capable_for ty (team_members L))).
Proof.
  intros Hnd Hty Hlev Hne.
  assert (Hne' : capable_agents t L <> []) by (unfold capable_agents; now rewrite Hty).
  destruct (delegate_task_chosen t L Hne')
    as (name & d & pre & post & Hcap & Hpre & Hpost & Hdel).
  unfold capable_agents in Hcap. rewrite Hty in Hcap.
  rewrite Hdel. simpl.
  pose proof (filter_keys_NoDup
                (fun nd => mem_str ty (capabilities (snd nd))) _ Hnd) as Hndc.
  fold (capable_for ty (team_members L)) in Hndc.
  assert (Hin : In (name, d) (capable_for ty (team_members L))).
  { rewrite Hcap. apply in_or_app. right. now left. }
  assert (Hmin : forall y, In y (capable_for ty (team_members L)) ->
                           tasks_assigned d <= tasks_assigned (snd y)).
  { intros y Hy. rewrite Hcap in Hy. apply in_app_or in Hy.
    destruct Hy as [Hy|[<-|Hy]];
      [specialize (Hpre y Hy); lia|simpl; lia|now apply Hpost]. }
  rewrite capable_for_update by (assumption || apply incr_assigned_capabilities).
  split; [rewrite dict_keys_update; exact Hnd|].
  split; [|split; [apply length_map|now apply (total_assigned_bump _ name d)]].
  assert (Hload : forall x,
             In x (map (fun kv => if String.eqb name (fst kv)
                                  then (fst kv, incr_assigned (snd kv)) else kv)
                       (capable_for ty (team_members L))) ->
             (tasks_assigned (snd x) = S (tasks_assigned d)) \/
             (In x (capable_for ty (team_members L)) /\ fst x <> name)).
  { intros x Hx. apply in_map_iff in Hx. destruct Hx as ([k v] & <- & Hk).
    simpl. destruct (String.eqb name k) eqn:E.
    - apply String.eqb_eq in E. subst k. left. simpl.
      now rewrite (entry_unique _ _ _ _ Hndc Hk Hin).
    - right. split; [exact Hk|]. simpl. intros ->.
      now rewrite String.eqb_refl in E. }
  intros x y Hx Hy.
  rewrite capable_for_update in Hx, Hy
    by (assumption || apply incr_assigned_capabilities).
  destruct (Hload x Hx) as [Ex|[Hx0 _]], (Hload y Hy) as [Ey|[Hy0 _]].
  - lia.
  - specialize (Hmin y Hy0). lia.
  - specialize (Hlev x (name, d) Hx0 Hin). simpl in Hlev. lia.
  - exact (Hlev x y Hx0 Hy0).
Qed.

(** X14. Tasks of one type are shared evenly whatever the number of
    workers able to take them: if the loads of these workers differ by
    at most one before a batch of such tasks is delegated, they still
    differ by at most one after, and together the workers have taken
    every task of the batch. *)
Theorem delegate_all_keeps_level :
  forall (ty : string) (ts : list Task) (L : Leader),
    NoDup (dict_keys (team_members L)) ->
    Forall (fun t => task_type t = ty) ts ->
    level ty (team_members L) ->
    capable_for ty (team_members L) <> [] ->
    let m' := team_members (snd (delegate_all ts L)) in
    level ty m' /\
    List.length (capable_for ty m') = List.length (capable_for ty (team_members L)) /\
    total_assigned (capable_for ty m')
      = total_assigned (capable_for ty (team_members L)) + List.length ts.
Proof.
  intros ty ts. induction ts as [|t ts IH]; intros L Hnd Hty Hlev Hne; cbv zeta.
  - simpl. split; [exact Hlev|]. split; [reflexivity|lia].
  - inversion Hty as [|? ? Ht Hts]; subst. simpl.
    destruct (delegate_task_level _ t L Hnd eq_refl Hlev Hne)
      as (Hnd1 & Hlev1 & Hlen1 & Htot1).
    destruct (delegate_task t L) as [[b t'] L1]. simpl in *.
    assert (Hne1 : capable_for (task_type t) (team_members L1) <> []).
    { intros E. rewrite E in Hlen1. simpl in Hlen1.
      destruct (capable_for (task_type t) (team_members L)); [congruence|discriminate]. }
    specialize (IH L1 Hnd1 Hts Hlev1 Hne1). cbv zeta in IH.
    destruct (delegate_all ts L1) as [ts' L2]. simpl in *.
    destruct IH as (H1 & H2 & H3). split; [exact H1|]. split; lia.
Qed.

(** ** The task store *)

Lemma delegate_all_ids ts L :
  map task_id (fst (delegate_all ts L)) = map task_id ts.
Proof.
  revert L. induction ts as [|t ts IH]; intros L; simpl; [reflexivity|].
  assert (Ht : task_id (snd (fst (delegate_task t L))) = task_id t).
  { unfold delegate_task. now destruct (capable_agents t L). }
  destruct (delegate_task t L) as [[b t'] L1]. specialize (IH L1).
  destruct (delegate_all ts L1) as [ts' L2]. simpl in *. now rewrite Ht, IH.
Qed.

Lemma execute_task_id t L : task_id (snd (fst (execute_task t L))) = task_id t.
Proof.
  unfold execute_task. destruct (assigned_to t) as [n|]; [|reflexivity].
  destruct (String.eqb n ""); [reflexivity|].
  destruct (dict_get (team_members L) n) as [d|]; [|reflexivity].
  now destruct (agent_execute (instance d) (metadata t) (world L)) as [[v|e] w'].
Qed.

Lemma execute_task_store t L : tasks (snd (execute_task t L)) = tasks L.
Proof.
  unfold execute_task. destruct (assigned_to t) as [n|]; [|reflexivity].
  destruct (String.eqb n ""); [reflexivity|].
  destruct (dict_get (team_members L) n) as [d|]; [|reflexivity].
  now destruct (agent_execute (instance d) (metadata t) (world L)) as [[v|e] w'].
Qed.

Lemma delegate_all_store ts L : tasks (snd (delegate_all ts L)) = tasks L.
Proof.
  revert L. induction ts as [|t ts IH]; intros L; simpl; [reflexivity|].
  assert (Ht : tasks (snd (delegate_task t L)) = tasks L).
  { unfold delegate_task. now destruct (capable_agents t L). }
  destruct (delegate_task t L) as [[b t'] L1]. specialize (IH L1).
  destruct (delegate_all ts L1) as [ts' L2]. simpl in *. congruence.
Qed.

Lemma execute_all_ids ts L :
  map task_id (snd (fst (execute_all ts L))) = map task_id ts /\
  tasks (snd (execute_all ts L)) = tasks L.
Proof.
  revert L. induction ts as [|t ts IH]; intros L; simpl; [auto|].
  pose proof (execute_task_id t L) as Hid.
  pose proof (execute_task_store t L) as Hst.
  destruct (execute_task t L) as [[r t'] L1]. destruct (IH L1) as [IH1 IH2].
  destruct (execute_all ts L1) as [[rs ts'] L2]. simpl in *.
  split; congruence.
Qed.

(** X12. Once [execute_goal] is over, each task of the batch can be
    looked up in the task store under its id and shows as the batch
    left it, provided the planner gave the tasks distinct ids; what was
    stored under other ids is still there. *)
Theorem execute_goal_stores_the_batch :
  forall (goal : string) (context : option pydict) (L : Leader)
         (planned : list Task) (L1 : Leader),
    plan_tasks goal context (if initialized L then L else initialize L)
      = (Ok planned, L1) ->
    NoDup (map task_id planned) ->
    let final := snd (fst (run_tasks planned L1)) in
    let L' := snd (execute_goal goal context L) in
    map task_id final = map task_id planned /\
    (forall t, In t final -> dict_get (tasks L') (task_id t) = Some t) /\
    (forall k, ~ In k (map task_id planned) ->
               dict_get (tasks L') k = dict_get (tasks L1) k).
Proof.
  intros goal context L planned L1 Hplan Hnd. cbv zeta.
  unfold execute_goal, run_tasks. rewrite Hplan.
  pose proof (delegate_all_ids planned L1) as Hd.
  pose proof (delegate_all_store planned L1) as Hds.
  destruct (delegate_all planned L1) as [delegated L2].
  destruct (execute_all_ids delegated L2) as [He Hes].
  destruct (execute_all delegated L2) as [[rs final] L3]. simpl in *.
  assert (Hids : map task_id final = map task_id planned) by congruence.
  rewrite <- Hids in Hnd.
  destruct (dict_store_batch task_id (fun t => t) final (tasks L3) Hnd) as [H1 H2].
  split; [exact Hids|]. split; [exact H1|].
  intros k Hk. rewrite <- Hids in Hk. rewrite (H2 k Hk). congruence.
Qed.

(** ** The status report *)

Lemma count_status_partition (store : list (string * Task)) :
  List.length store
    = count_status PENDING store + count_status IN_PROGRESS store
      + count_status COMPLETED store + count_status FAILED store
      + count_status DELEGATED store.
Proof.
  unfold count_status. induction store as [|[k t] store IH]; [reflexivity|].
  simpl. destruct (status t); simpl; lia.
Qed.

Lemma count_status_settled (store : list (string * Task)) :
  Forall settled (map snd store) ->
  count_status PENDING store = 0 /\ count_status IN_PROGRESS store = 0 /\
  count_status DELEGATED store = 0.
Proof.
  unfold count_status. induction store as [|[k t] store IH]; simpl; [auto|].
  intros H. inversion H as [|? ? Ht Hrest]; subst.
  destruct (IH Hrest) as (Hp & Hi & Hd).
  destruct Ht as [(Hs & _)|(Hs & _)]; rewrite Hs; simpl; auto.
Qed.

Lemma dict_set_values {V : Type} (P : V -> Prop) (d : list (string * V)) k v :
  Forall P (map snd d) -> P v -> Forall P (map snd (dict_set d k v)).
Proof.
  intros Hd Hv. induction d as [|[k' v'] d IH]; simpl.
  - constructor; [exact Hv|constructor].
  - simpl in Hd. inversion Hd; subst.
    destruct (String.eqb k k'); simpl; constructor; auto.
Qed.

Lemma store_values (P : Task -> Prop) (ts : list Task) :
  forall d, Forall P (map snd d) -> Forall P ts ->
            Forall P (map snd (fold_left (fun d t => dict_set d (task_id t) t) ts d)).
Proof.
  induction ts as [|t ts IH]; intros d Hd Hts; simpl; [exact Hd|].
  inversion Hts; subst. apply IH; [now apply dict_set_values|assumption].
Qed.

(** X13. The four counts that [get_team_status] reports beside the
    total leave out tasks whose status is DELEGATED: they add up to the
    total less the number of those.  After [execute_goal], on a leader
    whose stored tasks had all reached their end, with planned tasks
    that name no worker yet and no worker registered under the empty
    name, the report shows no pending and no running task, and
    completed and failed add up to the total. *)
Theorem team_status_counts :
  forall (goal : string) (context : option pydict) (L : Leader)
         (planned : list Task) (L1 : Leader),
    let before := ts_tasks (get_team_status L) in
    n_pending before + n_in_progress before + n_completed before + n_failed before
      + count_status DELEGATED (tasks L) = n_total before /\
    (plan_tasks goal context (if initialized L then L else initialize L)
       = (Ok planned, L1) ->
     Forall unstarted planned ->
     dict_mem (team_members L1) "" = false ->
     Forall settled (map snd (tasks L1)) ->
     let after := ts_tasks (get_team_status (snd (execute_goal goal context L))) in
     n_pending after = 0 /\ n_in_progress after = 0 /\
     n_completed after + n_failed after = n_total after).
Proof.
  intros goal context L planned L1. cbv zeta. split.
  - simpl. rewrite (count_status_partition (tasks L)). lia.
  - intros Hplan Hun Hempty Hst.
    destruct (run_tasks_settled planned L1 Hun Hempty) as (Hs & _).
    pose proof (execute_all_ids (fst (delegate_all planned L1))
                  (snd (delegate_all planned L1))) as [_ Hes].
    pose proof (delegate_all_store planned L1) as Hds.
    unfold execute_goal. rewrite Hplan. unfold run_tasks in Hs.
    destruct (delegate_all planned L1) as [delegated L2].
    cbn [fst snd] in Hes, Hds, Hs.
    destruct (execute_all delegated L2) as [[rs final] L3]. simpl in *.
    assert (Hall : Forall settled
              (map snd (fold_left (fun d t => dict_set d (task_id t) t) final (tasks L3)))).
    { apply store_values; [|exact Hs]. rewrite Hes, Hds. exact Hst. }
    destruct (count_status_settled _ Hall) as (Hp & Hi & Hd).
    pose proof (count_status_partition
                  (fold_left (fun d t => dict_set d (task_id t) t) final (tasks L3))) as Hpart.
    rewrite Hp, Hi. split; [reflexivity|]. split; [reflexivity|]. lia.
Qed.

Section Sessions.

(** Planning leaves the registry alone. *)
Hypothesis plan_tasks_team_members :
  forall goal context L,
    team_members (snd (plan_tasks goal context L)) = team_members L.

Lemma execute_goal_le goal context L :
  registry_le (team_members L) (team_members (snd (execute_goal goal context L))) /\
  dict_keys (team_members (snd (execute_goal goal context L))) = dict_keys (team_members L).
Proof using plan_tasks_team_members.
  unfold execute_goal.
  set (L0 := if initialized L then L else initialize L).
  assert (H0 : team_members L0 = team_members L).
  { unfold L0. destruct (initialized L); [reflexivity|apply initialize_team_members]. }
  pose proof (plan_tasks_team_members goal context L0) as Hp.
  destruct (plan_tasks goal context L0) as [[planned|e] L1]; simpl in *.
  - destruct (delegate_all_le planned L1) as [H1 H2].
    destruct (delegate_all planned L1) as [delegated L2].
    destruct (execute_all_le delegated L2) as [H3 H4].
    destruct (execute_all delegated L2) as [[rs final] L3]. simpl in *.
    rewrite <- H0, <- Hp.
    split; [eapply registry_le_trans; eassumption|congruence].
  - rewrite Hp, H0. split; [apply registry_le_refl|reflexivity].
Qed.

Lemma run_session_le ops : forall L,
  fresh_registrations ops (dict_keys (team_members L)) = true ->
  registry_le (team_members L) (team_members (run_session ops L)).
Proof using plan_tasks_team_members.
  induction ops as [|o ops IH]; intros L Hfresh; simpl; [apply registry_le_refl|].
  assert (Hstep : forall L',
             registry_le (team_members L) (team_members L') ->
             dict_keys (team_members L') = dict_keys (team_members L) ->
             fresh_registrations ops (dict_keys (team_members L)) = true ->
             registry_le (team_members L) (team_members (run_session ops L'))).
  { intros L' Hle Hk Hf. eapply registry_le_trans; [exact Hle|].
    apply IH. now rewrite Hk. }
  destruct o as [n i c| |t|t|g c]; simpl in Hfresh |- *.
  - apply andb_prop in Hfresh. destruct Hfresh as [Hn Hf].
    apply negb_true_iff in Hn.
    eapply registry_le_trans; [apply registry_le_set_fresh; exact Hn|].
    apply (IH (register_agent n i c L)). simpl.
    rewrite dict_keys_set_fresh by exact Hn.
    rewrite <- Hf. apply fresh_registrations_ext. intros k.
    rewrite mem_str_app. unfold mem_str. simpl.
    rewrite orb_false_r. apply orb_comm.
  - apply Hstep; [rewrite initialize_team_members; apply registry_le_refl
                 |now rewrite initialize_team_members|exact Hfresh].
  - now apply Hstep; try apply delegate_task_le.
  - now apply Hstep; try apply execute_task_le.
  - now apply Hstep; try apply execute_goal_le.
Qed.

(** C9, as amended.  Over a session of orchestrator operations in which
    no [register_agent] reuses a name, every entry of the registry
    stays in place with its worker and capabilities, and none of its
    three counters ever goes down; [initialize] and a [register_agent]
    under another name leave an entry as it is, so only the delegator
    and the executor move the counters.  A [register_agent] under a
    name in use, however, replaces the entry by one with all three
    counters at zero. *)
Theorem counters_monotone_without_reregistration :
  (forall (ops : list operation) (L : Leader) (name : string) (d : AgentData),
      fresh_registrations ops (dict_keys (team_members L)) = true ->
      dict_get (team_members L) name = Some d ->
      exists d',
        dict_get (team_members (run_session ops L)) name = Some d' /\
        instance d' = instance d /\ capabilities d' = capabilities d /\
        tasks_assigned d <= tasks_assigned d' /\
        tasks_completed d <= tasks_completed d' /\
        tasks_failed d <= tasks_failed d') /\
  (forall L, team_members (initialize L) = team_members L) /\
  (forall n i c L k,
      k <> n ->
      dict_get (team_members (register_agent n i c L)) k
      = dict_get (team_members L) k) /\
  (forall n i c L,
      dict_get (team_members (register_agent n i c L)) n
      = Some {| instance := i; capabilities := c; tasks_assigned := 0;
                tasks_completed := 0; tasks_failed := 0 |}).
Proof using plan_tasks_team_members.
  split; [|split; [|split]].
  - intros ops L name d Hfresh Hd.
    destruct (run_session_le ops L Hfresh name d Hd) as (d' & Hd' & Hle).
    exists d'. destruct Hle as (Hi & Hc & Ha & Hco & Hf).
    repeat split; auto.
  - exact initialize_team_members.
  - intros n i c L k Hk. simpl. rewrite dict_get_set.
    apply String.eqb_neq in Hk. now rewrite Hk.
  - intros n i c L. simpl. rewrite dict_get_set. now rewrite String.eqb_refl.
Qed.

End Sessions.

End Orchestrator.
End Registry.

Arguments mkAgentData {Inst}.
Arguments mkLeader {Inst W}.
Arguments instance {Inst}.
Arguments capabilities {Inst}.
Arguments tasks_assigned {Inst}.
Arguments tasks_completed {Inst}.
Arguments tasks_failed {Inst}.
Arguments incr_assigned {Inst}.
Arguments incr_completed {Inst}.
Arguments incr_failed {Inst}.
Arguments capable_for {Inst}.
Arguments fresh_registrations {Inst}.
Arguments entry_le {Inst}.
Arguments registry_le {Inst}.
Arguments caps_of {Inst}.
Arguments OpRegister {Inst}.
Arguments OpInitialize {Inst}.
Arguments OpDelegate {Inst}.
Arguments OpExecute {Inst}.
Arguments OpExecuteGoal {Inst}.
Arguments team_name {Inst W}.
Arguments config {Inst W}.
Arguments team_members {Inst W}.
Arguments tasks {Inst W}.
Arguments task_counter {Inst W}.
Arguments initialized {Inst W}.
Arguments world {Inst W}.
Arguments clock_reads {Inst W}.
Arguments set_team_members {Inst W}.
Arguments set_tasks {Inst W}.
Arguments set_task_counter {Inst W}.
Arguments set_initialized {Inst W}.
Arguments set_world {Inst W}.
Arguments now {Inst W}.
Arguments Leader_init {Inst W}.
Arguments register_agent {Inst W}.
Arguments initialize {Inst W}.
Arguments capable_agents {Inst W}.
Arguments delegate_task {Inst W}.
Arguments execute_task {Inst W}.
Arguments delegate_all {Inst W}.
Arguments execute_all {Inst W}.
Arguments store_tasks {Inst W}.
Arguments run_tasks {Inst W}.
Arguments runnable {Inst W}.
Arguments execute_goal {Inst W} _ _ _ {Report}.
Arguments apply_op {Inst W} _ _ _ {Report}.
Arguments run_session {Inst W} _ _ _ {Report}.

Local Open Scope list_scope.


(** ** A small team to run the statements on

    Worker [0] raises on every call, any other worker returns its own
    number; the world counts the calls. *)

Definition demo_execute (inst : nat) (kwargs : pydict) (w : nat) : res pyval * nat :=
  (if Nat.eqb inst 0 then Raise (mkExn Exception "oven is cold")
   else Ok (PInt (Z.of_nat inst)),
   S w).

Definition demo_initialize (inst : nat) (w : nat) : nat := w.

Definition demo_clock (n : nat) : time := Z.of_nat n.

Definition demo_task (id ty : string) : Task :=
  Task_init id ("do " ++ ty)%string ty MEDIUM None None 0%Z.

(** A planner that emits one task per word of a fixed menu found in the
    goal. *)
Definition demo_plan (goal : string) (context : option pydict)
    (L : Leader nat nat) : res (list Task) * Leader nat nat :=
  (Ok ((if contains "bake" goal then [demo_task "task_1" "bake"] else []) ++
       (if contains "pack" goal then [demo_task "task_2" "pack"] else []) ++
       (if contains "ship" goal then [demo_task "task_3" "ship"] else [])),
   L).

Definition demo_report (ts : list Task) (L : Leader nat nat) : list TaskStatus :=
  map status ts.

(** Baker (always failing) and packer, nobody to ship. *)
Definition demo_leader : Leader nat nat :=
  register_agent "packer" 1 ["pack"]
    (register_agent "baker" 0 ["bake"]
       (Leader_init "Demo Team" None 0 0)).

(** Two workers that both pack. *)
Definition demo_pair : Leader nat nat :=
  register_agent "second" 2 ["pack"]
    (register_agent "first" 1 ["pack"]
       (Leader_init "Demo Team" None 0 0)).

Lemma delegate_task_least_loaded_witness :
  (exists name,
      fst (fst (delegate_task (demo_task "task_2" "pack") demo_pair)) = true /\
      assigned_to (snd (fst (delegate_task (demo_task "task_2" "pack") demo_pair)))
      = Some name) /\
  count_assigned "first"
    (fst (delegate_all (repeat (demo_task "task_2" "pack") 5) demo_pair)) = 3 /\
  count_assigned "second"
    (fst (delegate_all (repeat (demo_task "task_2" "pack") 5) demo_pair)) = 2.
Proof.
  split.
  - destruct (proj1 (@delegate_task_least_loaded nat nat)
                (demo_task "task_2" "pack") demo_pair ltac:(discriminate))
      as (name & d & pre & post & _ & _ & _ & Hd).
    exists name. now rewrite Hd.
  - destruct (proj2 (@delegate_task_least_loaded nat nat)
                "pack" "first" "second"
                (mkAgentData 1 ["pack"] 0 0 0) (mkAgentData 2 ["pack"] 0 0 0)
                demo_pair (repeat (demo_task "task_2" "pack") 5))
      as (Ha & Hb & _).
    + repeat constructor; simpl; intuition discriminate.
    + reflexivity.
    + reflexivity.
    + repeat constructor.
    + split; [exact Ha|exact Hb].
Defined.

(** C9 as stated fails: registering under a name in use puts the entry's
    counters back to zero.  The packer has one task assigned and
    completed, then the name is registered again. *)
Lemma reregistration_resets_counters :
  let L1 := snd (execute_goal demo_execute demo_initialize demo_clock
                   demo_plan demo_report "pack" None demo_leader) in
  let L2 := run_session demo_execute demo_initialize demo_clock
              demo_plan demo_report [OpRegister "packer" 1 ["pack"]] L1 in
  option_map tasks_assigned (dict_get (team_members L1) "packer") = Some 1 /\
  option_map tasks_completed (dict_get (team_members L1) "packer") = Some 1 /\
  option_map tasks_assigned (dict_get (team_members L2) "packer") = Some 0 /\
  option_map tasks_completed (dict_get (team_members L2) "packer") = Some 0.
Proof. vm_compute. auto. Qed.
Arguments assigned_of {Inst}.
Arguments completed_of {Inst}.
Arguments failed_of {Inst}.
Arguments level {Inst}.
Arguments total_assigned {Inst}.
Arguments get_team_status {Inst W}.

(** ** The further statements on the small team *)

Definition demo_batch : list Task :=
  [demo_task "task_1" "bake"; demo_task "task_2" "pack"; demo_task "task_3" "ship"].

Lemma demo_batch_unstarted : Forall unstarted demo_batch.
Proof. repeat (apply Forall_cons; [repeat split|]). apply Forall_nil. Qed.

Lemma demo_plan_runs :
  demo_plan "bake pack ship" None
    (if initialized demo_leader then demo_leader
     else initialize demo_initialize demo_leader)
  = (Ok demo_batch, initialize demo_initialize demo_leader).
Proof. vm_compute. reflexivity. Qed.

Lemma run_tasks_settles_and_accounts_witness :
  Forall unstarted demo_batch /\
  dict_mem (team_members demo_leader) "" = false /\
  Forall settled (snd (fst (run_tasks demo_execute demo_clock demo_batch demo_leader))) /\
  map status (snd (fst (run_tasks demo_execute demo_clock demo_batch demo_leader)))
    = [FAILED; COMPLETED; FAILED] /\
  assigned_of
    (team_members (snd (run_tasks demo_execute demo_clock demo_batch demo_leader)))
    "baker" = 1 /\
  failed_of
    (team_members (snd (run_tasks demo_execute demo_clock demo_batch demo_leader)))
    "baker" = 1 /\
  completed_of
    (team_members (snd (run_tasks demo_execute demo_clock demo_batch demo_leader)))
    "packer" = 1.
Proof.
  assert (Hempty : dict_mem (team_members demo_leader) "" = false)
    by (vm_compute; reflexivity).
  destruct (run_tasks_settles_and_accounts nat nat demo_execute demo_clock
              demo_batch demo_leader demo_batch_unstarted Hempty)
    as (Hs & _ & _ & Hk).
  split; [exact demo_batch_unstarted|]. split; [exact Hempty|].
  split; [exact Hs|]. split; [vm_compute; reflexivity|].
  destruct (Hk "baker"%string) as (Ha & _ & Hf & _).
  destruct (Hk "packer"%string) as (_ & Hc & _).
  rewrite Ha, Hf, Hc. vm_compute. auto.
Defined.

Lemma delegate_all_keeps_level_witness :
  capable_for "pack" (team_members demo_pair) <> [] /\
  level "pack"
    (team_members (snd (delegate_all (repeat (demo_task "task_2" "pack") 5) demo_pair))) /\
  total_assigned
    (capable_for "pack"
       (team_members (snd (delegate_all (repeat (demo_task "task_2" "pack") 5)
                             demo_pair)))) = 5.
Proof.
  assert (Hne : capable_for "pack" (team_members demo_pair) <> [])
    by (vm_compute; discriminate).
  assert (Hnd : NoDup (dict_keys (team_members demo_pair))).
  { repeat constructor; simpl; intros H; repeat destruct H as [H|H];
      try discriminate; exact H. }
  assert (Hty : Forall (fun t => task_type t = "pack"%string)
                  (repeat (demo_task "task_2" "pack") 5))
    by (repeat constructor).
  assert (Hlev : level "pack" (team_members demo_pair)).
  { intros x y Hx Hy. simpl in Hx, Hy.
    destruct Hx as [<-|[<-|[]]]; destruct Hy as [<-|[<-|[]]]; simpl; lia. }
  destruct (delegate_all_keeps_level nat nat "pack"
              (repeat (demo_task "task_2" "pack") 5) demo_pair Hnd Hty Hlev Hne)
    as (Hl & _ & Htot).
  split; [exact Hne|]. split; [exact Hl|]. rewrite Htot. vm_compute. reflexivity.
Defined.

Lemma execute_goal_stores_the_batch_witness :
  NoDup (map task_id demo_batch) /\
  forall t,
    In t (snd (fst (run_tasks demo_execute demo_clock demo_batch
                      (initialize demo_initialize demo_leader)))) ->
    dict_get
      (tasks (snd (execute_goal demo_execute demo_initialize demo_clock
                     demo_plan demo_report "bake pack ship" None demo_leader)))
      (task_id t) = Some t.
Proof.
  assert (Hnd : NoDup (map task_id demo_batch)).
  { repeat constructor; simpl; intros H; repeat destruct H as [H|H];
      try discriminate; exact H. }
  destruct (execute_goal_stores_the_batch nat nat demo_execute demo_initialize
              demo_clock _ demo_plan demo_report "bake pack ship" None
              demo_leader demo_batch _ demo_plan_runs Hnd)
    as (_ & Hst & _).
  split; [exact Hnd|exact Hst].
Defined.

Lemma team_status_counts_witness :
  Forall settled (map snd (tasks (initialize demo_initialize demo_leader))) /\
  n_pending (ts_tasks (get_team_status
     (snd (execute_goal demo_execute demo_initialize demo_clock
             demo_plan demo_report "bake pack ship" None demo_leader)))) = 0 /\
  n_total (ts_tasks (get_team_status
     (snd (execute_goal demo_execute demo_initialize demo_clock
             demo_plan demo_report "bake pack ship" None demo_leader)))) = 3.
Proof.
  assert (Hst : Forall settled (map snd (tasks (initialize demo_initialize demo_leader))))
    by (vm_compute; constructor).
  assert (Hempty : dict_mem (team_members (initialize demo_initialize demo_leader)) ""
                   = false) by (vm_compute; reflexivity).
  destruct (team_status_counts nat nat demo_execute demo_initialize demo_clock _
              demo_plan demo_report "bake pack ship" None demo_leader
              demo_batch (initialize demo_initialize demo_leader)) as (_ & Hafter).
  destruct (Hafter demo_plan_runs demo_batch_unstarted Hempty Hst) as (Hp & _ & _).
  split; [exact Hst|]. split; [exact Hp|]. vm_compute. reflexivity.
Defined.

End Leader.

(* ================================================================== *)
(** * The bakery leader: planner and aggregator
      ([python/teams/bakery_team/bakery_leader.py])                    *)
(* ================================================================== *)

Module Bakery.
Import Py Leader.

(** The [summary] entry of a report. *)
Record Summary : Type := mkSummary {
  total_tasks : nat;
  successful : nat;
  failed : nat;
  success_rate : string
}.

(** An item of [report['results'][task_type]]. *)
Record ResultEntry : Type := mkResultEntry {
  res_task_id : string;
  res_description : string;
  res_assigned_to : option string;
  res_result : option pyval
}.

(** An item of [report['failures']]. *)
Record FailureEntry : Type := mkFailureEntry {
  fail_task_id : string;
  fail_description : string;
  fail_error : option string
}.

Record Metrics : Type := mkMetrics {
  recipes_managed : nat;
  quality_checks_passed : nat;
  customer_inquiries_handled : nat;
  production_plans_created : nat;
  forecasts_generated : nat
}.

Record Report : Type := mkReport {
  team : string;
  bakery : pyval;
  summary : Summary;
  results : list (string * list ResultEntry);
  failures : list FailureEntry;
  operational_metrics : Metrics
}.

(** The substrings [plan_tasks] looks for in the lowered goal. *)
Definition triggers : list string :=
  ["production"; "plan"; "custom"; "order"; "quality"; "inspection";
   "recipe"; "forecast"; "demand"; "customer"; "inquiry"; "daily"].

(** [len(successful) / len(tasks) * 100], printed with one decimal and
    a percent sign; ["0%"] for an empty batch. *)
Definition rate_string (n_successful n_total : nat) : string :=
  match n_total with
  | O => "0%"
  | _ => format_1f (float_mul_int
                      (float_div (Z.of_nat n_successful) (Z.of_nat n_total)) 100)
         ++ "%"
  end.

Definition result_entry (t : Task) : ResultEntry :=
  {| res_task_id := task_id t; res_description := description t;
     res_assigned_to := assigned_to t; res_result := result t |}.

Definition failure_entry (t : Task) : FailureEntry :=
  {| fail_task_id := task_id t; fail_description := description t;
     fail_error := error t |}.

(** The loop filling [report['results']]. *)
Definition group_results (successful_tasks : list Task)
  : list (string * list ResultEntry) :=
  fold_left
    (fun acc t =>
       let cur := match dict_get acc (task_type t) with
                  | Some l => l
                  | None => []
                  end in
       dict_set acc (task_type t) (cur ++ [result_entry t])%list)
    successful_tasks [].

Definition _calculate_operational_metrics (ts : list Task) : Metrics :=
  fold_left
    (fun m t =>
       if contains "recipe" (task_type t) then
         mkMetrics (S (recipes_managed m)) (quality_checks_passed m)
           (customer_inquiries_handled m) (production_plans_created m)
           (forecasts_generated m)
       else if String.eqb (task_type t) "quality_control" then
         mkMetrics (recipes_managed m) (S (quality_checks_passed m))
           (customer_inquiries_handled m) (production_plans_created m)
           (forecasts_generated m)
       else if String.eqb (task_type t) "customer_support" then
         mkMetrics (recipes_managed m) (quality_checks_passed m)
           (S (customer_inquiries_handled m)) (production_plans_created m)
           (forecasts_generated m)
       else if String.eqb (task_type t) "production_report" then
         mkMetrics (recipes_managed m) (quality_checks_passed m)
           (customer_inquiries_handled m) (S (production_plans_created m))
           (forecasts_generated m)
       else if String.eqb (task_type t) "sales_forecasting" then
         mkMetrics (recipes_managed m) (quality_checks_passed m)
           (customer_inquiries_handled m) (production_plans_created m)
           (S (forecasts_generated m))
       else m)
    ts (mkMetrics 0 0 0 0 0).

Definition successful_tasks (ts : list Task) : list Task :=
  filter (fun t => String.eqb (status_value (status t)) "completed") ts.

Definition failed_tasks (ts : list Task) : list Task :=
  filter (fun t => String.eqb (status_value (status t)) "failed") ts.

(** [aggregate_results], for a leader named [team_name] of the bakery
    [bakery_name]. *)
Definition aggregate_results (team_name : string) (bakery_name : pyval)
    (ts : list Task) : Report :=
  {| team := team_name;
     bakery := bakery_name;
     summary :=
       {| total_tasks := List.length ts;
          successful := List.length (successful_tasks ts);
          failed := List.length (failed_tasks ts);
          success_rate :=
            rate_string (List.length (successful_tasks ts)) (List.length ts) |};
     results := group_results (successful_tasks ts);
     failures := map failure_entry (failed_tasks ts);
     operational_metrics := _calculate_operational_metrics (successful_tasks ts) |}.

Definition is_completed (t : Task) : bool :=
  match status t with COMPLETED => true | _ => false end.

Definition is_failed (t : Task) : bool :=
  match status t with FAILED => true | _ => false end.

(** The task types a metric counts. *)
Definition counted (t : Task) : bool :=
  contains "recipe" (task_type t)
  || mem_str (task_type t)
       ["quality_control"; "customer_support"; "production_report";
        "sales_forecasting"].

Section Planner.

(** Workers, their world and the clock, as for the leader. *)
Variables Inst W : Type.
Variable agent_execute : Inst -> pydict -> W -> res pyval * W.
Variable agent_initialize : Inst -> W -> W.
Variable clock : nat -> time.

(** What Python builtins give on arbitrary text and values:
    [str_lower s] is [s.lower()], [py_str v] is [str(v)], as used by an
    f-string. *)
Variable str_lower : string -> string.
Variable py_str : pyval -> string.

(** Planning code: it moves [task_counter] and reads the clock. *)
Definition Plan (A : Type) : Type := M (Leader Inst W) A.

(** [self.task_counter += 1], then [f"task_{self.task_counter}"]. *)
Definition next_task_id : Plan string :=
  fun L =>
    let L' := set_task_counter L (S (task_counter L)) in
    (Ok ("task_" ++ str_of_nat (task_counter L')), L').

(** [Task(...)]: the constructor reads the clock. *)
Definition new_task (id description task_type : string) (p : TaskPriority)
    (metadata : pydict) : Plan Task :=
  fun L =>
    let '(tm, L') := now clock L in
    (Ok (Task_init id description task_type p None (Some metadata) tm), L').

Definition _plan_production_planning (context : pydict) : Plan (list Task) :=
  id1 <- next_task_id ;;
  t1 <- new_task id1 "Forecast product demand" "sales_forecasting" HIGH
          [("historical_data", get_default context "sales_data" (PList []));
           ("forecast_days", get_default context "forecast_days" (PInt 7))] ;;
  recipes_to_scale <- lift (py_iter (get_default context "recipes" (PList []))) ;;
  scaled <- for_append recipes_to_scale (fun recipe =>
      id <- next_task_id ;;
      name <- lift (py_get recipe "name" (PStr "Unknown")) ;;
      servings <- lift (py_get recipe "target_servings" (PInt 100)) ;;
      new_task id ("Scale recipe: " ++ py_str name) "recipe_scale" MEDIUM
        [("action", PStr "scale"); ("recipe", recipe); ("servings", servings)]) ;;
  report <-
    (if truthy (get_default context "generate_report" (PBool true)) then
       id <- next_task_id ;;
       t <- new_task id "Generate production report" "production_report" MEDIUM
              [("products", get_default context "products" (PList []))] ;;
       ret [t]
     else ret []) ;;
  ret (t1 :: scaled ++ report)%list.

Definition _plan_custom_order (context : pydict) : Plan (list Task) :=
  let order_details := get_default context "order" (PDict []) in
  id1 <- next_task_id ;;
  message <- lift (py_get order_details "message" (PStr "")) ;;
  customer_email <- lift (py_get order_details "customer_email" (PStr "")) ;;
  t1 <- new_task id1 "Respond to custom order inquiry" "customer_support" HIGH
          [("message", message); ("customer_email", customer_email)] ;;
  has_recipe <- lift (py_get order_details "recipe" PNone) ;;
  allergens <-
    (if truthy has_recipe then
       id <- next_task_id ;;
       recipe <- lift (py_getitem order_details "recipe") ;;
       t <- new_task id "Check allergens in recipe" "recipe_allergens" HIGH
              [("action", PStr "allergens"); ("recipe", recipe)] ;;
       ret [t]
     else ret []) ;;
  wants_nutrition <- lift (py_get order_details "nutrition_info" (PBool false)) ;;
  nutrition <-
    (if truthy wants_nutrition then
       id <- next_task_id ;;
       recipe <- lift (py_get order_details "recipe" (PDict [])) ;;
       t <- new_task id "Calculate nutrition information" "recipe_nutrition" MEDIUM
              [("action", PStr "nutrition"); ("recipe", recipe)] ;;
       ret [t]
     else ret []) ;;
  ret (t1 :: allergens ++ nutrition)%list.

Definition _plan_quality_check (context : pydict) : Plan (list Task) :=
  products <- lift (py_iter (get_default context "products" (PList []))) ;;
  for_append products (fun product =>
    id <- next_task_id ;;
    name <- lift (py_get product "name" (PStr "Unknown")) ;;
    product_type <- lift (py_get product "type" (PStr "cake")) ;;
    image_path <- lift (py_get product "image" (PStr "")) ;;
    descr <- lift (py_get product "description" (PStr "")) ;;
    new_task id ("Quality check: " ++ py_str name) "quality_control" HIGH
      [("product_type", product_type); ("image_path", image_path);
       ("description", descr)]).

Definition task_type_map : list (string * string) :=
  [("scale", "recipe_scale"); ("substitute", "recipe_substitute");
   ("allergens", "recipe_allergens"); ("nutrition", "recipe_nutrition");
   ("optimize", "recipe_optimize")].

(** [task_type_map.get(action, 'recipe_scale')]: the key must be
    hashable. *)
Definition task_type_of (action : pyval) : res string :=
  match action with
  | PStr s => Ok (match dict_get task_type_map s with
                  | Some ty => ty
                  | None => "recipe_scale"
                  end)
  | PList _ | PDict _ => Raise (mkExn TypeError "unhashable type")
  | _ => Ok "recipe_scale"
  end.

Definition _plan_recipe_management (context : pydict) : Plan (list Task) :=
  let action := get_default context "action" (PStr "scale") in
  let recipe := get_default context "recipe" (PDict []) in
  id <- next_task_id ;;
  name <- lift (py_get recipe "name" (PStr "Unknown")) ;;
  ty <- lift (task_type_of action) ;;
  t <- new_task id ("Recipe " ++ py_str action ++ ": " ++ py_str name) ty MEDIUM
         ([("action", action); ("recipe", recipe)] ++
          filter (fun kv => negb (mem_str (fst kv) ["action"; "recipe"])) context)%list ;;
  ret [t].

Definition _plan_demand_forecast (context : pydict) : Plan (list Task) :=
  id <- next_task_id ;;
  t <- new_task id "Forecast product demand" "sales_forecasting" MEDIUM
         [("historical_data", get_default context "sales_data" (PList []));
          ("forecast_days", get_default context "forecast_days" (PInt 30))] ;;
  ret [t].

Definition _plan_customer_service (context : pydict) : Plan (list Task) :=
  inquiries <- lift (py_iter (get_default context "inquiries"
                                (PList [PDict context]))) ;;
  for_append inquiries (fun inquiry =>
    id <- next_task_id ;;
    subject <- lift (py_get inquiry "subject" (PStr "General")) ;;
    message <- lift (py_get inquiry "message" (PStr "")) ;;
    customer_email <- lift (py_get inquiry "customer_email" (PStr "")) ;;
    new_task id ("Handle inquiry: " ++ py_str subject) "customer_support" MEDIUM
      [("message", message); ("customer_email", customer_email)]).

Definition _plan_daily_operations (context : pydict) : Plan (list Task) :=
  production <-
    (if truthy (get_default context "plan_production" (PBool true)) then
       _plan_production_planning
         [("sales_data", get_default context "sales_data" (PList []));
          ("recipes", get_default context "recipes" (PList []));
          ("forecast_days", PInt 1);
          ("generate_report", PBool false)]
     else ret []) ;;
  quality <-
    (if truthy (get_default context "products_to_check" PNone) then
       products <- lift (py_getitem (PDict context) "products_to_check") ;;
       _plan_quality_check [("products", products)]
     else ret []) ;;
  service <-
    (if truthy (get_default context "inquiries" PNone) then
       inquiries <- lift (py_getitem (PDict context) "inquiries") ;;
       _plan_customer_service [("inquiries", inquiries)]
     else ret []) ;;
  ret (production ++ quality ++ service)%list.

Definition _plan_general_goal (goal : string) (context : pydict) : Plan (list Task) :=
  id <- next_task_id ;;
  t <- new_task id goal "general" MEDIUM context ;;
  ret [t].

Definition plan_tasks (goal : string) (context : option pydict) : Plan (list Task) :=
  let context := match context with Some c => c | None => [] end in
  let goal_lower := str_lower goal in
  if contains "production" goal_lower || contains "plan" goal_lower then
    _plan_production_planning context
  else if contains "custom" goal_lower || contains "order" goal_lower then
    _plan_custom_order context
  else if contains "quality" goal_lower || contains "inspection" goal_lower then
    _plan_quality_check context
  else if contains "recipe" goal_lower then
    _plan_recipe_management context
  else if contains "forecast" goal_lower || contains "demand" goal_lower then
    _plan_demand_forecast context
  else if contains "customer" goal_lower || contains "inquiry" goal_lower then
    _plan_customer_service context
  else if contains "daily" goal_lower then
    _plan_daily_operations context
  else
    _plan_general_goal goal context.

(** The goal, lowered, holds none of the trigger words. *)
Definition no_trigger (goal : string) : bool :=
  forallb (fun w => negb (contains w (str_lower goal))) triggers.

(** The branch the [if]/[elif] chain of [plan_tasks] takes. *)
Inductive branch : Type :=
| BProduction | BCustomOrder | BQuality | BRecipe | BForecast
| BCustomer | BDaily | BGeneral.

Definition selected_branch (goal : string) : branch :=
  let goal_lower := str_lower goal in
  if contains "production" goal_lower || contains "plan" goal_lower then BProduction
  else if contains "custom" goal_lower || contains "order" goal_lower then BCustomOrder
  else if contains "quality" goal_lower || contains "inspection" goal_lower then BQuality
  else if contains "recipe" goal_lower then BRecipe
  else if contains "forecast" goal_lower || contains "demand" goal_lower then BForecast
  else if contains "customer" goal_lower || contains "inquiry" goal_lower then BCustomer
  else if contains "daily" goal_lower then BDaily
  else BGeneral.


(** What a planning step returns, when it returns, satisfies [P]. *)
Definition yields {A : Type} (P : A -> Prop) (m : Plan A) : Prop :=
  forall L a L', m L = (Ok a, L') -> P a.

(** Planning steps leave the registry and the world alone. *)
Definition keeps_team {A : Type} (m : Plan A) : Prop :=
  forall L, team_members (snd (m L)) = team_members L /\
            world (snd (m L)) = world L.

(** A task as [Task.__init__] leaves it when no worker is named. *)
Definition fresh (t : Task) : Prop :=
  assigned_to t = None /\ status t = PENDING /\ completed_at t = None /\
  result t = None /\ error t = None.

(** The bakery leader: the base leader and the two attributes of its
    own. *)
Record BakeryLeader : Type := mkBakeryLeader {
  base : Leader Inst W;
  bakery_name : pyval;
  specialties : pyval
}.

(** [BakeryLeader.__init__]. *)
Definition BakeryLeader_init (config : option pydict) (w : W) (reads : nat)
  : BakeryLeader :=
  let c := match config with Some c => c | None => [] end in
  {| base := Leader_init "Bakery Operations Team" config w reads;
     bakery_name := get_default c "bakery_name" (PStr "Artisan Bakery");
     specialties := get_default c "specialties"
                      (PList [PStr "bread"; PStr "cakes"; PStr "pastries"]) |}.

(** [execute_goal], inherited, with the planner and the aggregator of
    the bakery. *)
Definition execute_goal (goal : string) (context : option pydict)
    (B : BakeryLeader) : res Report * BakeryLeader :=
  let '(r, L') :=
    Leader.execute_goal agent_execute agent_initialize clock
      plan_tasks
      (fun ts L => aggregate_results (team_name L) (bakery_name B) ts)
      goal context (base B) in
  (r, {| base := L'; bakery_name := bakery_name B;
         specialties := specialties B |}).

(** The identifiers [n] calls of [next_task_id] hand out when the
    counter stands at [c]. *)
Definition ids_from (c n : nat) : list string :=
  map (fun i => "task_" ++ str_of_nat i) (seq (S c) n).

(** Tasks that carry, in order, the identifiers handed out while the
    counter went from [c] to [c']. *)
Definition span (c : nat) (ts : list Task) (c' : nat) : Prop :=
  map task_id ts = ids_from c (List.length ts) /\ c' = c + List.length ts.

(** A plan whose tasks, in the order returned, carry the identifiers
    handed out during the plan, the counter having moved by their
    number. *)
Definition numbered (m : Plan (list Task)) : Prop :=
  forall L ts L',
    m L = (Ok ts, L') -> span (task_counter L) ts (task_counter L').

(** A step that makes one task and takes one identifier for it. *)
Definition single (m : Plan Task) : Prop :=
  forall L t L',
    m L = (Ok t, L') ->
    task_id t = "task_" ++ str_of_nat (S (task_counter L)) /\
    task_counter L' = S (task_counter L).

Set Default Proof Using "Type".
Local Open Scope list_scope.

(** ** The planner *)

Lemma plan_tasks_branch goal context :
  plan_tasks goal context =
  let c := match context with Some c => c | None => [] end in
  match selected_branch goal with
  | BProduction => _plan_production_planning c
  | BCustomOrder => _plan_custom_order c
  | BQuality => _plan_quality_check c
  | BRecipe => _plan_recipe_management c
  | BForecast => _plan_demand_forecast c
  | BCustomer => _plan_customer_service c
  | BDaily => _plan_daily_operations c
  | BGeneral => _plan_general_goal goal c
  end.
Proof.
  unfold plan_tasks, selected_branch. cbv zeta.
  repeat match goal with
         | |- context [if ?b then _ else _] => destruct b
         end; reflexivity.
Qed.

Lemma no_trigger_general goal :
  no_trigger goal = true -> selected_branch goal = BGeneral.
Proof.
  unfold no_trigger, triggers, selected_branch. simpl. cbv zeta.
  intros H.
  repeat (apply andb_prop in H; destruct H as [?H H]).
  repeat match goal with
         | H : negb ?b = true |- _ => apply negb_true_iff in H; rewrite H
         end.
  reflexivity.
Qed.

Lemma plan_general_goal_run goal c (L : Leader Inst W) :
  _plan_general_goal goal c L =
  (Ok [Task_init ("task_" ++ str_of_nat (S (task_counter L)))%string goal "general"
         MEDIUM None (Some c) (clock (clock_reads L))],
   snd (now clock (set_task_counter L (S (task_counter L))))).
Proof. reflexivity. Qed.








(** C6. A goal in which, once lowered, none of the trigger words
    occurs is planned as exactly one task, of type ["general"], whose
    metadata is the context as given (the empty mapping when no
    context is given). *)
Theorem plan_tasks_unmatched_goal :
  forall (goal : string) (context : option pydict) (L : Leader Inst W),
    no_trigger goal = true ->
    exists t L',
      plan_tasks goal context L = (Ok [t], L') /\
      task_type t = "general"%string /\
      metadata t = match context with Some c => c | None => [] end /\
      description t = goal /\
      task_id t = ("task_" ++ str_of_nat (S (task_counter L)))%string /\
      status t = PENDING /\
      task_counter L' = S (task_counter L).
Proof.
  intros goal context L H.
  rewrite plan_tasks_branch, (no_trigger_general goal H). cbv zeta.
  rewrite plan_general_goal_run. eexists. eexists.
  split; [reflexivity|]. repeat split.
Qed.


(** ** What every plan of the bakery has in common *)

Lemma yields_bind {A B : Type} (Q : A -> Prop) (P : B -> Prop)
    (m : Plan A) (k : A -> Plan B) :
  yields Q m -> (forall a, Q a -> yields P (k a)) -> yields P (bind m k).
Proof.
  intros Hm Hk L b L'. unfold bind.
  destruct (m L) as [[a|e] L1] eqn:E; [|discriminate].
  apply (Hk a); eapply Hm; exact E.
Qed.

Lemma yields_any {A : Type} (m : Plan A) : yields (fun _ => True) m.
Proof. intros L a L' _. exact I. Qed.

Lemma yields_ret {A : Type} (P : A -> Prop) (a : A) : P a -> yields P (ret a).
Proof. intros H L a' L' [= <- _]. exact H. Qed.

Lemma yields_new_task id d ty p md : yields fresh (new_task id d ty p md).
Proof. intros L t L' [= <- _]. repeat split. Qed.

Lemma yields_for_append {X : Type} (l : list X) (body : X -> Plan Task) :
  (forall x, yields fresh (body x)) ->
  yields (Forall fresh) (for_append l body).
Proof.
  intros Hb. induction l as [|x l IH]; simpl.
  - apply yields_ret. constructor.
  - eapply yields_bind; [apply Hb|]. intros t Ht.
    eapply yields_bind; [exact IH|]. intros ts Hts.
    apply yields_ret. now constructor.
Qed.

(** One step of a planner: the step's own guarantee, then the rest. *)
Ltac plan_step :=
  lazymatch goal with
  | |- yields _ (bind (new_task _ _ _ _ _) _) =>
      eapply yields_bind; [apply yields_new_task|intros ? ?]
  | |- yields _ (bind (for_append _ _) _) =>
      eapply yields_bind; [apply yields_for_append; intros ?|intros ? ?]
  | |- yields _ (bind (if _ then _ else _) _) =>
      eapply (yields_bind (Forall fresh)); [|intros ? ?]
  | |- yields _ (bind _ _) =>
      eapply yields_bind; [apply yields_any|intros ? _]
  | |- yields _ (if ?b then _ else _) => destruct b
  | |- yields _ (new_task _ _ _ _ _) => apply yields_new_task
  | |- yields _ (ret _) =>
      apply yields_ret;
      repeat first [apply Forall_cons | apply Forall_app; split
                   | apply Forall_nil | assumption]
  end.

Lemma production_fresh c : yields (Forall fresh) (_plan_production_planning c).
Proof. unfold _plan_production_planning. repeat plan_step. Qed.

Lemma custom_order_fresh c : yields (Forall fresh) (_plan_custom_order c).
Proof. unfold _plan_custom_order. cbv zeta. repeat plan_step. Qed.

Lemma quality_fresh c : yields (Forall fresh) (_plan_quality_check c).
Proof.
  unfold _plan_quality_check.
  eapply yields_bind; [apply yields_any|intros products _].
  apply yields_for_append. intros x. repeat plan_step.
Qed.

Lemma recipe_fresh c : yields (Forall fresh) (_plan_recipe_management c).
Proof. unfold _plan_recipe_management. cbv zeta. repeat plan_step. Qed.

Lemma forecast_fresh c : yields (Forall fresh) (_plan_demand_forecast c).
Proof. unfold _plan_demand_forecast. repeat plan_step. Qed.

Lemma customer_fresh c : yields (Forall fresh) (_plan_customer_service c).
Proof.
  unfold _plan_customer_service.
  eapply yields_bind; [apply yields_any|intros inquiries _].
  apply yields_for_append. intros x. repeat plan_step.
Qed.

Lemma daily_fresh c : yields (Forall fresh) (_plan_daily_operations c).
Proof.
  unfold _plan_daily_operations.
  eapply (yields_bind (Forall fresh)).
  { destruct (truthy _); [apply production_fresh|apply yields_ret; constructor]. }
  intros production Hp.
  eapply (yields_bind (Forall fresh)).
  { destruct (truthy _); [|apply yields_ret; constructor].
    eapply yields_bind; [apply yields_any|intros ? _]. apply quality_fresh. }
  intros quality Hq.
  eapply (yields_bind (Forall fresh)).
  { destruct (truthy _); [|apply yields_ret; constructor].
    eapply yields_bind; [apply yields_any|intros ? _]. apply customer_fresh. }
  intros service Hs.
  apply yields_ret. repeat (apply Forall_app; split); assumption.
Qed.

Lemma general_fresh goal c : yields (Forall fresh) (_plan_general_goal goal c).
Proof. unfold _plan_general_goal. repeat plan_step. Qed.

(** Every task [plan_tasks] emits is pending and names no worker. *)
Lemma plan_tasks_fresh goal context : yields (Forall fresh) (plan_tasks goal context).
Proof.
  rewrite plan_tasks_branch. cbv zeta.
  destruct (selected_branch goal);
    auto using production_fresh, custom_order_fresh, quality_fresh, recipe_fresh,
               forecast_fresh, customer_fresh, daily_fresh, general_fresh.
Qed.

Lemma keeps_bind {A B : Type} (m : Plan A) (k : A -> Plan B) :
  keeps_team m -> (forall a, keeps_team (k a)) -> keeps_team (bind m k).
Proof.
  intros Hm Hk L. unfold bind. specialize (Hm L).
  destruct (m L) as [[a|e] L1]; simpl in *; [|exact Hm].
  destruct (Hk a L1) as [H1 H2]. destruct Hm as [H3 H4].
  split; congruence.
Qed.

Lemma keeps_ret {A : Type} (a : A) : keeps_team (ret (S := Leader Inst W) a).
Proof. intros L. split; reflexivity. Qed.

Lemma keeps_lift {A : Type} (r : res A) : keeps_team (lift (S := Leader Inst W) r).
Proof. intros L. split; reflexivity. Qed.

Lemma keeps_next_task_id : keeps_team next_task_id.
Proof. intros L. split; reflexivity. Qed.

Lemma keeps_new_task id d ty p md : keeps_team (new_task id d ty p md).
Proof. intros L. split; reflexivity. Qed.

Lemma keeps_for_append {X A : Type} (l : list X) (body : X -> Plan A) :
  (forall x, keeps_team (body x)) -> keeps_team (for_append l body).
Proof.
  intros Hb. induction l as [|x l IH]; simpl; [apply keeps_ret|].
  apply keeps_bind; [apply Hb|]. intros a.
  apply keeps_bind; [exact IH|]. intros rest. apply keeps_ret.
Qed.

Ltac keeps_step :=
  lazymatch goal with
  | |- keeps_team (bind _ _) => apply keeps_bind; [|intros ?]
  | |- keeps_team (for_append _ _) => apply keeps_for_append; intros ?
  | |- keeps_team (if ?b then _ else _) => destruct b
  | |- keeps_team (ret _) => apply keeps_ret
  | |- keeps_team (lift _) => apply keeps_lift
  | |- keeps_team next_task_id => apply keeps_next_task_id
  | |- keeps_team (new_task _ _ _ _ _) => apply keeps_new_task
  end.

Lemma production_keeps c : keeps_team (_plan_production_planning c).
Proof. unfold _plan_production_planning. repeat keeps_step. Qed.

Lemma quality_keeps c : keeps_team (_plan_quality_check c).
Proof. unfold _plan_quality_check. repeat keeps_step. Qed.

Lemma customer_keeps c : keeps_team (_plan_customer_service c).
Proof. unfold _plan_customer_service. repeat keeps_step. Qed.

Lemma plan_tasks_keeps goal context : keeps_team (plan_tasks goal context).
Proof.
  rewrite plan_tasks_branch. cbv zeta. destruct (selected_branch goal).
  - apply production_keeps.
  - unfold _plan_custom_order. cbv zeta. repeat keeps_step.
  - apply quality_keeps.
  - unfold _plan_recipe_management. cbv zeta. repeat keeps_step.
  - unfold _plan_demand_forecast. repeat keeps_step.
  - apply customer_keeps.
  - unfold _plan_daily_operations.
    repeat first [apply production_keeps | apply quality_keeps
                 | apply customer_keeps | keeps_step].
  - unfold _plan_general_goal. repeat keeps_step.
Qed.

Lemma plan_tasks_team_members goal context (L : Leader Inst W) :
  team_members (snd (plan_tasks goal context L)) = team_members L.
Proof. apply plan_tasks_keeps. Qed.

(** The bakery's [execute_goal] raises only what its planner raises:
    whatever the workers do, a goal that was planned gets its report. *)
Lemma execute_goal_reports goal context (B : BakeryLeader) planned L1 :
  plan_tasks goal context
    (if initialized (base B) then base B
     else initialize agent_initialize (base B)) = (Ok planned, L1) ->
  exists report B',
    execute_goal goal context B = (Ok report, B') /\
    total_tasks (summary report) = List.length planned.
Proof.
  intros Hplan. unfold execute_goal, Leader.execute_goal. rewrite Hplan.
  pose proof (delegate_all_length _ _ planned L1) as Hd.
  destruct (delegate_all planned L1) as [delegated L2].
  pose proof (execute_all_length _ _ agent_execute clock delegated L2) as He.
  destruct (execute_all agent_execute clock delegated L2) as [[rs final] L3].
  simpl in *. eexists. eexists. split; [reflexivity|]. simpl. congruence.
Qed.

(** ** Task identifiers *)

Lemma bind_ok {A B : Type} (m : Plan A) (k : A -> Plan B) L b L' :
  bind m k L = (Ok b, L') ->
  exists a L1, m L = (Ok a, L1) /\ k a L1 = (Ok b, L').
Proof.
  unfold bind. destruct (m L) as [[a|e] L1]; [|discriminate].
  intros H. now exists a, L1.
Qed.

Lemma next_task_id_ok L a L1 :
  next_task_id L = (Ok a, L1) ->
  a = ("task_" ++ str_of_nat (S (task_counter L)))%string /\
  task_counter L1 = S (task_counter L).
Proof. intros [= <- <-]. split; reflexivity. Qed.

Lemma new_task_ok id d ty p md L t L1 :
  new_task id d ty p md L = (Ok t, L1) ->
  task_id t = id /\ task_counter L1 = task_counter L.
Proof. intros [= <- <-]. split; reflexivity. Qed.

Lemma lift_ok {A : Type} (r : res A) (L : Leader Inst W) a L1 :
  lift r L = (Ok a, L1) -> L1 = L.
Proof. now intros [= _ <-]. Qed.

Lemma ret_ok {A : Type} (a : A) (L : Leader Inst W) b L1 :
  ret a L = (Ok b, L1) -> b = a /\ L1 = L.
Proof. now intros [= <- <-]. Qed.

Lemma ids_from_app c a b : ids_from c (a + b) = ids_from c a ++ ids_from (c + a) b.
Proof. unfold ids_from. now rewrite seq_app, map_app. Qed.

Lemma ids_from_one c : ids_from c 1 = [("task_" ++ str_of_nat (S c))%string].
Proof. reflexivity. Qed.

Lemma str_of_nat_inj a b : str_of_nat a = str_of_nat b -> a = b.
Proof.
  assert (Hnil : forall n, Nat.to_uint n <> Decimal.Nil).
  { intros n. rewrite <- (DecimalNat.Unsigned.of_to n) at 1.
    rewrite DecimalNat.Unsigned.to_of. apply DecimalFacts.unorm_nonnil. }
  unfold str_of_nat. intros H. apply DecimalNat.Unsigned.to_uint_inj.
  apply (f_equal NilZero.uint_of_string) in H.
  rewrite !NilZero.usu in H by apply Hnil. congruence.
Qed.

Lemma ids_from_NoDup c n : NoDup (ids_from c n).
Proof.
  unfold ids_from. generalize (seq_NoDup n (S c)).
  induction (seq (S c) n) as [|i l IH]; simpl; intros H; [constructor|].
  inversion H as [|? ? Hnin Hnd]; subst. constructor; [|now apply IH].
  intros Hin. apply in_map_iff in Hin. destruct Hin as (j & [= Hj] & Hjl).
  apply str_of_nat_inj in Hj. now subst j.
Qed.

(** Joining the tasks of two consecutive parts of a plan. *)
Lemma span_app c (xs ys : list Task) c1 c2 :
  span c xs c1 -> span c1 ys c2 -> span c (xs ++ ys) c2.
Proof.
  intros [Hx ->] [Hy ->]. unfold span.
  rewrite map_app, length_app, ids_from_app, Hx, Hy.
  split; [reflexivity|lia].
Qed.

Lemma span_nil c : span c [] c.
Proof. split; [reflexivity|simpl; lia]. Qed.

Lemma span_one c (t : Task) c' :
  task_id t = ("task_" ++ str_of_nat (S c))%string -> c' = S c -> span c [t] c'.
Proof. intros H ->. split; simpl; [now rewrite H|lia]. Qed.

Lemma span_cons c (t : Task) c1 ts c2 :
  task_id t = ("task_" ++ str_of_nat (S c))%string -> c1 = S c ->
  span c1 ts c2 -> span c (t :: ts) c2.
Proof.
  intros H1 H2 H3. change (t :: ts) with ([t] ++ ts).
  apply (span_app c [t] ts c1 c2); [now apply span_one|exact H3].
Qed.

Lemma for_append_numbered {X : Type} (l : list X) (body : X -> Plan Task) :
  (forall x, single (body x)) ->
  forall L ts L',
    for_append l body L = (Ok ts, L') ->
    span (task_counter L) ts (task_counter L') /\
    List.length ts = List.length l.
Proof.
  intros Hb. induction l as [|x l IH]; intros L ts L' H; simpl in H.
  - apply ret_ok in H. destruct H as [-> ->]. split; [apply span_nil|reflexivity].
  - apply bind_ok in H. destruct H as (t & L1 & Et & H).
    apply bind_ok in H. destruct H as (rest & L2 & Er & H).
    apply ret_ok in H. destruct H as [-> ->].
    destruct (Hb x _ _ _ Et) as [Hid Hc].
    destruct (IH _ _ _ Er) as [Hs Hlen].
    split; [|simpl; now rewrite Hlen].
    eapply span_cons; [exact Hid|exact Hc|exact Hs].
Qed.

(** Opening one [bind] of a planner that returned. *)
Ltac step H a L1 E := apply bind_ok in H; destruct H as (a & L1 & E & H).

Ltac take_id H L1 C :=
  let a := fresh "id" in
  let E := fresh "E" in
  step H a L1 E; apply next_task_id_ok in E; destruct E as [-> C].

Ltac read H :=
  let a := fresh "v" in
  let L1 := fresh "L" in
  let E := fresh "E" in
  step H a L1 E; apply lift_ok in E; subst L1.

Ltac make H t L1 I C :=
  let E := fresh "E" in
  step H t L1 E; apply new_task_ok in E; destruct E as [I C].

Ltac branch E :=
  match type of E with (if ?b then _ else _) _ = _ => destruct b end.

Lemma quality_body_single (product : pyval) :
  single (id <- next_task_id ;;
          name <- lift (py_get product "name" (PStr "Unknown")) ;;
          product_type <- lift (py_get product "type" (PStr "cake")) ;;
          image_path <- lift (py_get product "image" (PStr "")) ;;
          descr <- lift (py_get product "description" (PStr "")) ;;
          new_task id ("Quality check: " ++ py_str name) "quality_control" HIGH
            [("product_type", product_type); ("image_path", image_path);
             ("description", descr)]).
Proof.
  intros L t L' H. take_id H L1 C1. do 4 read H.
  apply new_task_ok in H. destruct H as [H1 H2]. split; [exact H1|congruence].
Qed.

Lemma customer_body_single (inquiry : pyval) :
  single (id <- next_task_id ;;
          subject <- lift (py_get inquiry "subject" (PStr "General")) ;;
          message <- lift (py_get inquiry "message" (PStr "")) ;;
          customer_email <- lift (py_get inquiry "customer_email" (PStr "")) ;;
          new_task id ("Handle inquiry: " ++ py_str subject) "customer_support" MEDIUM
            [("message", message); ("customer_email", customer_email)]).
Proof.
  intros L t L' H. take_id H L1 C1. do 3 read H.
  apply new_task_ok in H. destruct H as [H1 H2]. split; [exact H1|congruence].
Qed.

Lemma scale_body_single (recipe : pyval) :
  single (id <- next_task_id ;;
          name <- lift (py_get recipe "name" (PStr "Unknown")) ;;
          servings <- lift (py_get recipe "target_servings" (PInt 100)) ;;
          new_task id ("Scale recipe: " ++ py_str name) "recipe_scale" MEDIUM
            [("action", PStr "scale"); ("recipe", recipe); ("servings", servings)]).
Proof.
  intros L t L' H. take_id H L1 C1. do 2 read H.
  apply new_task_ok in H. destruct H as [H1 H2]. split; [exact H1|congruence].
Qed.

Lemma quality_numbered c : numbered (_plan_quality_check c).
Proof.
  intros L ts L' H. unfold _plan_quality_check in H. read H.
  exact (proj1 (for_append_numbered _ _ quality_body_single _ _ _ H)).
Qed.

Lemma customer_numbered c : numbered (_plan_customer_service c).
Proof.
  intros L ts L' H. unfold _plan_customer_service in H. read H.
  exact (proj1 (for_append_numbered _ _ customer_body_single _ _ _ H)).
Qed.

Lemma production_numbered c : numbered (_plan_production_planning c).
Proof.
  intros L ts L' H. unfold _plan_production_planning in H.
  take_id H L1 C1. make H t1 L2 I2 C2. read H.
  step H ts1 L3 E3.
  apply (for_append_numbered _ _ scale_body_single) in E3. destruct E3 as [S3 _].
  step H ts2 L4 E4. apply ret_ok in H. destruct H as [-> ->].
  apply (span_cons _ _ (task_counter L2)); [exact I2|congruence|].
  eapply span_app; [exact S3|].
  branch E4.
  - take_id E4 L5 C5. make E4 t L6 I6 C6. apply ret_ok in E4.
    destruct E4 as [-> ->]. apply span_one; [exact I6|congruence].
  - apply ret_ok in E4. destruct E4 as [-> ->]. apply span_nil.
Qed.

Lemma custom_order_numbered c : numbered (_plan_custom_order c).
Proof.
  intros L ts L' H. unfold _plan_custom_order in H. cbv zeta in H.
  take_id H L1 C1. do 2 read H. make H t1 L2 I2 C2. read H.
  step H ts1 L3 E3. read H. step H ts2 L4 E4.
  apply ret_ok in H. destruct H as [-> ->].
  apply (span_cons _ _ (task_counter L2)); [exact I2|congruence|].
  apply (span_app _ _ _ (task_counter L3)).
  - branch E3.
    + take_id E3 L5 C5. read E3. make E3 t L6 I6 C6. apply ret_ok in E3.
    destruct E3 as [-> ->]. apply span_one; [exact I6|congruence].
    + apply ret_ok in E3. destruct E3 as [-> ->]. apply span_nil.
  - branch E4.
    + take_id E4 L5 C5. read E4. make E4 t L6 I6 C6. apply ret_ok in E4.
      destruct E4 as [-> ->]. apply span_one; [exact I6|congruence].
    + apply ret_ok in E4. destruct E4 as [-> ->]. apply span_nil.
Qed.

Lemma recipe_numbered c : numbered (_plan_recipe_management c).
Proof.
  intros L ts L' H. unfold _plan_recipe_management in H. cbv zeta in H.
  take_id H L1 C1. do 2 read H. make H t L2 I2 C2.
  apply ret_ok in H. destruct H as [-> ->]. apply span_one; [exact I2|congruence].
Qed.

Lemma forecast_numbered c : numbered (_plan_demand_forecast c).
Proof.
  intros L ts L' H. unfold _plan_demand_forecast in H.
  take_id H L1 C1. make H t L2 I2 C2.
  apply ret_ok in H. destruct H as [-> ->]. apply span_one; [exact I2|congruence].
Qed.

Lemma general_numbered goal c : numbered (_plan_general_goal goal c).
Proof.
  intros L ts L' H. unfold _plan_general_goal in H.
  take_id H L1 C1. make H t L2 I2 C2.
  apply ret_ok in H. destruct H as [-> ->]. apply span_one; [exact I2|congruence].
Qed.

Lemma daily_numbered c : numbered (_plan_daily_operations c).
Proof.
  intros L ts L' H. unfold _plan_daily_operations in H.
  step H ts1 L1 E1. step H ts2 L2 E2. step H ts3 L3 E3.
  apply ret_ok in H. destruct H as [-> ->].
  apply (span_app _ _ _ (task_counter L1)); [|apply (span_app _ _ _ (task_counter L2))].
  - branch E1; [now apply production_numbered in E1|].
    apply ret_ok in E1. destruct E1 as [-> ->]. apply span_nil.
  - branch E2.
    + read E2. now apply quality_numbered in E2.
    + apply ret_ok in E2. destruct E2 as [-> ->]. apply span_nil.
  - branch E3.
    + read E3. now apply customer_numbered in E3.
    + apply ret_ok in E3. destruct E3 as [-> ->]. apply span_nil.
Qed.

Lemma plan_tasks_numbered goal context : numbered (plan_tasks goal context).
Proof.
  rewrite plan_tasks_branch. cbv zeta.
  destruct (selected_branch goal);
    auto using production_numbered, custom_order_numbered, quality_numbered,
               recipe_numbered, forecast_numbered, customer_numbered,
               daily_numbered, general_numbered.
Qed.

(** X15. The tasks a plan of the bakery returns carry, in the order
    returned, the identifiers [task_<c+1>], [task_<c+2>], ... where
    [c] is the leader's counter before planning; the counter ends at
    [c] plus the number of tasks, and no two tasks of the plan, nor of
    this plan and a later one, share an identifier. *)
Theorem plan_tasks_numbers_its_tasks :
  forall (goal : string) (context : option pydict) (L L' : Leader Inst W)
         (ts : list Task),
    plan_tasks goal context L = (Ok ts, L') ->
    map task_id ts = ids_from (task_counter L) (List.length ts) /\
    task_counter L' = task_counter L + List.length ts /\
    NoDup (map task_id ts) /\
    forall (goal2 : string) (context2 : option pydict) (L2 : Leader Inst W)
           (ts2 : list Task) (id : string),
      plan_tasks goal2 context2 L' = (Ok ts2, L2) ->
      In id (map task_id ts) -> ~ In id (map task_id ts2).
Proof.
  intros goal context L L' ts H.
  destruct (plan_tasks_numbered goal context L ts L' H) as [Hids Hc].
  split; [exact Hids|]. split; [exact Hc|].
  split; [rewrite Hids; apply ids_from_NoDup|].
  intros goal2 context2 L2 ts2 id H2 Hin Hin2.
  destruct (plan_tasks_numbered goal2 context2 L' ts2 L2 H2) as [Hids2 _].
  rewrite Hids in Hin. rewrite Hids2, Hc in Hin2.
  unfold ids_from in Hin, Hin2.
  apply in_map_iff in Hin. destruct Hin as (i & <- & Hi).
  apply in_map_iff in Hin2. destruct Hin2 as (j & [= Hj] & Hj2).
  apply str_of_nat_inj in Hj. subst j.
  apply in_seq in Hi. apply in_seq in Hj2. lia.
Qed.

(** ** Goals that mention a customer *)

(** X16. The word "customer" never selects the customer service
    bundle: a goal that holds it holds "custom" too, which an earlier
    test of [plan_tasks] catches.  Such a goal (the documented
    "customer_inquiry" among them) is planned by [_plan_custom_order],
    unless it holds "production" or "plan"; with no order in the
    context the plan is then the single task "Respond to custom order
    inquiry" with an empty message and address, whatever inquiries the
    context lists.  The customer service bundle is reached through the
    word "inquiry" only. *)
Theorem customer_goal_is_a_custom_order :
  forall (goal : string) (context : option pydict) (L : Leader Inst W),
    let c := match context with Some c => c | None => [] end in
    (contains "customer" (str_lower goal) = true ->
     contains "production" (str_lower goal) = false ->
     contains "plan" (str_lower goal) = false ->
     plan_tasks goal context L = _plan_custom_order c L /\
     (dict_get c "order" = None ->
      exists t L',
        plan_tasks goal context L = (Ok [t], L') /\
        description t = "Respond to custom order inquiry"%string /\
        task_type t = "customer_support"%string /\
        metadata t = [("message", PStr ""); ("customer_email", PStr "")])) /\
    (selected_branch goal = BCustomer ->
     contains "inquiry" (str_lower goal) = true /\
     contains "customer" (str_lower goal) = false).
Proof.
  intros goal context L c.
  assert (Hsub : contains "customer" (str_lower goal) = true ->
                 contains "custom" (str_lower goal) = true).
  { apply (contains_shorter "custom" "er"). }
  split.
  - intros Hc Hp1 Hp2. specialize (Hsub Hc).
    assert (Hplan : plan_tasks goal context L = _plan_custom_order c L).
    { unfold plan_tasks. fold c. cbv zeta. now rewrite Hp1, Hp2, Hsub. }
    split; [exact Hplan|]. intros Hno. rewrite Hplan.
    unfold _plan_custom_order, get_default. rewrite Hno.
    eexists. eexists. split; [reflexivity|]. repeat split.
  - unfold selected_branch. cbv zeta. intros Hb.
    destruct (contains "customer" (str_lower goal)) eqn:Hc.
    + rewrite (Hsub eq_refl) in Hb.
      destruct (contains "production" (str_lower goal) || contains "plan" (str_lower goal));
        discriminate.
    + split; [|reflexivity].
      repeat match type of Hb with
             | (if ?b then _ else _) = _ => destruct b eqn:?; try discriminate
             end.
      simpl in *. assumption.
Qed.

(** ** Quality checks *)

Lemma for_append_total {X A : Type} (R : X -> A -> Prop) (l : list X)
    (body : X -> Plan A) :
  (forall x, In x l -> forall L, exists a L', body x L = (Ok a, L') /\ R x a) ->
  forall L, exists ts L', for_append l body L = (Ok ts, L') /\ Forall2 R l ts.
Proof.
  induction l as [|x l IH]; intros Hb L; simpl.
  - exists [], L. split; [reflexivity|constructor].
  - destruct (Hb x (or_introl eq_refl) L) as (a & L1 & Ea & Ha).
    destruct (IH (fun y Hy => Hb y (or_intror Hy)) L1) as (ts & L2 & Et & Hts).
    exists (a :: ts), L2. unfold bind. rewrite Ea, Et.
    split; [reflexivity|now constructor].
Qed.

(** X21. A quality goal is planned as one task per product, in the
    order given, when the products are a list of mappings: each task
    is of type "quality_control", of high priority, described as
    "Quality check: " followed by the product's name ("Unknown"
    without one), and its metadata take "cake" for a missing product
    type.  Without products in the context the plan is the empty list
    and nothing is changed; products that are not iterable make the
    planner raise [TypeError]. *)
Theorem quality_check_one_task_per_product :
  forall (c : pydict) (L : Leader Inst W),
    (forall products,
        dict_get c "products" = Some (PList products) ->
        forallb is_dict products = true ->
        exists ts L',
          _plan_quality_check c L = (Ok ts, L') /\
          Forall2 (fun p t =>
                     task_type t = "quality_control"%string /\
                     priority t = HIGH /\
                     description t
                       = ("Quality check: "
                          ++ py_str (match p with
                                     | PDict d => get_default d "name" (PStr "Unknown")
                                     | _ => PNone
                                     end))%string /\
                     dict_get (metadata t) "product_type"
                       = Some (match p with
                               | PDict d => get_default d "type" (PStr "cake")
                               | _ => PNone
                               end))
                  products ts /\
          task_counter L' = task_counter L + List.length products) /\
    (dict_get c "products" = None -> _plan_quality_check c L = (Ok [], L)) /\
    (forall v,
        dict_get c "products" = Some v ->
        py_iter v = Raise (mkExn TypeError "object is not iterable") ->
        _plan_quality_check c L
          = (Raise (mkExn TypeError "object is not iterable"), L)).
Proof.
  intros c L. split; [|split].
  - intros products Hc Hd.
    assert (Hg : get_default c "products" (PList []) = PList products)
      by (unfold get_default; now rewrite Hc).
    unfold _plan_quality_check. rewrite Hg.
    unfold bind at 1. cbn [lift py_iter].
    match goal with
    | |- context [for_append products ?body] =>
        destruct (for_append_total
                    (fun p t =>
                       task_type t = "quality_control"%string /\
                       priority t = HIGH /\
                       description t
                         = ("Quality check: "
                            ++ py_str (match p with
                                       | PDict d => get_default d "name" (PStr "Unknown")
                                       | _ => PNone
                                       end))%string /\
                       dict_get (metadata t) "product_type"
                         = Some (match p with
                                 | PDict d => get_default d "type" (PStr "cake")
                                 | _ => PNone
                                 end))
                    products body) with (L := L) as (ts & L' & E & H2)
    end.
    + intros p Hp L0. rewrite forallb_forall in Hd. specialize (Hd p Hp).
      destruct p; try discriminate. eexists. eexists.
      split; [reflexivity|]. repeat split.
    + exists ts, L'. split; [exact E|]. split; [exact H2|].
      destruct (for_append_numbered _ _ quality_body_single _ _ _ E) as [[_ Hcnt] Hlen].
      rewrite Hcnt, Hlen. reflexivity.
  - intros Hc. unfold _plan_quality_check, get_default. now rewrite Hc.
  - intros v Hc Hv. unfold _plan_quality_check, get_default. rewrite Hc.
    unfold bind, lift. now rewrite Hv.
Qed.

(** ** A goal from planning to report *)

Lemma settled_split (ts : list Task) :
  Forall settled ts ->
  List.length (successful_tasks ts) + List.length (failed_tasks ts)
  = List.length ts.
Proof.
  unfold successful_tasks, failed_tasks.
  induction 1 as [|t ts Ht _ IH]; simpl; [reflexivity|].
  destruct Ht as [(Hs & _)|(Hs & _)]; rewrite Hs; simpl; lia.
Qed.

(** X19. A goal the bakery can plan always gets its report, whatever
    the workers do, provided no worker is registered under the empty
    name: every planned task is in it as successful or as failed, the
    two counts adding up to the number planned and the failures listed
    being as many as counted; and each task can afterwards be looked up
    in the leader's task store under the identifier the planner gave
    it, where it shows as completed, its result set, or failed, with
    an error. *)
Theorem bakery_goal_end_to_end :
  forall (goal : string) (context : option pydict) (B : BakeryLeader)
         (planned : list Task) (L1 : Leader Inst W),
    let L0 := if initialized (base B) then base B
              else initialize agent_initialize (base B) in
    plan_tasks goal context L0 = (Ok planned, L1) ->
    dict_mem (team_members (base B)) "" = false ->
    exists report B',
      execute_goal goal context B = (Ok report, B') /\
      total_tasks (summary report) = List.length planned /\
      successful (summary report) + failed (summary report)
        = List.length planned /\
      List.length (failures report) = failed (summary report) /\
      forall id,
        In id (ids_from (task_counter L0) (List.length planned)) ->
        exists t, dict_get (tasks (base B')) id = Some t /\
                  task_id t = id /\ settled t.
Proof.
  intros goal context B planned L1 L0 Hplan Hempty.
  assert (Hmem : team_members L1 = team_members (base B)).
  { pose proof (plan_tasks_team_members goal context L0) as H.
    rewrite Hplan in H. simpl in H. rewrite H. unfold L0.
    destruct (initialized (base B)); [reflexivity|apply initialize_team_members]. }
  assert (Hun : Forall unstarted planned).
  { exact (plan_tasks_fresh goal context L0 planned L1 Hplan). }
  destruct (plan_tasks_numbered goal context L0 planned L1 Hplan) as [Hids _].
  assert (Hempty1 : dict_mem (team_members L1) "" = false) by now rewrite Hmem.
  destruct (run_tasks_settled Inst W agent_execute clock
              planned L1 Hun Hempty1) as (Hs & Hfin).
  unfold execute_goal, Leader.execute_goal. fold L0. rewrite Hplan.
  unfold run_tasks in Hs, Hfin.
  destruct (delegate_all planned L1) as [delegated L2].
  destruct (execute_all agent_execute clock delegated L2) as [[rs final] L3].
  simpl in Hs, Hfin.
  eexists. eexists. split; [reflexivity|]. simpl.
  assert (Hlen : List.length final = List.length planned).
  { rewrite <- (length_map task_id final), Hfin. apply length_map. }
  split; [exact Hlen|]. split; [rewrite <- Hlen; now apply settled_split|].
  split; [apply length_map|].
  intros id Hin. rewrite <- Hids, <- Hfin in Hin.
  assert (Hnd : NoDup (map task_id final)).
  { rewrite Hfin, Hids. apply ids_from_NoDup. }
  apply in_map_iff in Hin. destruct Hin as (t & Hid & Ht).
  exists t. split; [|split; [exact Hid|]].
  - rewrite <- Hid.
    exact (proj1 (dict_store_batch task_id (fun t => t) final (tasks L3) Hnd) t Ht).
  - rewrite Forall_forall in Hs. now apply Hs.
Qed.

End Planner.


Arguments plan_tasks {Inst W}.

Local Open Scope list_scope.

(** ** The aggregator *)

Lemma round_half_even_nonneg num den :
  (0 <= num)%Z -> (0 < den)%Z -> (0 <= round_half_even num den)%Z.
Proof.
  intros Hn Hd. unfold round_half_even.
  assert (0 <= num / den)%Z by (apply Z.div_pos; lia).
  destruct (2 * (num mod den) <? den)%Z; [lia|].
  destruct (den <? 2 * (num mod den))%Z; [lia|].
  destruct (Z.even (num / den)); lia.
Qed.

Lemma round53_nonneg num den :
  (0 < den)%Z -> (0 <= fst (round53 num den))%Z.
Proof.
  intros Hd. unfold round53.
  destruct (num <=? 0)%Z eqn:E; [simpl; lia|].
  apply Z.leb_gt in E.
  destruct (scaled num den (Z.log2 num - Z.log2 den - 52)) as [n0 d0].
  set (e := if (2 ^ 52 <=? n0 / d0)%Z then _ else _). clearbody e.
  unfold scaled. destruct (0 <=? e)%Z eqn:Ee; simpl.
  - apply Z.leb_le in Ee. apply round_half_even_nonneg; [lia|].
    apply Z.mul_pos_pos; [lia|]. apply Z.pow_pos_nonneg; lia.
  - apply Z.leb_gt in Ee. apply round_half_even_nonneg; [|lia].
    apply Z.mul_nonneg_nonneg; [lia|]. apply Z.pow_nonneg. lia.
Qed.

Lemma digit_length (z : Z) :
  (0 <= z <= 9)%Z -> String.length (str_of_Z z) = 1.
Proof.
  intros H.
  assert (z = 0 \/ z = 1 \/ z = 2 \/ z = 3 \/ z = 4 \/ z = 5 \/ z = 6 \/
          z = 7 \/ z = 8 \/ z = 9)%Z as Hz by lia.
  repeat (destruct Hz as [->|Hz]; [reflexivity|]). now subst.
Qed.

(** The shape of a printed rate: a whole part, a point, one digit. *)
Lemma format_1f_shape (x : Z * Z) :
  (0 <= fst x)%Z ->
  exists w f : Z,
    (0 <= w)%Z /\ (0 <= f <= 9)%Z /\
    format_1f x = (str_of_Z w ++ "." ++ str_of_Z f)%string.
Proof.
  destruct x as [m e]. simpl. intros Hm. unfold format_1f.
  set (tenths := if (0 <=? e)%Z then _ else _).
  assert (Ht : (0 <= tenths)%Z).
  { unfold tenths. destruct (0 <=? e)%Z eqn:Ee.
    - apply Z.leb_le in Ee. apply Z.mul_nonneg_nonneg; [lia|].
      apply Z.pow_nonneg. lia.
    - apply Z.leb_gt in Ee. apply round_half_even_nonneg; [lia|].
      apply Z.pow_pos_nonneg; lia. }
  exists (tenths / 10)%Z, (tenths mod 10)%Z.
  split; [apply Z.div_pos; lia|].
  split; [pose proof (Z.mod_pos_bound tenths 10); lia|reflexivity].
Qed.

Lemma float_mul_int_nonneg x n :
  (0 <= fst (float_mul_int x n))%Z.
Proof.
  destruct x as [m e]. unfold float_mul_int.
  destruct (0 <=? e)%Z eqn:Ee.
  - apply round53_nonneg. lia.
  - apply Z.leb_gt in Ee. apply round53_nonneg. apply Z.pow_pos_nonneg; lia.
Qed.

(** *** How close the printed rate is to the quotient *)

Section RateAccuracy.
Local Open Scope Z_scope.

(** Rounding to the nearest integer is off by at most one half. *)
Lemma round_half_even_near num den :
  0 < den ->
  - den <= 2 * (round_half_even num den * den - num) <= den.
Proof.
  intros Hd. unfold round_half_even.
  pose proof (Z.div_mod num den ltac:(lia)) as Hdm.
  pose proof (Z.mod_pos_bound num den Hd) as Hr.
  set (q := num / den) in *. set (r := num mod den) in *.
  destruct (2 * r <? den) eqn:E1; [apply Z.ltb_lt in E1; nia|].
  apply Z.ltb_ge in E1.
  destruct (den <? 2 * r) eqn:E2; [apply Z.ltb_lt in E2; nia|].
  apply Z.ltb_ge in E2. destruct (Z.even q); nia.
Qed.

(** A quotient below [2^52] is rounded to 53 bits: the significand is
    the scaled quotient rounded, and the scaled quotient is normal. *)
Lemma round53_small num den :
  0 < num -> 0 < den -> Z.log2 num - Z.log2 den <= 51 ->
  exists m p,
    round53 num den = (m, - p) /\ 0 < p /\
    m = round_half_even (num * 2 ^ p) den /\
    2 ^ 52 * den <= num * 2 ^ p < 2 ^ 53 * den.
Proof.
  intros Hn Hd Hk. unfold round53.
  destruct (num <=? 0) eqn:E0; [apply Z.leb_le in E0; lia|]. clear E0.
  destruct (Z.log2_spec num Hn) as [Hn1 Hn2].
  destruct (Z.log2_spec den Hd) as [Hd1 Hd2].
  pose proof (Z.log2_nonneg num) as Hln. pose proof (Z.log2_nonneg den) as Hld.
  set (ln := Z.log2 num) in *. set (ld := Z.log2 den) in *.
  cbv zeta.
  set (a := 52 - (ln - ld)).
  assert (Ha : 1 <= a) by (unfold a; lia).
  replace (ln - ld - 52) with (- a) by (unfold a; lia).
  unfold scaled at 1.
  destruct (0 <=? - a) eqn:E1; [apply Z.leb_le in E1; lia|]. clear E1.
  rewrite Z.opp_involutive.
  assert (Hpa : 2 ^ a * 2 ^ ln = 2 ^ 52 * 2 ^ ld).
  { rewrite <- !Z.pow_add_r by lia. f_equal. unfold a. lia. }
  assert (Hsucc : forall x, 0 <= x -> 2 ^ Z.succ x = 2 * 2 ^ x)
    by (intros x Hx; now rewrite Z.pow_succ_r).
  rewrite (Hsucc ln Hln) in Hn2. rewrite (Hsucc ld Hld) in Hd2.
  assert (Hp2a : 0 < 2 ^ a) by (apply Z.pow_pos_nonneg; lia).
  assert (Hpld : 0 < 2 ^ ld) by (apply Z.pow_pos_nonneg; lia).
  assert (Hpln : 0 < 2 ^ ln) by (apply Z.pow_pos_nonneg; lia).
  set (c52 := 2 ^ 52) in *.
  assert (Hc : 0 < c52) by (unfold c52; lia).
  assert (Hlo : c52 * 2 ^ ld <= num * 2 ^ a) by nia.
  assert (Hhi : num * 2 ^ a < 2 * c52 * 2 ^ ld) by nia.
  destruct (c52 <=? num * 2 ^ a / den) eqn:E2.
  - apply Z.leb_le in E2. unfold scaled.
    destruct (0 <=? - a) eqn:E1; [apply Z.leb_le in E1; lia|]. clear E1.
    rewrite Z.opp_involutive.
    exists (round_half_even (num * 2 ^ a) den), a.
    split; [reflexivity|]. split; [lia|]. split; [reflexivity|].
    pose proof (Z.mul_div_le (num * 2 ^ a) den Hd).
    change (2 ^ 53) with (2 * 2 ^ 52). fold c52. nia.
  - apply Z.leb_gt in E2. unfold scaled.
    destruct (0 <=? - a - 1) eqn:E1; [apply Z.leb_le in E1; lia|]. clear E1.
    replace (- (- a - 1)) with (Z.succ a) by lia.
    exists (round_half_even (num * 2 ^ Z.succ a) den), (Z.succ a).
    split; [f_equal; lia|]. split; [lia|]. split; [reflexivity|].
    rewrite (Hsucc a) by lia.
    pose proof (Z.mul_succ_div_gt (num * 2 ^ a) den Hd).
    change (2 ^ 53) with (2 * 2 ^ 52). fold c52. nia.
Qed.

(** The tenths printed for [k] out of [n] are within one half, and a
    relative rounding error below [2^-41], of [1000 * k / n]. *)
Lemma rate_accuracy (k n : Z) :
  0 <= k <= n -> 0 < n ->
  exists T,
    0 <= T /\
    format_1f (float_mul_int (float_div k n) 100)
      = (str_of_Z (T / 10) ++ "." ++ str_of_Z (T mod 10))%string /\
    2 ^ 41 * Z.abs (T * n - 1000 * k) <= (2 ^ 40 + 1) * n.
Proof.
  intros Hk Hn.
  destruct (Z.eq_dec k 0) as [->|Hk0].
  { exists 0. split; [lia|]. split; [reflexivity|]. simpl Z.abs. lia. }
  assert (Hkp : 0 < k) by lia.
  destruct (round53_small k n Hkp Hn) as (m1 & p1 & E1 & Hp1 & Hm1 & Hnorm1).
  { pose proof (Z.log2_le_mono k n ltac:(lia)). lia. }
  pose proof (round_half_even_near (k * 2 ^ p1) n Hn) as Hr1.
  rewrite <- Hm1 in Hr1.
  assert (HP1 : 0 < 2 ^ p1) by (apply Z.pow_pos_nonneg; lia).
  set (P1 := 2 ^ p1) in *.
  set (c52 := 2 ^ 52) in *.
  assert (Hc52 : c52 = 4503599627370496) by reflexivity.
  change (2 ^ 53) with (2 * c52) in Hnorm1.
  assert (HP1big : c52 <= P1) by nia.
  assert (Hm1lo : c52 <= m1) by nia.
  assert (Hm1hi : m1 <= P1) by nia.
  unfold float_div. rewrite E1. unfold float_mul_int.
  destruct (0 <=? - p1) eqn:E; [apply Z.leb_le in E; lia|]. clear E.
  rewrite Z.opp_involutive. fold P1.
  destruct (round53_small (m1 * 100) P1 ltac:(lia) HP1)
    as (m2 & p2 & E2 & Hp2 & Hm2 & Hnorm2).
  { unfold P1. rewrite Z.log2_pow2 by lia.
    assert (Z.log2 (m1 * 100) < p1 + 7); [|lia].
    apply Z.log2_lt_pow2; [lia|].
    rewrite Z.pow_add_r by lia. fold P1. change (2 ^ 7) with 128. lia. }
  pose proof (round_half_even_near (m1 * 100 * 2 ^ p2) P1 HP1) as Hr2.
  rewrite <- Hm2 in Hr2.
  assert (HP2 : 0 < 2 ^ p2) by (apply Z.pow_pos_nonneg; lia).
  set (P2 := 2 ^ p2) in *.
  change (2 ^ 53) with (2 * c52) in Hnorm2.
  rewrite E2. unfold format_1f.
  destruct (0 <=? - p2) eqn:E; [apply Z.leb_le in E; lia|]. clear E.
  rewrite Z.opp_involutive. fold P2.
  pose proof (round_half_even_near (m2 * 10) P2 HP2) as Hr3.
  set (T := round_half_even (m2 * 10) P2) in *.
  assert (Hm2lo : c52 <= m2) by nia.
  exists T. split; [|split; [reflexivity|]].
  { nia. }
  assert (HP2big : c52 <= 100 * P2) by nia.
  assert (HPP : 0 < P1 * P2) by nia.
  assert (Hid : (T * n - 1000 * k) * (P1 * P2)
                = n * P1 * (T * P2 - m2 * 10)
                  + 10 * n * (m2 * P1 - m1 * 100 * P2)
                  + 1000 * P2 * (m1 * n - k * P1)) by ring.
  assert (HnP1 : 0 <= n * P1) by nia.
  assert (U1 : n * P1 * (2 * (T * P2 - m2 * 10)) <= n * P1 * P2)
    by (apply Z.mul_le_mono_nonneg_l; lia).
  assert (U2 : 10 * n * (2 * (m2 * P1 - m1 * 100 * P2)) <= 10 * n * P1)
    by (apply Z.mul_le_mono_nonneg_l; lia).
  assert (U3 : 1000 * P2 * (2 * (m1 * n - k * P1)) <= 1000 * P2 * n)
    by (apply Z.mul_le_mono_nonneg_l; lia).
  assert (D1 : n * P1 * (- P2) <= n * P1 * (2 * (T * P2 - m2 * 10)))
    by (apply Z.mul_le_mono_nonneg_l; lia).
  assert (D2 : 10 * n * (- P1) <= 10 * n * (2 * (m2 * P1 - m1 * 100 * P2)))
    by (apply Z.mul_le_mono_nonneg_l; lia).
  assert (D3 : 1000 * P2 * (- n) <= 1000 * P2 * (2 * (m1 * n - k * P1)))
    by (apply Z.mul_le_mono_nonneg_l; lia).
  assert (Hup : 2 * ((T * n - 1000 * k) * (P1 * P2))
                <= n * (P1 * P2) + 10 * n * P1 + 1000 * n * P2)
    by (rewrite Hid; lia).
  assert (Hdn : - (n * (P1 * P2) + 10 * n * P1 + 1000 * n * P2)
                <= 2 * ((T * n - 1000 * k) * (P1 * P2)))
    by (rewrite Hid; lia).
  clear U1 U2 U3 D1 D2 D3 Hid.
  change (2 ^ 41) with 2199023255552.
  change (2 ^ 40) with 1099511627776.
  assert (S1 : 2199023255552 * 10 * P1 <= P2 * P1).
  { apply Z.mul_le_mono_nonneg_r; lia. }
  assert (S2 : 2199023255552 * 1000 * P2 <= P1 * P2).
  { apply Z.mul_le_mono_nonneg_r; lia. }
  assert (S1n : n * (2199023255552 * 10 * P1) <= n * (P2 * P1))
    by (apply Z.mul_le_mono_nonneg_l; lia).
  assert (S2n : n * (2199023255552 * 1000 * P2) <= n * (P1 * P2))
    by (apply Z.mul_le_mono_nonneg_l; lia).
  set (D := T * n - 1000 * k) in *.
  apply (Z.mul_le_mono_pos_r _ _ (2 * (P1 * P2))); [lia|].
  destruct (Z.abs_spec D) as [[_ ->]|[_ ->]]; lia.
Qed.

End RateAccuracy.

Lemma status_value_completed t :
  String.eqb (status_value (status t)) "completed" = is_completed t.
Proof. unfold is_completed. now destruct (status t). Qed.

Lemma status_value_failed t :
  String.eqb (status_value (status t)) "failed" = is_failed t.
Proof. unfold is_failed. now destruct (status t). Qed.

Lemma terminal_split (ts : list Task) :
  Forall (fun t => status t = COMPLETED \/ status t = FAILED) ts ->
  List.length (filter is_completed ts) + List.length (filter is_failed ts)
  = List.length ts.
Proof.
  induction 1 as [|t ts Ht _ IH]; simpl; [reflexivity|].
  unfold is_completed at 1, is_failed at 1.
  destruct Ht as [-> | ->]; simpl; lia.
Qed.

(** C5. The summary of [aggregate_results] counts the batch, its
    COMPLETED tasks and its FAILED tasks; the two counts add up to the
    total when every task is COMPLETED or FAILED.  The success rate is
    ["0%"] for the empty batch; otherwise it is a whole number, a point,
    one digit and a percent sign, and the number printed is the
    percentage [100 * successful / total] to the nearest tenth: it
    differs from it by at most 0.05 and a rounding error below one
    part in [2^41].  When the percentage has at most one decimal the
    rate printed is that number exactly; so it reads ["75.0%"] for
    three successes out of four. *)
Theorem aggregate_results_summary :
  forall (team_name : string) (bakery_name : pyval) (ts : list Task),
    let s := summary (aggregate_results team_name bakery_name ts) in
    total_tasks s = List.length ts /\
    successful s = List.length (filter is_completed ts) /\
    failed s = List.length (filter is_failed ts) /\
    (Forall (fun t => status t = COMPLETED \/ status t = FAILED) ts ->
     successful s + failed s = total_tasks s) /\
    (ts = [] -> success_rate s = "0%"%string) /\
    (ts <> [] ->
     exists w f : Z,
       (0 <= w)%Z /\ (0 <= f <= 9)%Z /\
       String.length (str_of_Z f) = 1 /\
       success_rate s = (str_of_Z w ++ "." ++ str_of_Z f ++ "%")%string /\
       (2 ^ 41 * Z.abs ((10 * w + f) * Z.of_nat (total_tasks s)
                        - 1000 * Z.of_nat (successful s))
        <= (2 ^ 40 + 1) * Z.of_nat (total_tasks s))%Z) /\
    (forall q : Z,
        ts <> [] ->
        (1000 * Z.of_nat (successful s) = q * Z.of_nat (total_tasks s))%Z ->
        success_rate s
          = (str_of_Z (q / 10) ++ "." ++ str_of_Z (q mod 10) ++ "%")%string) /\
    (List.length ts = 4 -> successful s = 3 -> success_rate s = "75.0%"%string).
Proof.
  intros team_name bakery_name ts s.
  assert (Hs : successful s = List.length (filter is_completed ts)).
  { unfold s, aggregate_results, successful_tasks; simpl.
    f_equal. apply filter_ext. intros t. apply status_value_completed. }
  assert (Hf : failed s = List.length (filter is_failed ts)).
  { unfold s, aggregate_results, failed_tasks; simpl.
    f_equal. apply filter_ext. intros t. apply status_value_failed. }
  assert (Hrate : ts <> [] ->
            exists T : Z,
              (0 <= T)%Z /\
              success_rate s
                = (str_of_Z (T / 10) ++ "." ++ str_of_Z (T mod 10) ++ "%")%string /\
              (2 ^ 41 * Z.abs (T * Z.of_nat (total_tasks s)
                               - 1000 * Z.of_nat (successful s))
               <= (2 ^ 40 + 1) * Z.of_nat (total_tasks s))%Z).
  { intros Hne. unfold s, aggregate_results; simpl. unfold rate_string.
    destruct (List.length ts) as [|n] eqn:El.
    { destruct ts; [congruence|discriminate]. }
    assert (Hle : List.length (successful_tasks ts) <= S n).
    { rewrite <- El. apply filter_length_le. }
    destruct (rate_accuracy (Z.of_nat (List.length (successful_tasks ts)))
                (Z.of_nat (S n)) ltac:(lia) ltac:(lia))
      as (T & HT & Heq & Hacc).
    exists T. split; [exact HT|]. split; [|exact Hacc].
    rewrite Heq. rewrite !append_assoc. reflexivity. }
  split; [reflexivity|]. split; [exact Hs|]. split; [exact Hf|].
  split; [|split; [|split; [|split]]].
  - intros Hall. rewrite Hs, Hf. now apply terminal_split.
  - intros ->. reflexivity.
  - intros Hne. destruct (Hrate Hne) as (T & HT & Heq & Hacc).
    pose proof (Z.mod_pos_bound T 10 ltac:(lia)) as Hmod.
    exists (T / 10)%Z, (T mod 10)%Z.
    split; [apply Z.div_pos; lia|]. split; [lia|].
    split; [apply digit_length; lia|]. split; [exact Heq|].
    rewrite <- (Z.div_mod T 10) by lia. exact Hacc.
  - intros q Hne Hq. destruct (Hrate Hne) as (T & HT & Heq & Hacc).
    assert (Hpos : (0 < Z.of_nat (total_tasks s))%Z).
    { unfold s, aggregate_results; simpl.
      destruct ts; [congruence|simpl; lia]. }
    rewrite Hq in Hacc.
    replace (T * Z.of_nat (total_tasks s) - q * Z.of_nat (total_tasks s))%Z
      with ((T - q) * Z.of_nat (total_tasks s))%Z in Hacc by ring.
    rewrite Z.abs_mul, (Z.abs_eq (Z.of_nat (total_tasks s))) in Hacc by lia.
    assert (HTq : T = q).
    { change (2 ^ 41)%Z with 2199023255552%Z in Hacc.
      change (2 ^ 40)%Z with 1099511627776%Z in Hacc.
      destruct (Z.eq_dec T q) as [E|E]; [exact E|exfalso].
      assert (1 <= Z.abs (T - q))%Z by lia.
      assert (1 * Z.of_nat (total_tasks s)
              <= Z.abs (T - q) * Z.of_nat (total_tasks s))%Z
        by (apply Z.mul_le_mono_nonneg_r; lia).
      lia. }
    now rewrite <- HTq.
  - intros H4 H3. unfold s in *. unfold aggregate_results in *. simpl in *.
    rewrite H4, H3. reflexivity.
Qed.

(** ** The results by type and the operational metrics *)

Lemma group_results_fold (ty : string) (ts : list Task) :
  forall acc : list (string * list ResultEntry),
    dict_get
      (fold_left
         (fun acc t =>
            let cur := match dict_get acc (task_type t) with
                       | Some l => l
                       | None => []
                       end in
            dict_set acc (task_type t) (cur ++ [result_entry t]))
         ts acc) ty
    = let l := map result_entry
                 (filter (fun t => String.eqb (task_type t) ty) ts) in
      match dict_get acc ty with
      | Some cur => Some (cur ++ l)
      | None => match l with [] => None | _ => Some l end
      end.
Proof.
  induction ts as [|t ts IH]; intros acc; cbv zeta.
  - simpl. destruct (dict_get acc ty); [now rewrite app_nil_r|reflexivity].
  - simpl fold_left. rewrite IH. cbv zeta. rewrite dict_get_set. simpl filter.
    rewrite (String.eqb_sym ty (task_type t)).
    destruct (String.eqb (task_type t) ty) eqn:E; [|reflexivity].
    apply String.eqb_eq in E. rewrite E. simpl map.
    destruct (dict_get acc ty) as [cur|]; [now rewrite <- app_assoc|reflexivity].
Qed.

Lemma group_results_keys (ts : list Task) :
  forall acc : list (string * list ResultEntry),
    NoDup (dict_keys acc) ->
    NoDup (dict_keys
             (fold_left
                (fun acc t =>
                   let cur := match dict_get acc (task_type t) with
                              | Some l => l
                              | None => []
                              end in
                   dict_set acc (task_type t) (cur ++ [result_entry t]))
                ts acc)).
Proof.
  induction ts as [|t ts IH]; intros acc H; simpl; [exact H|].
  apply IH. now apply dict_set_NoDup.
Qed.

(** X17. In a report, the entry of [results] for a task type lists
    the successful tasks of that type, each once and in the order of
    the batch; a type without a successful task has no entry, and no
    type has two. *)
Theorem results_grouped_by_type :
  forall (team_name : string) (bakery_name : pyval) (ts : list Task) (ty : string),
    let r := aggregate_results team_name bakery_name ts in
    let mine := filter (fun t => String.eqb (task_type t) ty) (successful_tasks ts) in
    dict_get (results r) ty
      = match mine with [] => None | _ => Some (map result_entry mine) end /\
    NoDup (dict_keys (results r)).
Proof.
  intros team_name bakery_name ts ty. cbv zeta. simpl. unfold group_results. split.
  - rewrite group_results_fold. cbv zeta. simpl.
    now destruct (filter _ (successful_tasks ts)).
  - apply group_results_keys. constructor.
Qed.

Lemma metrics_fold (ts : list Task) :
  forall m0 : Metrics,
    let m :=
      fold_left
        (fun m t =>
           if contains "recipe" (task_type t) then
             mkMetrics (S (recipes_managed m)) (quality_checks_passed m)
               (customer_inquiries_handled m) (production_plans_created m)
               (forecasts_generated m)
           else if String.eqb (task_type t) "quality_control" then
             mkMetrics (recipes_managed m) (S (quality_checks_passed m))
               (customer_inquiries_handled m) (production_plans_created m)
               (forecasts_generated m)
           else if String.eqb (task_type t) "customer_support" then
             mkMetrics (recipes_managed m) (quality_checks_passed m)
               (S (customer_inquiries_handled m)) (production_plans_created m)
               (forecasts_generated m)
           else if String.eqb (task_type t) "production_report" then
             mkMetrics (recipes_managed m) (quality_checks_passed m)
               (customer_inquiries_handled m) (S (production_plans_created m))
               (forecasts_generated m)
           else if String.eqb (task_type t) "sales_forecasting" then
             mkMetrics (recipes_managed m) (quality_checks_passed m)
               (customer_inquiries_handled m) (production_plans_created m)
               (S (forecasts_generated m))
           else m)
        ts m0 in
    let count ty := List.length (filter (fun t => String.eqb (task_type t) ty) ts) in
    recipes_managed m
      = recipes_managed m0
        + List.length (filter (fun t => contains "recipe" (task_type t)) ts) /\
    quality_checks_passed m = quality_checks_passed m0 + count "quality_control"%string /\
    customer_inquiries_handled m
      = customer_inquiries_handled m0 + count "customer_support"%string /\
    production_plans_created m
      = production_plans_created m0 + count "production_report"%string /\
    forecasts_generated m = forecasts_generated m0 + count "sales_forecasting"%string.
Proof.
  induction ts as [|t ts IH]; intros m0; cbv zeta.
  - simpl. repeat split; lia.
  - simpl fold_left. cbn [filter].
    match goal with
    | |- context [fold_left ?f ts ?m1] => specialize (IH m1)
    end.
    cbv zeta in IH. destruct IH as (I1 & I2 & I3 & I4 & I5).
    rewrite I1, I2, I3, I4, I5. clear I1 I2 I3 I4 I5.
    destruct (contains "recipe" (task_type t)) eqn:Hr.
    + assert (Hq : forall ty,
                 contains "recipe" ty = false ->
                 String.eqb (task_type t) ty = false).
      { intros ty Hty. apply String.eqb_neq. intros E. congruence. }
      rewrite !Hq by reflexivity. simpl. repeat split; lia.
    + destruct (String.eqb (task_type t) "quality_control") eqn:E1.
      { apply String.eqb_eq in E1. try rewrite E1. simpl. repeat split; lia. }
      destruct (String.eqb (task_type t) "customer_support") eqn:E2.
      { apply String.eqb_eq in E2. try rewrite E2. simpl. repeat split; lia. }
      destruct (String.eqb (task_type t) "production_report") eqn:E3.
      { apply String.eqb_eq in E3. try rewrite E3. simpl. repeat split; lia. }
      destruct (String.eqb (task_type t) "sales_forecasting") eqn:E4.
      { apply String.eqb_eq in E4. try rewrite E4. simpl. repeat split; lia. }
      simpl. repeat split; lia.
Qed.

Lemma counted_split (ts : list Task) :
  List.length (filter counted ts)
  = List.length (filter (fun t => contains "recipe" (task_type t)) ts)
    + List.length (filter (fun t => String.eqb (task_type t) "quality_control") ts)
    + List.length (filter (fun t => String.eqb (task_type t) "customer_support") ts)
    + List.length (filter (fun t => String.eqb (task_type t) "production_report") ts)
    + List.length (filter (fun t => String.eqb (task_type t) "sales_forecasting") ts).
Proof.
  induction ts as [|t ts IH]; [reflexivity|].
  cbn [filter]. unfold counted at 1. unfold mem_str. simpl existsb.
  rewrite !(String.eqb_sym (task_type t)) in *.
  destruct (contains "recipe" (task_type t)) eqn:Hr.
  - assert (Hq : forall ty,
               contains "recipe" ty = false ->
               String.eqb ty (task_type t) = false).
    { intros ty Hty. apply String.eqb_neq. intros E. congruence. }
    rewrite !Hq by reflexivity. simpl. rewrite IH. lia.
  - destruct (String.eqb "quality_control" (task_type t)) eqn:E1.
    { apply String.eqb_eq in E1. try rewrite <- E1. simpl. rewrite IH. lia. }
    destruct (String.eqb "customer_support" (task_type t)) eqn:E2.
    { apply String.eqb_eq in E2. try rewrite <- E2. simpl. rewrite IH. lia. }
    destruct (String.eqb "production_report" (task_type t)) eqn:E3.
    { apply String.eqb_eq in E3. try rewrite <- E3. simpl. rewrite IH. lia. }
    destruct (String.eqb "sales_forecasting" (task_type t)) eqn:E4.
    { apply String.eqb_eq in E4. try rewrite <- E4. simpl. rewrite IH. lia. }
    simpl. exact IH.
Qed.

(** X18. Each operational metric is the number of successful tasks of
    its kind: any type holding "recipe" for [recipes_managed], exactly
    one type for each of the other four.  A successful task is counted
    by at most one metric, and by none when its type is of neither
    kind (as for a "general" task): the five metrics add up to the
    number of successful tasks of a counted type, hence to all of them
    only when every one has such a type. *)
Theorem operational_metrics_count_types :
  forall (team_name : string) (bakery_name : pyval) (ts : list Task),
    let r := aggregate_results team_name bakery_name ts in
    let m := operational_metrics r in
    let ok := successful_tasks ts in
    let count ty := List.length (filter (fun t => String.eqb (task_type t) ty) ok) in
    recipes_managed m
      = List.length (filter (fun t => contains "recipe" (task_type t)) ok) /\
    quality_checks_passed m = count "quality_control"%string /\
    customer_inquiries_handled m = count "customer_support"%string /\
    production_plans_created m = count "production_report"%string /\
    forecasts_generated m = count "sales_forecasting"%string /\
    recipes_managed m + quality_checks_passed m + customer_inquiries_handled m
      + production_plans_created m + forecasts_generated m
      = List.length (filter counted ok) /\
    (Forall (fun t => counted t = true) ok ->
     recipes_managed m + quality_checks_passed m + customer_inquiries_handled m
       + production_plans_created m + forecasts_generated m
       = successful (summary r)).
Proof.
  intros team_name bakery_name ts. cbv zeta. simpl.
  unfold _calculate_operational_metrics.
  pose proof (metrics_fold (successful_tasks ts) (mkMetrics 0 0 0 0 0)) as H.
  cbv zeta in H. simpl in H. destruct H as (H1 & H2 & H3 & H4 & H5).
  rewrite H1, H2, H3, H4, H5.
  repeat (split; [reflexivity|]).
  split; [now rewrite counted_split|].
  intros Hall. rewrite <- counted_split. f_equal.
  apply forallb_filter_id. apply forallb_forall.
  intros t Ht. rewrite Forall_forall in Hall. now apply Hall.
Qed.

(** ** The bakery leader at work *)

(** [str] on the simplest values, for running examples. *)
Definition simple_str (v : pyval) : string :=
  match v with
  | PNone => "None"
  | PBool true => "True"
  | PBool false => "False"
  | PInt z => str_of_Z z
  | PStr s => s
  | PList _ => "[...]"
  | PDict _ => "{...}"
  end.

Definition bakery_leader : Leader nat nat :=
  Leader_init "Bakery Operations Team" None 0 0.

Definition done_task (id : string) (s : TaskStatus) : Task :=
  set_status (Task_init id "bake" "recipe_scale" MEDIUM None None 0%Z) s.

(** A bakery team: a forecaster whose [execute] always raises, a
    recipe worker, and nobody for production reports. *)
Definition bakery_team : Leader nat nat :=
  register_agent "recipes" 1 ["recipe_scale"; "recipe_allergens"]
    (register_agent "forecaster" 0 ["sales_forecasting"] bakery_leader).

Definition bakery_plan :=
  plan_tasks (Inst := nat) (W := nat) demo_clock ascii_lower simple_str.

Definition bakery_report (ts : list Task) (L : Leader nat nat) : Report :=
  aggregate_results (team_name L) (PStr "Artisan Bakery") ts.

(** One recipe to scale: the plan is a forecast, a scaling and a
    production report. *)
Definition rye_context : option pydict :=
  Some [("recipes", PList [PDict [("name", PStr "rye"); ("target_servings", PInt 40)]])].

(** The whole run: of the three tasks planned, the forecast fails in
    its worker, the scaling succeeds and the report finds no worker. *)
Example bakery_run_summary :
  fst (execute_goal nat nat demo_execute demo_initialize demo_clock
         ascii_lower simple_str "Plan production" rye_context
         (mkBakeryLeader nat nat bakery_team (PStr "Artisan Bakery") (PList [])))
  = Ok (mkReport "Bakery Operations Team" (PStr "Artisan Bakery")
          (mkSummary 3 1 2 "33.3%")
          [("recipe_scale"%string,
            [mkResultEntry "task_2" "Scale recipe: rye" (Some "recipes"%string)
               (Some (PInt 1))])]
          [mkFailureEntry "task_1" "Forecast product demand"
             (Some "oven is cold"%string);
           mkFailureEntry "task_3" "Generate production report"
             (Some "No agent available for task type: production_report"%string)]
          (mkMetrics 1 0 0 0 0)).
Proof. vm_compute. reflexivity. Qed.

Lemma execute_goal_partial_failure_witness :
  exists (t' : Task) (post' : list Task) report L',
    status t' = FAILED /\ error t' = Some "oven is cold"%string /\
    List.length post' = 2 /\
    Leader.execute_goal demo_execute demo_initialize demo_clock
      bakery_plan bakery_report "Plan production" rye_context bakery_team
    = (Ok report, L').
Proof.
  destruct (execute_goal_partial_failure nat nat demo_execute demo_initialize
              demo_clock _ bakery_plan bakery_report
              "Plan production" rye_context bakery_team
              _ _ _ _ [] _ _ [] [] _ "forecaster" _
              (mkExn Exception "oven is cold") _
              eq_refl eq_refl eq_refl eq_refl eq_refl
              ltac:(discriminate) eq_refl eq_refl)
    as (t' & Lb & rs & post' & Lc & _ & Hs & He & _ & Hlen & _ & _ & _ & Hg).
  exists t', post'. eexists. eexists.
  split; [exact Hs|]. split; [exact He|]. split; [exact Hlen|exact Hg].
Defined.

Lemma unroutable_task_never_executed_witness :
  exists report L',
    Leader.execute_goal demo_execute demo_initialize demo_clock
      bakery_plan bakery_report "Plan production" rye_context bakery_team
    = (Ok report, L') /\
    world L' = 2.
Proof.
  destruct (plan_tasks demo_clock ascii_lower simple_str
              "Plan production" rye_context (initialize demo_initialize bakery_team))
    as [[planned|e] L1] eqn:Hplan; [|discriminate].
  pose proof (plan_tasks_fresh nat nat demo_clock ascii_lower simple_str
                _ _ _ _ _ Hplan) as Hfresh.
  vm_compute in Hplan. inversion Hplan; subst planned L1; clear Hplan.
  match type of Hfresh with
  | Forall fresh [?t1; ?t2; ?t3] =>
      destruct (unroutable_task_never_executed nat nat demo_execute
                  demo_initialize demo_clock _ bakery_plan bakery_report
                  "Plan production" rye_context bakery_team
                  [t1; t2; t3] _ [t1; t2] t3 [] eq_refl eq_refl eq_refl
                  (proj1 (Forall_inv (Forall_inv_tail (Forall_inv_tail Hfresh)))))
        as (_ & _ & _ & _ & rs & pre' & post' & Lf & _ & Hrun & _ & Hg)
  end.
  eexists. eexists. split; [exact Hg|].
  vm_compute in Hrun. now inversion Hrun.
Defined.

Lemma counters_monotone_without_reregistration_witness :
  exists d',
    dict_get
      (team_members
         (run_session demo_execute demo_initialize demo_clock
            bakery_plan bakery_report
            [OpExecuteGoal "Plan production" rye_context;
             OpRegister "reporter" 3 ["production_report"];
             OpExecuteGoal "Plan production" rye_context]
            bakery_team))
      "recipes" = Some d' /\
    capabilities d' = ["recipe_scale"%string; "recipe_allergens"%string] /\
    0 <= tasks_assigned d' /\ 0 <= tasks_completed d' /\ 0 <= tasks_failed d'.
Proof.
  destruct (proj1 (counters_monotone_without_reregistration
                     nat nat demo_execute demo_initialize demo_clock
                     _ bakery_plan bakery_report
                     (plan_tasks_team_members nat nat demo_clock ascii_lower
                        simple_str))
              [OpExecuteGoal "Plan production" rye_context;
               OpRegister "reporter" 3 ["production_report"];
               OpExecuteGoal "Plan production" rye_context]
              bakery_team "recipes"
              (mkAgentData 1 ["recipe_scale"%string; "recipe_allergens"%string] 0 0 0)
              eq_refl eq_refl)
    as (d' & Hd & _ & Hcaps & Ha & Hc & Hf).
  exists d'. repeat split; assumption.
Defined.

Lemma plan_tasks_unmatched_goal_witness :
  exists t L',
    plan_tasks demo_clock ascii_lower simple_str
      "Sweep the floor" (Some [("room", PStr "hall")]) bakery_leader
    = (Ok [t], L') /\
    task_type t = "general"%string /\
    metadata t = [("room", PStr "hall")].
Proof.
  destruct (plan_tasks_unmatched_goal nat nat demo_clock ascii_lower simple_str
              "Sweep the floor" (Some [("room", PStr "hall")]) bakery_leader
              eq_refl)
    as (t & L' & Hp & Hty & Hm & _).
  exists t, L'. auto.
Defined.



Lemma aggregate_results_summary_witness :
  let ts := [done_task "task_1" COMPLETED; done_task "task_2" FAILED;
             done_task "task_3" COMPLETED; done_task "task_4" COMPLETED] in
  let s := summary (aggregate_results "Bakery Operations Team" (PStr "Artisan Bakery") ts) in
  successful s + failed s = total_tasks s /\ success_rate s = "75.0%"%string /\
  success_rate s
    = (str_of_Z (750 / 10) ++ "." ++ str_of_Z (750 mod 10) ++ "%")%string.
Proof.
  intros ts s.
  destruct (aggregate_results_summary "Bakery Operations Team" (PStr "Artisan Bakery") ts)
    as (_ & _ & _ & Hsum & _ & _ & Hexact & H75).
  split; [|split].
  - apply Hsum. unfold ts.
    repeat (apply Forall_cons; [simpl; auto|]). apply Forall_nil.
  - apply H75; reflexivity.
  - apply (Hexact 750%Z); [discriminate|vm_compute; reflexivity].
Defined.

(** ** The further statements on the bakery team *)

Lemma plan_tasks_numbers_its_tasks_witness :
  exists ts L',
    plan_tasks demo_clock ascii_lower simple_str "Plan production" rye_context
      bakery_team = (Ok ts, L') /\
    map task_id ts = ["task_1"%string; "task_2"%string; "task_3"%string] /\
    task_counter L' = 3 /\
    NoDup (map task_id ts).
Proof.
  destruct (plan_tasks demo_clock ascii_lower simple_str "Plan production"
              rye_context bakery_team) as [[ts|e] L'] eqn:E;
    [|vm_compute in E; discriminate].
  assert (Hl : List.length ts = 3).
  { vm_compute in E. injection E as <- _. reflexivity. }
  destruct (plan_tasks_numbers_its_tasks nat nat demo_clock ascii_lower simple_str
              "Plan production" rye_context bakery_team L' ts E)
    as (Hids & Hc & Hnd & _).
  exists ts, L'. split; [reflexivity|].
  split; [rewrite Hids, Hl; vm_compute; reflexivity|].
  split; [rewrite Hc, Hl; vm_compute; reflexivity|exact Hnd].
Defined.

Lemma customer_goal_is_a_custom_order_witness :
  contains "customer" (ascii_lower "customer_inquiry") = true /\
  exists t L',
    plan_tasks demo_clock ascii_lower simple_str "customer_inquiry"
      (Some [("inquiries",
              PList [PDict [("subject", PStr "Opening hours")];
                     PDict [("subject", PStr "Gluten")]])])
      bakery_leader = (Ok [t], L') /\
    description t = "Respond to custom order inquiry"%string.
Proof.
  assert (H1 : contains "customer" (ascii_lower "customer_inquiry") = true)
    by (vm_compute; reflexivity).
  assert (H2 : contains "production" (ascii_lower "customer_inquiry") = false)
    by (vm_compute; reflexivity).
  assert (H3 : contains "plan" (ascii_lower "customer_inquiry") = false)
    by (vm_compute; reflexivity).
  destruct (customer_goal_is_a_custom_order nat nat demo_clock ascii_lower
              simple_str "customer_inquiry"
              (Some [("inquiries",
                      PList [PDict [("subject", PStr "Opening hours")];
                             PDict [("subject", PStr "Gluten")]])])
              bakery_leader) as (Hcustom & _).
  destruct (Hcustom H1 H2 H3) as (_ & Hone).
  destruct (Hone eq_refl) as (t & L' & Hp & Hd & _).
  split; [exact H1|]. exists t, L'. split; [exact Hp|exact Hd].
Defined.

Lemma operational_metrics_count_types_witness :
  let ts := [done_task "task_1" COMPLETED; done_task "task_2" FAILED;
             done_task "task_3" COMPLETED] in
  let r := aggregate_results "Bakery Operations Team" (PStr "Artisan Bakery") ts in
  recipes_managed (operational_metrics r) = 2 /\
  recipes_managed (operational_metrics r)
    + quality_checks_passed (operational_metrics r)
    + customer_inquiries_handled (operational_metrics r)
    + production_plans_created (operational_metrics r)
    + forecasts_generated (operational_metrics r)
    = successful (summary r).
Proof.
  intros ts r.
  destruct (operational_metrics_count_types "Bakery Operations Team"
              (PStr "Artisan Bakery") ts)
    as (Hr & _ & _ & _ & _ & _ & Hall).
  split; [fold r in Hr; rewrite Hr; vm_compute; reflexivity|].
  apply Hall. vm_compute. repeat constructor.
Defined.

Lemma bakery_goal_end_to_end_witness :
  dict_mem (team_members bakery_team) "" = false /\
  exists report B',
    execute_goal nat nat demo_execute demo_initialize demo_clock
      ascii_lower simple_str "Plan production" rye_context
      (mkBakeryLeader nat nat bakery_team (PStr "Artisan Bakery") (PList []))
    = (Ok report, B') /\
    total_tasks (summary report) = 3 /\
    successful (summary report) + failed (summary report) = 3 /\
    exists t,
      dict_get (tasks (base nat nat B')) "task_2" = Some t /\ Leader.settled t.
Proof.
  assert (Hempty : dict_mem (team_members bakery_team) "" = false)
    by (vm_compute; reflexivity).
  destruct (plan_tasks demo_clock ascii_lower simple_str "Plan production"
              rye_context (initialize demo_initialize bakery_team))
    as [[planned|e] L1] eqn:E; [|vm_compute in E; discriminate].
  assert (Hl : List.length planned = 3).
  { vm_compute in E. injection E as <- _. reflexivity. }
  destruct (bakery_goal_end_to_end nat nat demo_execute demo_initialize
              demo_clock ascii_lower simple_str "Plan production" rye_context
              (mkBakeryLeader nat nat bakery_team (PStr "Artisan Bakery") (PList []))
              planned L1 E Hempty)
    as (report & B' & Hg & Htot & Hsum & _ & Hstore).
  split; [exact Hempty|]. exists report, B'. split; [exact Hg|].
  rewrite Hl in Htot, Hsum, Hstore.
  split; [exact Htot|]. split; [exact Hsum|].
  destruct (Hstore "task_2"%string) as (t & Hget & _ & Hs).
  { vm_compute. auto. }
  exists t. split; [exact Hget|exact Hs].
Defined.

Lemma quality_check_one_task_per_product_witness :
  exists ts L',
    _plan_quality_check nat nat demo_clock simple_str
      [("products", PList [PDict [("name", PStr "rye"); ("type", PStr "bread")];
                           PDict []])]
      bakery_leader = (Ok ts, L') /\
    map description ts
      = ["Quality check: rye"%string; "Quality check: Unknown"%string] /\
    task_counter L' = 2.
Proof.
  destruct (quality_check_one_task_per_product nat nat demo_clock simple_str
              [("products", PList [PDict [("name", PStr "rye"); ("type", PStr "bread")];
                                   PDict []])]
              bakery_leader) as (Hlist & _).
  destruct (Hlist _ eq_refl eq_refl) as (ts & L' & Hp & Hts & Hc).
  exists ts, L'. split; [exact Hp|]. split; [|exact Hc].
  inversion Hts as [|p1 t1 ps1 ts1 (_ & _ & Hd1 & _) Hts1]; subst.
  inversion Hts1 as [|p2 t2 ps2 ts2 (_ & _ & Hd2 & _) Hts2]; subst.
  inversion Hts2; subst. simpl. now rewrite Hd1, Hd2.
Defined.
End Bakery.

(* ================================================================== *)
(** * The task scheduler
      ([python/task_scheduler/task_scheduler.py], on the base class of
      [python/base/agent.py])                                          *)
(* ================================================================== *)

(** Modelling choices.  The job table is an insertion-ordered
    dictionary of job records, mutated in place by a pass; time is read
    from a clock oracle, one reading per [datetime.now()]; the logger
    is a list of messages.  The background thread of a non-blocking
    [start] is not modelled: the poll loop is run turn by turn. *)

Module Scheduler.
Import Py.

(** Timestamps and durations are microseconds. *)
Definition time : Type := Z.

(** [timedelta(seconds=n)], [timedelta(minutes=n)], [timedelta(hours=n)]. *)
Definition seconds (n : Z) : Z := (n * 1000000)%Z.
Definition minutes (n : Z) : Z := (n * 60000000)%Z.
Definition hours (n : Z) : Z := (n * 3600000000)%Z.

Inductive Level : Type := INFO | WARNING | ERROR.

(** An item of [state['history']]; [h_runs] is there on success,
    [h_error] on failure. *)
Record HistoryEntry : Type := mkHistoryEntry {
  h_task : string;
  h_timestamp : time;
  h_status : string;
  h_runs : option nat;
  h_error : option string
}.

(** An [Optional[int]] argument under [if]: its value when it is
    neither [None] nor zero. *)
Definition given (n : option Z) : option Z :=
  match n with
  | Some z => if Z.eqb z 0 then None else Some z
  | None => None
  end.

Definition ascii_s : ascii := "s"%char.
Definition ascii_m : ascii := "m"%char.
Definition ascii_h : ascii := "h"%char.

Section Engine.

(** Job actions are opaque: [call f args kwargs w] is the call of [f]
    on [args] and [kwargs] in world [w].  An action does not reach into
    the scheduler that runs it. *)
Variables Fn W : Type.
Variable call : Fn -> list pyval -> pydict -> W -> res pyval * W.

(** [clock n] is what the [n]-th call of [datetime.now()] returns. *)
Variable clock : nat -> time.

Record Task : Type := mkTask {
  name : string;
  func : Fn;
  args : list pyval;
  kwargs : pydict;
  schedule : option string;
  last_run : option time;
  next_run : option time;
  runs : nat;
  enabled : bool
}.

(** [Task.__init__]. *)
Definition Task_init (name : string) (func : Fn) (args : list pyval)
    (kwargs : option pydict) (schedule : option string) : Task :=
  {| name := name; func := func; args := args;
     kwargs := match kwargs with Some k => k | None => [] end;
     schedule := schedule;
     last_run := None; next_run := None; runs := 0; enabled := true |}.

Definition set_next_run (t : Task) (nr : option time) : Task :=
  {| name := name t; func := func t; args := args t; kwargs := kwargs t;
     schedule := schedule t; last_run := last_run t; next_run := nr;
     runs := runs t; enabled := enabled t |}.

(** [self.last_run = now; self.runs += 1]. *)
Definition record_run (t : Task) (tm : time) : Task :=
  {| name := name t; func := func t; args := args t; kwargs := kwargs t;
     schedule := schedule t; last_run := Some tm; next_run := next_run t;
     runs := S (runs t); enabled := enabled t |}.

(** The agent.  [populated] tells whether [self.state] holds the
    entries [_initialize] creates ([tasks], [running], [history]); the
    [thread] entry is not modelled.  [log] is what went to the logger. *)
Record TaskSchedulerAgent : Type := mkAgent {
  agent_name : string;
  _initialized : bool;
  populated : bool;
  tasks : list (string * Task);
  running : bool;
  history : list HistoryEntry;
  log : list (Level * string);
  world : W;
  clock_reads : nat
}.

Definition set_tasks (A : TaskSchedulerAgent) (ts : list (string * Task)) :=
  {| agent_name := agent_name A; _initialized := _initialized A;
     populated := populated A; tasks := ts; running := running A;
     history := history A; log := log A; world := world A;
     clock_reads := clock_reads A |}.

Definition set_running (A : TaskSchedulerAgent) (b : bool) :=
  {| agent_name := agent_name A; _initialized := _initialized A;
     populated := populated A; tasks := tasks A; running := b;
     history := history A; log := log A; world := world A;
     clock_reads := clock_reads A |}.

Definition set_world (A : TaskSchedulerAgent) (w : W) :=
  {| agent_name := agent_name A; _initialized := _initialized A;
     populated := populated A; tasks := tasks A; running := running A;
     history := history A; log := log A; world := w;
     clock_reads := clock_reads A |}.

(** [self.state['history'].append(entry)]. *)
Definition append_history (A : TaskSchedulerAgent) (h : HistoryEntry) :=
  {| agent_name := agent_name A; _initialized := _initialized A;
     populated := populated A; tasks := tasks A; running := running A;
     history := (history A ++ [h])%list; log := log A; world := world A;
     clock_reads := clock_reads A |}.

(** [self.logger.<level>(msg)]. *)
Definition logger (lvl : Level) (msg : string) (A : TaskSchedulerAgent) :=
  {| agent_name := agent_name A; _initialized := _initialized A;
     populated := populated A; tasks := tasks A; running := running A;
     history := history A; log := (log A ++ [(lvl, msg)])%list; world := world A;
     clock_reads := clock_reads A |}.

(** [datetime.now()]. *)
Definition now (A : TaskSchedulerAgent) : time * TaskSchedulerAgent :=
  (clock (clock_reads A),
   {| agent_name := agent_name A; _initialized := _initialized A;
      populated := populated A; tasks := tasks A; running := running A;
      history := history A; log := log A; world := world A;
      clock_reads := S (clock_reads A) |}).

(** [BaseAgent.__init__] for a scheduler. *)
Definition Agent_init (agent_name : string) (w : W) (reads : nat)
  : TaskSchedulerAgent :=
  {| agent_name := agent_name; _initialized := false; populated := false;
     tasks := []; running := false; history := []; log := [];
     world := w; clock_reads := reads |}.

(** [_initialize]. *)
Definition _initialize (A : TaskSchedulerAgent) : TaskSchedulerAgent :=
  {| agent_name := agent_name A; _initialized := _initialized A;
     populated := true; tasks := []; running := false;
     history := []; log := log A; world := world A;
     clock_reads := clock_reads A |}.

(** [BaseAgent.initialize]. *)
Definition initialize (A : TaskSchedulerAgent) : TaskSchedulerAgent :=
  if _initialized A then A
  else
    let A1 := logger INFO ("Initializing " ++ agent_name A) A in
    let A2 := _initialize A1 in
    let A3 := {| agent_name := agent_name A2; _initialized := true;
                 populated := populated A2; tasks := tasks A2;
                 running := running A2; history := history A2;
                 log := log A2; world := world A2;
                 clock_reads := clock_reads A2 |} in
    logger INFO (agent_name A ++ " initialized successfully") A3.

Definition ensure_initialized (A : TaskSchedulerAgent) : TaskSchedulerAgent :=
  if _initialized A then A else initialize A.

(** Reading an entry of [self.state] that was never created. *)
Definition missing (key : string) : exn := mkExn KeyError key.

(** [add_task]; it returns [self], here nothing. *)
Definition add_task (name : string) (func : Fn) (args : list pyval)
    (kwargs : option pydict)
    (interval_seconds interval_minutes interval_hours : option Z)
    (run_immediately : bool) (A : TaskSchedulerAgent)
  : res unit * TaskSchedulerAgent :=
  let A0 := ensure_initialized A in
  let schedule :=
    match given interval_seconds with
    | Some n => Some ("every_" ++ str_of_Z n ++ "s")
    | None =>
        match given interval_minutes with
        | Some n => Some ("every_" ++ str_of_Z n ++ "m")
        | None =>
            match given interval_hours with
            | Some n => Some ("every_" ++ str_of_Z n ++ "h")
            | None => None
            end
        end
    end in
  let task := Task_init name func args kwargs schedule in
  let '(task1, A1) :=
    match given interval_seconds with
    | Some n =>
        let '(tm, A') := now A0 in
        (set_next_run task (Some (tm + seconds n)%Z), A')
    | None =>
        match given interval_minutes with
        | Some n =>
            let '(tm, A') := now A0 in
            (set_next_run task (Some (tm + minutes n)%Z), A')
        | None =>
            match given interval_hours with
            | Some n =>
                let '(tm, A') := now A0 in
                (set_next_run task (Some (tm + hours n)%Z), A')
            | None => (task, A0)
            end
        end
    end in
  let '(task2, A2) :=
    if run_immediately then
      let '(tm, A') := now A1 in (set_next_run task1 (Some tm), A')
    else (task1, A1) in
  if populated A2 then
    (Ok tt,
     logger INFO ("Task '" ++ name ++ "' added to scheduler")
       (set_tasks A2 (dict_set (tasks A2) name task2)))
  else (Raise (missing "tasks"), A2).

(** [remove_task]. *)
Definition remove_task (name : string) (A : TaskSchedulerAgent)
  : res unit * TaskSchedulerAgent :=
  if populated A then
    if dict_mem (tasks A) name then
      (Ok tt, logger INFO ("Task '" ++ name ++ "' removed")
                (set_tasks A (dict_del (tasks A) name)))
    else (Ok tt, A)
  else (Raise (missing "tasks"), A).

(** [Task.execute]: the value or the wrapped exception, the task as
    mutated, the agent (world and clock) as left by the call. *)
Definition Task_execute (t : Task) (A : TaskSchedulerAgent)
  : res pyval * Task * TaskSchedulerAgent :=
  match call (func t) (args t) (kwargs t) (world A) with
  | (Ok r, w') =>
      let '(tm, A1) := now (set_world A w') in
      (Ok r, record_run t tm, A1)
  | (Raise e, w') =>
      (Raise (mkExn Exception ("Task " ++ name t ++ " failed: " ++ exn_str e)),
       t, set_world A w')
  end.

(** [_update_next_run]. *)
Definition _update_next_run (t : Task) (A : TaskSchedulerAgent)
  : res unit * Task * TaskSchedulerAgent :=
  match schedule t with
  | None => (Ok tt, set_next_run t None, A)
  | Some s =>
      if String.eqb s "" then (Ok tt, set_next_run t None, A)
      else if String.prefix "every_" s then
        let parts := rstrip "smh" (str_replace "every_" "" s) in
        match int_of_str parts with
        | Raise e => (Raise e, t, A)
        | Ok interval =>
            match last_char s with
            | Some unit =>
                if Ascii.eqb unit ascii_s then
                  let '(tm, A1) := now A in
                  (Ok tt, set_next_run t (Some (tm + seconds interval)%Z), A1)
                else if Ascii.eqb unit ascii_m then
                  let '(tm, A1) := now A in
                  (Ok tt, set_next_run t (Some (tm + minutes interval)%Z), A1)
                else if Ascii.eqb unit ascii_h then
                  let '(tm, A1) := now A in
                  (Ok tt, set_next_run t (Some (tm + hours interval)%Z), A1)
                else (Ok tt, t, A)
            | None => (Ok tt, t, A)
            end
        end
      else (Ok tt, t, A)
  end.

Definition success_entry (t : Task) (tm : time) : HistoryEntry :=
  {| h_task := name t; h_timestamp := tm; h_status := "success";
     h_runs := Some (runs t); h_error := None |}.

Definition failure_entry (t : Task) (tm : time) (e : exn) : HistoryEntry :=
  {| h_task := name t; h_timestamp := tm; h_status := "failed";
     h_runs := None; h_error := Some (exn_str e) |}.

(** The [except] clause of [_execute_task]: log, record, raise again. *)
Definition on_failure (e : exn) (t : Task) (A : TaskSchedulerAgent)
  : res pyval * Task * TaskSchedulerAgent :=
  let A1 := logger ERROR ("Task " ++ name t ++ " failed: " ++ exn_str e) A in
  let '(tm, A2) := now A1 in
  (Raise e, t, append_history A2 (failure_entry t tm e)).

(** [_execute_task]. *)
Definition _execute_task (t : Task) (A : TaskSchedulerAgent)
  : res pyval * Task * TaskSchedulerAgent :=
  let A0 := logger INFO ("Executing task: " ++ name t) A in
  match Task_execute t A0 with
  | (Raise e, t1, A1) => on_failure e t1 A1
  | (Ok r, t1, A1) =>
      match _update_next_run t1 A1 with
      | (Raise e, t2, A2) => on_failure e t2 A2
      | (Ok _, t2, A2) =>
          let '(tm, A3) := now A2 in
          (Ok r, t2, append_history A3 (success_entry t2 tm))
      end
  end.

(** [task.enabled and task.next_run and task.next_run <= now]. *)
Definition is_due (now : time) (t : Task) : bool :=
  enabled t &&
  match next_run t with
  | Some nr => (nr <=? now)%Z
  | None => false
  end.

(** The loop of [execute] over [self.state['tasks'].items()].  It
    returns the entries as the loop left them: a task object is
    mutated in place, also when a later job raises. *)
Fixpoint run_due (now : time) (todo : list (string * Task)) (results : pydict)
    (A : TaskSchedulerAgent)
  : res pydict * list (string * Task) * TaskSchedulerAgent :=
  match todo with
  | [] => (Ok results, [], A)
  | (n, t) :: rest =>
      if is_due now t then
        match _execute_task t A with
        | (Ok v, t', A1) =>
            let '(r, rest', A2) := run_due now rest (dict_set results n v) A1 in
            (r, (n, t') :: rest', A2)
        | (Raise e, t', A1) => (Raise e, (n, t') :: rest, A1)
        end
      else
        let '(r, rest', A1) := run_due now rest results A in
        (r, (n, t) :: rest', A1)
  end.

(** [execute]. *)
Definition execute (task_name : option string) (A : TaskSchedulerAgent)
  : res pyval * TaskSchedulerAgent :=
  let A0 := ensure_initialized A in
  let by_name :=
    match task_name with
    | Some n => if String.eqb n "" then None else Some n
    | None => None
    end in
  match by_name with
  | Some n =>
      if populated A0 then
        match dict_get (tasks A0) n with
        | None => (Raise (mkExn ValueError ("Task '" ++ n ++ "' not found")), A0)
        | Some t =>
            let '(r, t', A1) := _execute_task t A0 in
            (r, set_tasks A1 (dict_update (tasks A1) n (fun _ => t')))
        end
      else (Raise (missing "tasks"), A0)
  | None =>
      let '(tm, A1) := now A0 in
      if populated A1 then
        let '(r, ts, A2) := run_due tm (tasks A1) [] A1 in
        (match r with Ok d => Ok (PDict d) | Raise e => Raise e end,
         set_tasks A2 ts)
      else (Raise (missing "tasks"), A1)
  end.

(** [stop], without the thread. *)
Definition stop (A : TaskSchedulerAgent) : res unit * TaskSchedulerAgent :=
  if populated A then (Ok tt, logger INFO "Scheduler stopped" (set_running A false))
  else (Raise (missing "thread"), set_running A false).

(** One turn of the [while] loop of [_run_loop]: [execute()] under
    [try], the handler logging the exception; then the loop sleeps. *)
Definition _run_loop_turn (A : TaskSchedulerAgent) : TaskSchedulerAgent :=
  match execute None A with
  | (Ok _, A1) => A1
  | (Raise e, A1) => logger ERROR ("Scheduler error: " ++ exn_str e) A1
  end.

(** [_run_loop], for at most [n] turns: the condition is read before
    each turn; only another thread calling [stop] ends a loop whose
    flag is set, which here is the end of the turns granted. *)
Fixpoint _run_loop (n : nat) (A : TaskSchedulerAgent) : TaskSchedulerAgent :=
  match n with
  | O => A
  | S n' => if running A then _run_loop n' (_run_loop_turn A) else A
  end.

(** [start(blocking=True)] for [n] turns of the loop. *)
Definition start (n : nat) (A : TaskSchedulerAgent)
  : res unit * TaskSchedulerAgent :=
  if populated A then
    if running A then (Ok tt, logger WARNING "Scheduler already running" A)
    else (Ok tt, _run_loop n (logger INFO "Starting scheduler" (set_running A true)))
  else (Raise (missing "running"), A).

(** [get_history(limit)]: the slice [self.state['history'][-limit:]];
    the entry is missing from a state that was never filled. *)
Definition get_history (limit : Z) (A : TaskSchedulerAgent)
  : res (list HistoryEntry) :=
  if populated A then Ok (py_slice_from (- limit) (history A))
  else Raise (missing "history").

(** What a well-formed agent satisfies: [initialize] has filled
    [self.state] once [_initialized] is set. *)
Definition ready (A : TaskSchedulerAgent) : Prop :=
  _initialized A = true /\ populated A = true.

(** The interval [add_task] goes by: the first of seconds, minutes
    and hours that is given, with the letter of its unit. *)
Definition chosen_interval (s m h : option Z) : option (Z * ascii) :=
  match given s with
  | Some n => Some (n, ascii_s)
  | None =>
      match given m with
      | Some n => Some (n, ascii_m)
      | None =>
          match given h with
          | Some n => Some (n, ascii_h)
          | None => None
          end
      end
  end.

(** The schedule text of an interval and the time it stands for. *)
Definition schedule_text (p : Z * ascii) : string :=
  "every_" ++ str_of_Z (fst p) ++ String (snd p) "".

Definition duration (p : Z * ascii) : Z :=
  if Ascii.eqb (snd p) ascii_s then seconds (fst p)
  else if Ascii.eqb (snd p) ascii_m then minutes (fst p)
  else hours (fst p).

(** [BaseAgent.cleanup]; the scheduler's [_cleanup] is [stop]. *)
Definition cleanup (A : TaskSchedulerAgent) : res unit * TaskSchedulerAgent :=
  let A1 := logger INFO ("Cleaning up " ++ agent_name A) A in
  match stop A1 with
  | (Raise e, A2) => (Raise e, A2)
  | (Ok _, A2) =>
      (Ok tt,
       {| agent_name := agent_name A2; _initialized := false;
          populated := populated A2; tasks := tasks A2;
          running := running A2; history := history A2;
          log := log A2; world := world A2;
          clock_reads := clock_reads A2 |})
  end.

(** The jobs of a table a pass at time [now] executes, if none raises. *)
Definition due_jobs (now : time) (table : list (string * Task)) : list string :=
  map fst (filter (fun nt => is_due now (snd nt)) table).

(** A history entry records a run that ended, well or badly. *)
Definition settled (h : HistoryEntry) : Prop :=
  h_status h = "success"%string \/ h_status h = "failed"%string.

(** What a job execution leaves alone in the agent. *)
Definition same_frame (A B : TaskSchedulerAgent) : Prop :=
  agent_name B = agent_name A /\ _initialized B = _initialized A /\
  populated B = populated A /\ tasks B = tasks A /\ running B = running A.

Set Default Proof Using "Type".
Local Open Scope list_scope.

(** ** What one job execution does *)

Lemma same_frame_refl A : same_frame A A.
Proof. unfold same_frame. auto. Qed.

Lemma same_frame_trans A B C : same_frame A B -> same_frame B C -> same_frame A C.
Proof.
  unfold same_frame. intros (?&?&?&?&?) (?&?&?&?&?).
  repeat split; congruence.
Qed.

Lemma _execute_task_raises t A e w' :
  call (func t) (args t) (kwargs t) (world A) = (Raise e, w') ->
  let e' := mkExn Exception ("Task " ++ name t ++ " failed: " ++ exn_str e)%string in
  _execute_task t A =
    (Raise e', t,
     append_history
       (snd (now (logger ERROR ("Task " ++ name t ++ " failed: " ++ exn_str e')%string
                    (set_world (logger INFO ("Executing task: " ++ name t)%string A) w'))))
       (failure_entry t (clock (clock_reads A)) e')).
Proof.
  intros Hc e'. unfold _execute_task, Task_execute. simpl. rewrite Hc. reflexivity.
Qed.

Lemma _update_next_run_every_5s t A :
  schedule t = Some "every_5s"%string ->
  _update_next_run t A =
    (Ok tt, set_next_run t (Some (clock (clock_reads A) + seconds 5)%Z), snd (now A)).
Proof. intros H. unfold _update_next_run. rewrite H. reflexivity. Qed.

Lemma _execute_task_every_5s t A v w' :
  schedule t = Some "every_5s"%string ->
  call (func t) (args t) (kwargs t) (world A) = (Ok v, w') ->
  exists t' A',
    _execute_task t A = (Ok v, t', A') /\
    runs t' = S (runs t) /\
    last_run t' = Some (clock (clock_reads A)) /\
    next_run t' = Some (clock (S (clock_reads A)) + seconds 5)%Z /\
    same_frame A A'.
Proof.
  intros Hs Hc. unfold _execute_task, Task_execute. simpl. rewrite Hc. simpl.
  rewrite _update_next_run_every_5s by exact Hs. simpl.
  eexists. eexists. split; [reflexivity|]. simpl.
  repeat split; reflexivity.
Qed.

Lemma _execute_task_frame t A :
  same_frame A (snd (_execute_task t A)).
Proof.
  unfold _execute_task, Task_execute, on_failure. simpl.
  destruct (call (func t) (args t) (kwargs t) (world A)) as [[r|e] w']; simpl;
    [|repeat split].
  unfold _update_next_run. simpl.
  destruct (schedule t) as [s|]; simpl; [|repeat split].
  destruct (String.eqb s ""); simpl; [repeat split|].
  destruct (String.prefix "every_" s); simpl; [|repeat split].
  destruct (int_of_str (rstrip "smh" (str_replace "every_" "" s))) as [z|e];
    simpl; [|repeat split].
  destruct (last_char s) as [u|]; simpl; [|repeat split].
  destruct (Ascii.eqb u ascii_s); simpl; [repeat split|].
  destruct (Ascii.eqb u ascii_m); simpl; [repeat split|].
  destruct (Ascii.eqb u ascii_h); simpl; repeat split.
Qed.

(** ** The pass over the job table *)

Lemma run_due_app T pre post rs A :
  run_due T (pre ++ post) rs A =
  match run_due T pre rs A with
  | (Ok rs1, pre', A1) =>
      let '(r, post', A2) := run_due T post rs1 A1 in
      (r, pre' ++ post', A2)
  | (Raise e, pre', A1) => (Raise e, pre' ++ post, A1)
  end.
Proof.
  revert rs A. induction pre as [|[n t] pre IH]; intros rs A; simpl.
  - now destruct (run_due T post rs A) as [[r post'] A2].
  - destruct (is_due T t).
    + destruct (_execute_task t A) as [[[v|e] t'] A1]; [|reflexivity].
      rewrite IH.
      destruct (run_due T pre (dict_set rs n v) A1) as [[[rs1|e] pre'] A2];
        [|reflexivity].
      now destruct (run_due T post rs1 A2) as [[r post'] A3].
    + rewrite IH.
      destruct (run_due T pre rs A) as [[[rs1|e] pre'] A2]; [|reflexivity].
      now destruct (run_due T post rs1 A2) as [[r post'] A3].
Qed.

Lemma run_due_frame T todo rs A :
  same_frame A (snd (run_due T todo rs A)).
Proof.
  revert rs A. induction todo as [|[n t] todo IH]; intros rs A; simpl.
  - apply same_frame_refl.
  - destruct (is_due T t).
    + pose proof (_execute_task_frame t A) as H1.
      destruct (_execute_task t A) as [[[v|e] t'] A1]; simpl in *; [|exact H1].
      specialize (IH (dict_set rs n v) A1).
      destruct (run_due T todo (dict_set rs n v) A1) as [[r rest'] A2]; simpl in *.
      eapply same_frame_trans; eassumption.
    + specialize (IH rs A).
      now destruct (run_due T todo rs A) as [[r rest'] A2].
Qed.

(** The entry met after a prefix that ran without an exception is
    handed to [_execute_task] if it is due. *)
Lemma run_due_reaches T pre n t post rs rs1 pre' A A1 :
  run_due T pre rs A = (Ok rs1, pre', A1) ->
  is_due T t = true ->
  run_due T (pre ++ (n, t) :: post) rs A =
  match _execute_task t A1 with
  | (Ok v, t', A2) =>
      let '(r, post', A3) := run_due T post (dict_set rs1 n v) A2 in
      (r, pre' ++ (n, t') :: post', A3)
  | (Raise e, t', A2) => (Raise e, pre' ++ (n, t') :: post, A2)
  end.
Proof.
  intros Hpre Hdue. rewrite run_due_app, Hpre. simpl. rewrite Hdue.
  destruct (_execute_task t A1) as [[[v|e] t'] A2]; [|reflexivity].
  now destruct (run_due T post (dict_set rs1 n v) A2) as [[r post'] A3].
Qed.

Lemma ensure_initialized_ready A : ready A -> ensure_initialized A = A.
Proof. intros [Hi _]. unfold ensure_initialized. now rewrite Hi. Qed.

Lemma now_frame A : same_frame A (snd (now A)).
Proof. unfold same_frame. simpl. auto. Qed.

Lemma execute_all_due_frame A :
  ready A ->
  let A' := snd (execute None A) in
  ready A' /\ running A' = running A /\ agent_name A' = agent_name A.
Proof.
  intros Hr. pose proof Hr as [Hi Hp]. cbv zeta. unfold execute.
  rewrite (ensure_initialized_ready A Hr).
  pose proof (now_frame A) as Hn.
  destruct (now A) as [tm A1]. simpl in Hn.
  destruct Hn as (Hn1 & Hn2 & Hn3 & Hn4 & Hn5).
  rewrite Hn3, Hp.
  pose proof (run_due_frame tm (tasks A1) [] A1) as Hf.
  destruct (run_due tm (tasks A1) [] A1) as [[r ts] A2]. simpl in Hf |- *.
  destruct Hf as (Hf1 & Hf2 & Hf3 & Hf4 & Hf5). unfold ready. simpl.
  repeat split; congruence.
Qed.

Lemma _run_loop_turn_frame A :
  ready A ->
  ready (_run_loop_turn A) /\ running (_run_loop_turn A) = running A.
Proof.
  intros Hr. destruct (execute_all_due_frame A Hr) as ((Hi & Hp) & Hrun & _).
  unfold _run_loop_turn. destruct (execute None A) as [[v|e] A1]; simpl in *;
    unfold ready; simpl; auto.
Qed.

(** A loop whose flag is set takes every turn it is granted. *)
Lemma _run_loop_keeps_turning k : forall A,
  ready A -> running A = true ->
  _run_loop (S k) A = _run_loop k (_run_loop_turn A) /\
  running (_run_loop k A) = true /\ ready (_run_loop k A).
Proof.
  induction k as [|k IH]; intros A Hr Hrun.
  - simpl. rewrite Hrun. auto.
  - destruct (_run_loop_turn_frame A Hr) as [Hr' Hrun'].
    rewrite Hrun in Hrun'.
    destruct (IH (_run_loop_turn A) Hr' Hrun') as (_ & H2 & H3).
    split; [|split].
    + change (_run_loop (S (S k)) A) with
        (if running A then _run_loop (S k) (_run_loop_turn A) else A).
      now rewrite Hrun.
    + change (_run_loop (S k) A) with
        (if running A then _run_loop k (_run_loop_turn A) else A).
      now rewrite Hrun.
    + change (_run_loop (S k) A) with
        (if running A then _run_loop k (_run_loop_turn A) else A).
      now rewrite Hrun.
Qed.

Lemma execute_all_due_unfold A :
  ready A ->
  execute None A =
  let '(r, ts, A2) :=
    run_due (clock (clock_reads A)) (tasks A) [] (snd (now A)) in
  (match r with Ok d => Ok (PDict d) | Raise e => Raise e end, set_tasks A2 ts).
Proof.
  intros Hr. pose proof Hr as [Hi Hp]. unfold execute.
  rewrite (ensure_initialized_ready A Hr). simpl. rewrite Hp. reflexivity.
Qed.

Lemma wrapped_error_contains (nm msg : string) :
  contains msg ("Task " ++ nm ++ " failed: " ++ msg)%string = true.
Proof.
  rewrite <- (append_assoc nm " failed: " msg).
  rewrite <- (append_assoc "Task " (nm ++ " failed: ") msg).
  apply contains_suffix.
Qed.

(** C8. When the action of a due job raises during a pass, an entry
    with status ["failed"] and the text of the exception, which holds
    the text of the action's own error, is appended to the history,
    and the exception leaves [execute]; the turn of the poll loop
    catches it and logs it, the [running] flag is as before, and a
    loop whose flag is set goes on to its next turn. *)
Theorem job_failure_does_not_stop_the_loop :
  forall (A : TaskSchedulerAgent) pre n t post rs pre' Ak e w',
    ready A ->
    tasks A = pre ++ (n, t) :: post ->
    run_due (clock (clock_reads A)) pre [] (snd (now A)) = (Ok rs, pre', Ak) ->
    is_due (clock (clock_reads A)) t = true ->
    call (func t) (args t) (kwargs t) (world Ak) = (Raise e, w') ->
    let e' := mkExn Exception ("Task " ++ name t ++ " failed: " ++ exn_str e)%string in
    let entry := failure_entry t (clock (clock_reads Ak)) e' in
    exists A2,
      execute None A = (Raise e', A2) /\
      history A2 = history Ak ++ [entry] /\
      h_status entry = "failed"%string /\
      h_error entry = Some (exn_str e') /\
      contains (exn_str e) (exn_str e') = true /\
      _run_loop_turn A = logger ERROR ("Scheduler error: " ++ exn_str e')%string A2 /\
      running (_run_loop_turn A) = running A /\
      (running A = true ->
       forall k, _run_loop (S k) A = _run_loop k (_run_loop_turn A) /\
                 running (_run_loop k A) = true).
Proof.
  intros A pre n t post rs pre' Ak e w' Hr Ht Hpre Hdue Hc e' entry.
  pose proof (execute_all_due_unfold A Hr) as Hex.
  rewrite Ht, (run_due_reaches _ _ n t post _ _ _ _ _ Hpre Hdue) in Hex.
  rewrite (_execute_task_raises t Ak e w' Hc) in Hex. cbv zeta in Hex.
  eexists. split; [exact Hex|].
  split; [reflexivity|]. split; [reflexivity|]. split; [reflexivity|].
  split; [apply wrapped_error_contains|].
  split; [unfold _run_loop_turn; rewrite Hex; reflexivity|].
  split; [apply _run_loop_turn_frame; exact Hr|].
  intros Hrun k. destruct (_run_loop_keeps_turning k A Hr Hrun) as (H1 & H2 & _).
  auto.
Qed.



Lemma add_task_every_5s_now name f a kw A :
  (_initialized A = true -> populated A = true) ->
  let A0 := ensure_initialized A in
  let r := clock_reads A0 in
  let t0 := set_next_run
              (set_next_run (Task_init name f a kw (Some "every_5s"%string))
                 (Some (clock r + seconds 5)%Z))
              (Some (clock (S r))) in
  add_task name f a kw (Some 5%Z) None None true A =
    (Ok tt,
     logger INFO ("Task '" ++ name ++ "' added to scheduler")%string
       (set_tasks (snd (now (snd (now A0)))) (dict_set (tasks A0) name t0))) /\
  ready A0.
Proof.
  intros Hwf. cbv zeta.
  assert (Hready : ready (ensure_initialized A)).
  { unfold ensure_initialized, initialize, ready.
    destruct (_initialized A) eqn:Ei; simpl; auto. }
  split; [|exact Hready].
  unfold add_task. simpl. destruct Hready as [_ Hp]. rewrite Hp. reflexivity.
Qed.

(** C7. A job added with [interval_seconds=5] and
    [run_immediately=True] gets as [next_run] the last reading of the
    clock made by [add_task], so with a clock that does not go back its
    [next_run] is at most any reading made afterwards and the job is
    due.  When the next pass of [execute()] reaches it (the jobs before
    it in the table ran without an exception) and its action returns,
    the job has [runs = 1], [last_run] the clock reading made when the
    action returned and [next_run] five seconds past the clock reading
    made next: [last_run + 5s] plus the time between the two
    readings. *)
Theorem add_task_run_immediately_then_execute :
  forall (A : TaskSchedulerAgent) (name : string) (f : Fn) (a : list pyval)
         (kw : option pydict),
    (_initialized A = true -> populated A = true) ->
    (forall i j, i <= j -> (clock i <= clock j)%Z) ->
    let A1 := snd (add_task name f a kw (Some 5%Z) None None true A) in
    fst (add_task name f a kw (Some 5%Z) None None true A) = Ok tt /\
    exists t0 pre post,
      tasks A1 = pre ++ (name, t0) :: post /\
      ~ In name (dict_keys pre) /\
      next_run t0 = Some (clock (clock_reads A1 - 1)) /\
      runs t0 = 0 /\ last_run t0 = None /\
      (forall k, clock_reads A1 - 1 <= k -> is_due (clock k) t0 = true) /\
      (forall rs pre' Ak v w',
          run_due (clock (clock_reads A1)) pre [] (snd (now A1)) = (Ok rs, pre', Ak) ->
          call f a (match kw with Some k => k | None => [] end) (world Ak) = (Ok v, w') ->
          exists t1 post' r A2,
            execute None A1 = (r, A2) /\
            tasks A2 = pre' ++ (name, t1) :: post' /\
            runs t1 = 1 /\
            last_run t1 = Some (clock (clock_reads Ak)) /\
            next_run t1 = Some (clock (S (clock_reads Ak)) + 5000000)%Z /\
            (clock (clock_reads Ak) + 5000000
             <= clock (S (clock_reads Ak)) + 5000000)%Z).
Proof.
  intros A name f a kw Hwf Hmono A1.
  destruct (add_task_every_5s_now name f a kw A Hwf) as [Hadd Hready].
  cbv zeta in Hadd. unfold A1. rewrite Hadd. clear A1. cbn [fst snd].
  set (A0 := ensure_initialized A) in *.
  set (t0 := set_next_run _ (Some (clock (S (clock_reads A0))))).
  split; [reflexivity|].
  destruct (dict_set_split (tasks A0) name t0) as (pre & post & Hsplit & Hnin).
  exists t0, pre, post.
  split; [exact Hsplit|]. split; [exact Hnin|].
  split; [simpl; f_equal; f_equal; lia|].
  split; [reflexivity|]. split; [reflexivity|].
  split.
  { intros k Hk. unfold is_due. simpl. apply Z.leb_le. apply Hmono.
    simpl in Hk. lia. }
  intros rs pre' Ak v w' Hpre Hc.
  set (B := logger INFO _ _) in *.
  assert (HB : ready B) by (destruct Hready; split; assumption).
  assert (Hdue : is_due (clock (clock_reads B)) t0 = true).
  { unfold is_due. simpl. apply Z.leb_le. apply Hmono. lia. }
  pose proof (execute_all_due_unfold B HB) as Hex.
  assert (HtB : tasks B = pre ++ (name, t0) :: post) by exact Hsplit.
  rewrite HtB, (run_due_reaches _ _ name t0 post _ _ _ _ _ Hpre Hdue) in Hex.
  destruct (_execute_task_every_5s t0 Ak v w' eq_refl Hc)
    as (t1 & A' & He & Hruns & Hlast & Hnext & _).
  rewrite He in Hex.
  destruct (run_due (clock (clock_reads B)) post (dict_set rs name v) A')
    as [[r post'] A3].
  exists t1, post'. eexists. eexists.
  split; [exact Hex|]. split; [reflexivity|].
  split; [exact Hruns|]. split; [exact Hlast|]. split; [exact Hnext|].
  pose proof (Hmono (clock_reads Ak) (S (clock_reads Ak))). lia.
Qed.

(** ** Intervals: what [add_task] writes, [_update_next_run] reads *)





Lemma ensure_initialized_is_ready A :
  (_initialized A = true -> populated A = true) -> ready (ensure_initialized A).
Proof.
  intros Hwf. unfold ensure_initialized, initialize, ready.
  destruct (_initialized A) eqn:Ei; simpl; auto.
Qed.

(** What [add_task] does, for any arguments: one clock reading for a
    given interval, one more for [run_immediately]. *)
Lemma add_task_stores nm f a kw s m h (imm : bool) (A : TaskSchedulerAgent) :
  (_initialized A = true -> populated A = true) ->
  let A0 := ensure_initialized A in
  let r := match chosen_interval s m h with Some _ => 1 | None => 0 end in
  let t0 :=
    set_next_run
      (Task_init nm f a kw (option_map schedule_text (chosen_interval s m h)))
      (if imm then Some (clock (r + clock_reads A0))
       else option_map (fun p => (clock (clock_reads A0) + duration p)%Z)
              (chosen_interval s m h)) in
  add_task nm f a kw s m h imm A =
    (Ok tt,
     logger INFO ("Task '" ++ nm ++ "' added to scheduler")%string
       (set_tasks
          (Nat.iter ((if imm then 1 else 0) + r) (fun X => snd (now X)) A0)
          (dict_set (tasks A0) nm t0))).
Proof.
  intros Hwf. destruct (ensure_initialized_is_ready A Hwf) as [Hi Hp].
  unfold add_task, chosen_interval. cbv zeta.
  set (A0 := ensure_initialized A) in *.
  destruct (given s) as [n|]; [|destruct (given m) as [n|];
                                 [|destruct (given h) as [n|]]];
    destruct imm; simpl; rewrite Hp; reflexivity.
Qed.

(** ** One execution, for any schedule *)

(** A job execution adds exactly one entry to the history. *)
Lemma _execute_task_history t A :
  exists h,
    history (snd (_execute_task t A)) = history A ++ [h] /\
    h_task h = name t /\
    match fst (fst (_execute_task t A)) with
    | Ok _ => h_status h = "success"%string /\
              h_runs h = Some (runs (snd (fst (_execute_task t A))))
    | Raise e => h_status h = "failed"%string /\ h_error h = Some (exn_str e)
    end.
Proof.
  unfold _execute_task, Task_execute, on_failure. simpl.
  destruct (call (func t) (args t) (kwargs t) (world A)) as [[r|e] w']; simpl;
    [|eexists; split; [reflexivity|split; [reflexivity|split; reflexivity]]].
  unfold _update_next_run. simpl.
  destruct (schedule t) as [s|]; simpl;
    [|eexists; split; [reflexivity|split; [reflexivity|split; reflexivity]]].
  destruct (String.eqb s ""); simpl;
    [eexists; split; [reflexivity|split; [reflexivity|split; reflexivity]]|].
  destruct (String.prefix "every_" s); simpl;
    [|eexists; split; [reflexivity|split; [reflexivity|split; reflexivity]]].
  destruct (int_of_str (rstrip "smh" (str_replace "every_" "" s))) as [z|e]; simpl;
    [|eexists; split; [reflexivity|split; [reflexivity|split; reflexivity]]].
  destruct (last_char s) as [u|]; simpl;
    [|eexists; split; [reflexivity|split; [reflexivity|split; reflexivity]]].
  destruct (Ascii.eqb u ascii_s); simpl;
    [eexists; split; [reflexivity|split; [reflexivity|split; reflexivity]]|].
  destruct (Ascii.eqb u ascii_m); simpl;
    [eexists; split; [reflexivity|split; [reflexivity|split; reflexivity]]|].
  destruct (Ascii.eqb u ascii_h); simpl;
    eexists; (split; [reflexivity|split; [reflexivity|split; reflexivity]]).
Qed.

(** The action returned: whatever the schedule, the run is counted. *)
Lemma _execute_task_counts t A v w' :
  call (func t) (args t) (kwargs t) (world A) = (Ok v, w') ->
  let t' := snd (fst (_execute_task t A)) in
  runs t' = S (runs t) /\ last_run t' = Some (clock (clock_reads A)) /\
  name t' = name t /\ func t' = func t /\ enabled t' = enabled t /\
  schedule t' = schedule t.
Proof.
  intros Hc. cbv zeta.
  unfold _execute_task, Task_execute, on_failure. simpl. rewrite Hc. simpl.
  unfold _update_next_run. simpl.
  destruct (schedule t) as [s|] eqn:Es; simpl; [|now repeat split].
  destruct (String.eqb s ""); simpl; [now repeat split|].
  destruct (String.prefix "every_" s); simpl; [|now repeat split].
  destruct (int_of_str (rstrip "smh" (str_replace "every_" "" s))) as [z|e]; simpl;
    [|now repeat split].
  destruct (last_char s) as [u|]; simpl; [|now repeat split].
  destruct (Ascii.eqb u ascii_s); simpl; [now repeat split|].
  destruct (Ascii.eqb u ascii_m); simpl; [now repeat split|].
  destruct (Ascii.eqb u ascii_h); simpl; now repeat split.
Qed.





(** ** The job table *)

(** X3. [add_task] stores a new job record under the name: run count
    zero, no last run, enabled.  A job already stored under that name
    is replaced at its place in the table, so its run count is lost; a
    new name goes to the end.  Every other job, the history and the
    world are as [add_task] found them (after the initialization it
    may trigger), and the names stay distinct. *)
Theorem add_task_replaces_only_its_name :
  forall (nm : string) (f : Fn) (a : list pyval) (kw : option pydict)
         (s m h : option Z) (imm : bool) (A : TaskSchedulerAgent),
    (_initialized A = true -> populated A = true) ->
    let A0 := ensure_initialized A in
    let A1 := snd (add_task nm f a kw s m h imm A) in
    fst (add_task nm f a kw s m h imm A) = Ok tt /\
    (exists t0,
        dict_get (tasks A1) nm = Some t0 /\
        name t0 = nm /\ func t0 = f /\ args t0 = a /\
        runs t0 = 0 /\ last_run t0 = None /\ enabled t0 = true) /\
    (forall k, k <> nm -> dict_get (tasks A1) k = dict_get (tasks A0) k) /\
    dict_keys (tasks A1) =
      (if dict_mem (tasks A0) nm then dict_keys (tasks A0)
       else dict_keys (tasks A0) ++ [nm]) /\
    (NoDup (dict_keys (tasks A0)) -> NoDup (dict_keys (tasks A1))) /\
    history A1 = history A0 /\ world A1 = world A0 /\ running A1 = running A0.
Proof.
  intros nm f a kw s m h imm A Hwf A0 A1. unfold A1.
  rewrite (add_task_stores nm f a kw s m h imm A Hwf). cbv zeta. fold A0.
  simpl fst. simpl snd.
  split; [reflexivity|]. split.
  { eexists. split; [simpl; rewrite dict_get_set, String.eqb_refl; reflexivity|].
    repeat split. }
  split.
  { intros k Hk. simpl. rewrite dict_get_set.
    apply String.eqb_neq in Hk. now rewrite Hk. }
  split; [simpl; apply dict_keys_set|].
  split; [simpl; apply dict_set_NoDup|].
  destruct imm, (chosen_interval s m h); simpl; repeat split.
Qed.

(** X4. [remove_task] takes the named job out of the table and leaves
    every other job, and the history, alone; for a name that is not in
    the table it changes nothing at all. *)
Theorem remove_task_removes_only_its_name :
  forall (nm : string) (A : TaskSchedulerAgent),
    populated A = true ->
    NoDup (dict_keys (tasks A)) ->
    let A1 := snd (remove_task nm A) in
    fst (remove_task nm A) = Ok tt /\
    dict_get (tasks A1) nm = None /\
    (forall k, k <> nm -> dict_get (tasks A1) k = dict_get (tasks A) k) /\
    NoDup (dict_keys (tasks A1)) /\
    history A1 = history A /\
    (dict_mem (tasks A) nm = false -> A1 = A).
Proof.
  intros nm A Hp Hnd A1. unfold A1, remove_task. rewrite Hp.
  destruct (dict_mem (tasks A) nm) eqn:Em; simpl.
  - split; [reflexivity|]. split; [now apply dict_get_del_same|].
    split; [intros k Hk; now apply dict_get_del_other|].
    split; [now apply dict_del_NoDup|]. split; [reflexivity|discriminate].
  - split; [reflexivity|]. split.
    { unfold dict_mem in Em. now destruct (dict_get (tasks A) nm). }
    repeat split; auto.
Qed.

(** X5. [execute] with a name runs that job whether or not it is due
    or enabled: the run is counted even when the schedule text cannot
    be read.  An unknown name raises [ValueError] and changes nothing.
    The empty name counts as no name: all due jobs are run. *)
Theorem execute_by_name :
  forall (nm : string) (A : TaskSchedulerAgent),
    ready A -> nm <> ""%string ->
    (dict_get (tasks A) nm = None ->
     execute (Some nm) A =
       (Raise (mkExn ValueError ("Task '" ++ nm ++ "' not found")%string), A)) /\
    (forall t v w',
        dict_get (tasks A) nm = Some t ->
        call (func t) (args t) (kwargs t) (world A) = (Ok v, w') ->
        exists t',
          dict_get (tasks (snd (execute (Some nm) A))) nm = Some t' /\
          runs t' = S (runs t) /\
          last_run t' = Some (clock (clock_reads A))) /\
    execute (Some ""%string) A = execute None A.
Proof.
  intros nm A Hr Hne. pose proof Hr as [Hi Hp].
  apply String.eqb_neq in Hne.
  split; [|split].
  - intros Hg. unfold execute. rewrite (ensure_initialized_ready A Hr), Hne, Hp, Hg.
    reflexivity.
  - intros t v w' Hg Hc. unfold execute.
    rewrite (ensure_initialized_ready A Hr), Hne, Hp, Hg.
    destruct (_execute_task_counts t A v w' Hc) as (Hruns & Hlast & _).
    pose proof (_execute_task_frame t A) as (_ & _ & _ & Ht & _).
    destruct (_execute_task t A) as [[r t'] A1]. simpl in *.
    exists t'. rewrite dict_get_update, String.eqb_refl, Ht, Hg. auto.
  - reflexivity.
Qed.

(** ** A pass and the jobs it does not run *)

Lemma run_due_idle T todo rs A :
  due_jobs T todo = [] -> run_due T todo rs A = (Ok rs, todo, A).
Proof.
  unfold due_jobs. induction todo as [|[n t] todo IH]; simpl; [reflexivity|].
  destruct (is_due T t); simpl; [discriminate|].
  intros H. now rewrite (IH H).
Qed.

Lemma run_due_positions T todo : forall rs A,
  Forall2 (fun o n => fst n = fst o /\ (is_due T (snd o) = false -> n = o))
          todo (snd (fst (run_due T todo rs A))).
Proof.
  induction todo as [|[n t] todo IH]; intros rs A; simpl; [constructor|].
  destruct (is_due T t) eqn:Ed.
  - destruct (_execute_task t A) as [[[v|e] t'] A1]; simpl.
    + specialize (IH (dict_set rs n v) A1).
      destruct (run_due T todo (dict_set rs n v) A1) as [[r rest'] A2]; simpl in *.
      constructor; [split; [reflexivity|simpl; congruence]|exact IH].
    + constructor; [split; [reflexivity|simpl; congruence]|].
      clear. induction todo as [|x todo IH]; constructor; auto.
  - specialize (IH rs A).
    destruct (run_due T todo rs A) as [[r rest'] A2]; simpl in *.
    constructor; [split; [reflexivity|auto]|exact IH].
Qed.

Lemma positions_keys T (todo todo' : list (string * Task)) :
  Forall2 (fun o n => fst n = fst o /\ (is_due T (snd o) = false -> n = o))
          todo todo' ->
  dict_keys todo' = dict_keys todo /\
  forall n t, dict_get todo n = Some t -> is_due T t = false ->
              dict_get todo' n = Some t.
Proof.
  unfold dict_keys. induction 1 as [|[k t] [k' t'] todo todo' [Hk Hsame] _ [IH1 IH2]];
    simpl; [split; [reflexivity|discriminate]|].
  simpl in Hk. subst k'. split; [now rewrite IH1|].
  intros n u. destruct (String.eqb n k); [|apply IH2].
  intros [= ->] Hd. specialize (Hsame Hd). now inversion Hsame.
Qed.

Lemma run_due_results T todo : forall rs A rs' todo' A',
  run_due T todo rs A = (Ok rs', todo', A') ->
  NoDup (dict_keys rs ++ dict_keys todo) ->
  dict_keys rs' = dict_keys rs ++ due_jobs T todo.
Proof.
  unfold due_jobs.
  induction todo as [|[n t] todo IH]; intros rs A rs' todo' A' Hrun Hnd; simpl in *.
  - inversion Hrun; subst. now rewrite app_nil_r.
  - destruct (is_due T t).
    + destruct (_execute_task t A) as [[[v|e] t'] A1]; [|discriminate].
      destruct (run_due T todo (dict_set rs n v) A1) as [[r rest'] A2] eqn:E.
      inversion Hrun; subst.
      assert (Hfresh : dict_mem rs n = false).
      { destruct (dict_mem rs n) eqn:Em; [|reflexivity].
        exfalso. apply NoDup_remove_2 in Hnd. apply Hnd.
        apply in_or_app. left. now apply dict_mem_In. }
      rewrite (IH _ _ _ _ _ E); rewrite dict_keys_set, Hfresh.
      * simpl. now rewrite <- app_assoc.
      * rewrite <- app_assoc. exact Hnd.
    + destruct (run_due T todo rs A) as [[r rest'] A2] eqn:E.
      inversion Hrun; subst.
      apply (IH _ _ _ _ _ E). eapply NoDup_remove_1. exact Hnd.
Qed.

(** X6. A pass of [execute()] keeps the names and the order of the job
    table and hands back unchanged every job that is not due (not
    enabled, without [next_run], or with [next_run] after the time read
    at the start of the pass).  When no job is due the pass returns the
    empty mapping and changes nothing but the count of clock readings.
    When the pass returns, the keys of its result are the due jobs, in
    table order. *)
Theorem pass_runs_only_due_jobs :
  forall (A : TaskSchedulerAgent),
    ready A ->
    let T := clock (clock_reads A) in
    let A' := snd (execute None A) in
    dict_keys (tasks A') = dict_keys (tasks A) /\
    (forall n t, dict_get (tasks A) n = Some t -> is_due T t = false ->
                 dict_get (tasks A') n = Some t) /\
    (due_jobs T (tasks A) = [] -> execute None A = (Ok (PDict []), snd (now A))) /\
    (forall d, NoDup (dict_keys (tasks A)) ->
               fst (execute None A) = Ok (PDict d) ->
               dict_keys d = due_jobs T (tasks A)).
Proof.
  intros A Hr T A'. unfold A'. rewrite (execute_all_due_unfold A Hr). fold T.
  pose proof (run_due_positions T (tasks A) [] (snd (now A))) as Hpos.
  apply positions_keys in Hpos. destruct Hpos as [Hk Hg].
  pose proof (run_due_idle T (tasks A) [] (snd (now A))) as Hidle.
  pose proof (run_due_results T (tasks A) [] (snd (now A))) as Hres.
  destruct (run_due T (tasks A) [] (snd (now A))) as [[r ts] A2]. simpl in *.
  split; [exact Hk|]. split; [exact Hg|]. split.
  - intros Hnone. specialize (Hidle Hnone). inversion Hidle; subst.
    destruct A; reflexivity.
  - intros d Hnd Hd. destruct r as [d'|e]; [|discriminate].
    inversion Hd; subst d'. apply (Hres d ts A2 eq_refl Hnd).
Qed.

(** ** The history *)





Lemma py_slice_from_split {X : Type} (i : Z) (l : list X) :
  exists older,
    l = older ++ py_slice_from i l /\
    Z.of_nat (List.length older)
    = (if (i <? 0)%Z then Z.max (Z.of_nat (List.length l) + i) 0
       else Z.min i (Z.of_nat (List.length l)))%Z.
Proof.
  unfold py_slice_from. cbv zeta.
  set (start := if (i <? 0)%Z then _ else _).
  assert (Hs : (0 <= start <= Z.of_nat (List.length l))%Z).
  { unfold start. destruct (i <? 0)%Z eqn:E;
      [apply Z.ltb_lt in E|apply Z.ltb_ge in E]; lia. }
  exists (firstn (Z.to_nat start) l). split; [now rewrite firstn_skipn|].
  rewrite length_firstn. lia.
Qed.

(** X8. [get_history] reads the history entry of the state, which is
    missing (a [KeyError]) on a scheduler that was never initialized.
    Otherwise it returns the end of the history, oldest first: for a
    positive [limit] the last [limit] entries, all of them when there
    are fewer.  For [limit = 0] the slice [[-0:]] is the whole history,
    and a negative [limit] drops that many of the oldest entries
    instead.  Right after a job execution, [get_history(1)] is the
    entry of that execution. *)
Theorem get_history_is_the_tail :
  forall (A : TaskSchedulerAgent) (limit : Z),
    (populated A = false -> get_history limit A = Raise (missing "history")) /\
    (populated A = true ->
     exists older recent,
       get_history limit A = Ok recent /\
       history A = older ++ recent /\
       ((0 < limit)%Z ->
        Z.of_nat (List.length recent)
        = Z.min limit (Z.of_nat (List.length (history A)))) /\
       (limit = 0%Z -> recent = history A) /\
       ((limit < 0)%Z ->
        Z.of_nat (List.length older)
        = Z.min (- limit) (Z.of_nat (List.length (history A))))) /\
    (populated A = true ->
     forall t, exists h,
       get_history 1 (snd (_execute_task t A)) = Ok [h] /\
       history (snd (_execute_task t A)) = history A ++ [h] /\
       h_task h = name t).
Proof.
  intros A limit. split; [|split].
  - intros Hp. unfold get_history. now rewrite Hp.
  - intros Hp. unfold get_history. rewrite Hp.
    destruct (py_slice_from_split (- limit) (history A)) as (older & Hsplit & Hlen).
    exists older, (py_slice_from (- limit) (history A)).
    split; [reflexivity|]. split; [exact Hsplit|].
    assert (Hall : List.length (history A)
                   = List.length older
                     + List.length (py_slice_from (- limit) (history A))).
    { rewrite Hsplit at 1. apply length_app. }
    split; [|split].
    + intros Hl. destruct (- limit <? 0)%Z eqn:E;
        [apply Z.ltb_lt in E|apply Z.ltb_ge in E]; lia.
    + intros ->. simpl in Hlen.
      destruct older; [exact (eq_sym Hsplit)|simpl in Hlen; lia].
    + intros Hl. destruct (- limit <? 0)%Z eqn:E;
        [apply Z.ltb_lt in E|apply Z.ltb_ge in E]; lia.
  - intros Hp t.
    destruct (_execute_task_history t A) as (h & Hh & Hn & _).
    destruct (_execute_task_frame t A) as (_ & _ & Hpop & _).
    exists h. split; [|split; [exact Hh|exact Hn]].
    unfold get_history. rewrite Hpop, Hp, Hh. f_equal.
    unfold py_slice_from. cbv zeta. rewrite length_app. simpl List.length.
    assert (E : (- (1) <? 0)%Z = true) by reflexivity.
    rewrite E.
    match goal with
    | |- skipn ?n _ = _ => replace n with (List.length (history A)) by lia
    end.
    rewrite skipn_app, (skipn_all2 (history A)), Nat.sub_diag by lia.
    reflexivity.
Qed.

(** X9. [cleanup] stops the scheduler and clears the initialized flag
    but keeps the jobs and the history in place; the next [execute()]
    or [add_task] then initializes again, and it is that
    initialization which empties the job table and the history: a pass
    after [cleanup] runs nothing, and the table after an [add_task]
    holds the new job only. *)
Theorem cleanup_then_use_forgets_jobs :
  forall (A : TaskSchedulerAgent),
    ready A ->
    let A1 := snd (cleanup A) in
    fst (cleanup A) = Ok tt /\
    tasks A1 = tasks A /\ history A1 = history A /\
    running A1 = false /\ _initialized A1 = false /\
    (exists A2,
        execute None A1 = (Ok (PDict []), A2) /\
        tasks A2 = [] /\ history A2 = [] /\ world A2 = world A) /\
    (forall nm f a kw s m h imm,
        exists t0,
          tasks (snd (add_task nm f a kw s m h imm A1)) = [(nm, t0)] /\
          history (snd (add_task nm f a kw s m h imm A1)) = []).
Proof.
  intros A [Hi Hp] A1. unfold A1, cleanup, stop. simpl. rewrite Hp. simpl.
  split; [reflexivity|]. split; [reflexivity|]. split; [reflexivity|].
  split; [reflexivity|]. split; [reflexivity|]. split.
  - eexists. split; [reflexivity|]. repeat split.
  - intros nm f a kw s m h imm.
    match goal with
    | |- context [add_task nm f a kw s m h imm ?X] =>
        rewrite (add_task_stores nm f a kw s m h imm X) by (simpl; discriminate)
    end.
    cbv zeta. simpl snd. eexists. split; [reflexivity|].
    destruct imm, (chosen_interval s m h); reflexivity.
Qed.

(** ** A scheduler that was never initialized *)

(** X20. On a scheduler object as its constructor leaves it, [start]
    fails with [KeyError] on 'running', [stop] and [cleanup] on
    'thread' and [remove_task] on 'tasks': nothing has filled the state
    yet.  [add_task] and [execute] initialize the object first; after
    either, it is ready and not running, [remove_task] and [stop]
    return, and [start] sets the running flag. *)
Theorem new_scheduler_needs_initializing :
  forall (nm : string) (w : W) (reads : nat) (n : nat) (k : string),
    let A := Agent_init nm w reads in
    start n A = (Raise (missing "running"), A) /\
    fst (stop A) = Raise (missing "thread") /\
    fst (cleanup A) = Raise (missing "thread") /\
    remove_task k A = (Raise (missing "tasks"), A) /\
    (forall A1,
        (exists f a kw s m h imm, A1 = snd (add_task k f a kw s m h imm A)) \/
        A1 = snd (execute None A) ->
        ready A1 /\ running A1 = false /\
        fst (remove_task k A1) = Ok tt /\
        fst (stop A1) = Ok tt /\
        fst (start n A1) = Ok tt /\
        running (snd (start n A1)) = true).
Proof.
  intros nm w reads n k A.
  split; [reflexivity|]. split; [reflexivity|]. split; [reflexivity|].
  split; [reflexivity|].
  intros A1 HA1.
  assert (H : ready A1 /\ running A1 = false).
  { destruct HA1 as [(f & a & kw & s & m & h & imm & ->)| ->].
    - unfold add_task. simpl.
      destruct (given s); [|destruct (given m); [|destruct (given h)]];
        destruct imm; simpl; unfold ready; simpl; auto.
    - unfold ready. simpl. auto. }
  destruct H as [Hr Hrun]. pose proof Hr as [Hi Hp].
  split; [exact Hr|]. split; [exact Hrun|].
  split; [unfold remove_task; rewrite Hp; now destruct (dict_mem (tasks A1) k)|].
  split; [unfold stop; now rewrite Hp|].
  unfold start. rewrite Hp, Hrun. split; [reflexivity|]. simpl.
  assert (Hr' : ready (logger INFO "Starting scheduler" (set_running A1 true)))
    by (unfold ready; simpl; auto).
  destruct n as [|n]; [reflexivity|].
  exact (proj1 (proj2 (_run_loop_keeps_turning (S n) _ Hr' eq_refl))).
Qed.

End Engine.


Arguments mkTask {Fn}.
Arguments name {Fn}.
Arguments func {Fn}.
Arguments args {Fn}.
Arguments kwargs {Fn}.
Arguments schedule {Fn}.
Arguments last_run {Fn}.
Arguments next_run {Fn}.
Arguments runs {Fn}.
Arguments enabled {Fn}.
Arguments Task_init {Fn}.
Arguments is_due {Fn}.
Arguments agent_name {Fn W}.
Arguments _initialized {Fn W}.
Arguments populated {Fn W}.
Arguments tasks {Fn W}.
Arguments running {Fn W}.
Arguments history {Fn W}.
Arguments log {Fn W}.
Arguments world {Fn W}.
Arguments clock_reads {Fn W}.
Arguments Agent_init {Fn W}.
Arguments ready {Fn W}.
Arguments add_task {Fn W}.
Arguments remove_task {Fn W}.
Arguments _execute_task {Fn W}.
Arguments run_due {Fn W}.
Arguments execute {Fn W}.
Arguments stop {Fn W}.
Arguments start {Fn W}.
Arguments _run_loop_turn {Fn W}.
Arguments _run_loop {Fn W}.
Arguments get_history {Fn W}.

Local Open Scope list_scope.

(** ** A small schedule to run the statements on

    A job action is a label and a flag telling whether it raises; the
    world is the list of the labels called so far.  The clock advances
    one second per reading. *)

Definition demo_call (f : string * bool) (a : list pyval) (kw : pydict)
    (w : list string) : res pyval * list string :=
  (if snd f then Raise (mkExn Exception "no flour") else Ok (PStr (fst f)),
   w ++ [fst f]).

Definition second_clock (n : nat) : time := seconds (Z.of_nat n).

Lemma second_clock_mono i j : i <= j -> (second_clock i <= second_clock j)%Z.
Proof. unfold second_clock, seconds. lia. Qed.

Definition fresh_agent : TaskSchedulerAgent (string * bool) (list string) :=
  Agent_init "TaskSchedulerAgent" [] 0.

(** One job, [bake], every five seconds and at once; [fails] tells
    whether its action raises. *)
Definition one_job (fails : bool) : TaskSchedulerAgent (string * bool) (list string) :=
  snd (add_task second_clock "bake" ("bake", fails) [] None
         (Some 5%Z) None None true fresh_agent).

(** Two jobs whose actions raise: [restock], first due four seconds
    after it was added, then [bake], due at once. *)
Definition two_jobs : TaskSchedulerAgent (string * bool) (list string) :=
  snd (add_task second_clock "bake" ("bake", true) [] None
         (Some 5%Z) None None true
         (snd (add_task second_clock "restock" ("restock", true) [] None
                 (Some 4%Z) None None false fresh_agent))).

Lemma add_task_run_immediately_then_execute_witness :
  fst (add_task second_clock "bake" ("bake", false) [] None
         (Some 5%Z) None None true fresh_agent) = Ok tt /\
  exists t1 r A2,
    execute demo_call second_clock None (one_job false) = (r, A2) /\
    In ("bake"%string, t1) (tasks A2) /\
    runs t1 = 1 /\
    last_run t1 = Some 3000000%Z /\
    next_run t1 = Some 9000000%Z.
Proof.
  destruct (add_task_run_immediately_then_execute _ _ demo_call second_clock
              fresh_agent "bake" ("bake", false) [] None
              ltac:(discriminate) second_clock_mono)
    as (Hok & t0 & pre & post & Ht & Hnin & _ & _ & _ & _ & Hrun).
  split; [exact Hok|].
  assert (Hpre : pre = []).
  { destruct pre as [|x pre]; [reflexivity|].
    apply (f_equal (@List.length _)) in Ht.
    rewrite length_app in Ht. simpl in Ht. lia. }
  subst pre.
  destruct (Hrun [] [] _ (PStr "bake") ["bake"%string] eq_refl eq_refl)
    as (t1 & post' & r & A2 & Hex & Hts & Hruns & Hlast & Hnext & _).
  exists t1, r, A2. split; [exact Hex|].
  split; [rewrite Hts; now left|].
  split; [exact Hruns|]. split; [exact Hlast|exact Hnext].
Defined.

Lemma job_failure_does_not_stop_the_loop_witness :
  exists e A2,
    execute demo_call second_clock None (one_job true) = (Raise e, A2) /\
    exn_str e = "Task bake failed: no flour"%string /\
    map h_error (history A2) = [Some "Task bake failed: no flour"%string] /\
    running (_run_loop_turn demo_call second_clock (one_job true))
    = running (one_job true).
Proof.
  destruct (job_failure_does_not_stop_the_loop _ _ demo_call second_clock
              (one_job true) [] "bake" _ [] [] [] _
              (mkExn Exception "no flour") ["bake"%string]
              (conj eq_refl eq_refl) eq_refl eq_refl eq_refl eq_refl)
    as (A2 & Hex & Hh & _ & _ & _ & _ & Hrun & _).
  eexists. exists A2. split; [exact Hex|]. split; [reflexivity|].
  split; [rewrite Hh; reflexivity|exact Hrun].
Defined.


Arguments ensure_initialized {Fn W}.
Arguments cleanup {Fn W}.
Arguments due_jobs {Fn}.

(** ** The further statements on the small schedule *)



Lemma add_task_replaces_only_its_name_witness :
  fst (add_task second_clock "bake" ("bake", false) [] None
         (Some 9%Z) None None false two_jobs) = Ok tt /\
  dict_keys (tasks (snd (add_task second_clock "bake" ("bake", false) [] None
                           (Some 9%Z) None None false two_jobs)))
    = ["restock"%string; "bake"%string] /\
  dict_get (tasks (snd (add_task second_clock "bake" ("bake", false) [] None
                          (Some 9%Z) None None false two_jobs))) "restock"
    = dict_get (tasks two_jobs) "restock".
Proof.
  assert (Hpop : populated two_jobs = true) by (vm_compute; reflexivity).
  destruct (add_task_replaces_only_its_name _ _ second_clock
              "bake" ("bake", false) [] None (Some 9%Z) None None false
              two_jobs (fun _ => Hpop))
    as (Hok & _ & Hother & Hkeys & _).
  split; [exact Hok|]. split; [rewrite Hkeys; vm_compute; reflexivity|].
  rewrite (Hother "restock"%string ltac:(discriminate)).
  vm_compute. reflexivity.
Defined.

Lemma remove_task_removes_only_its_name_witness :
  populated two_jobs = true /\
  fst (remove_task "restock" two_jobs) = Ok tt /\
  dict_get (tasks (snd (remove_task "restock" two_jobs))) "restock" = None /\
  dict_get (tasks (snd (remove_task "restock" two_jobs))) "bake"
    = dict_get (tasks two_jobs) "bake" /\
  snd (remove_task "scrub" two_jobs) = two_jobs.
Proof.
  assert (Hpop : populated two_jobs = true) by (vm_compute; reflexivity).
  assert (Hkeys : dict_keys (tasks two_jobs) = ["restock"%string; "bake"%string])
    by (vm_compute; reflexivity).
  assert (Hnd : NoDup (dict_keys (tasks two_jobs))).
  { rewrite Hkeys. repeat constructor; simpl; intros H;
      repeat destruct H as [H|H]; try discriminate; exact H. }
  assert (Hno : dict_mem (tasks two_jobs) "scrub" = false)
    by (vm_compute; reflexivity).
  destruct (remove_task_removes_only_its_name _ _ "restock" two_jobs Hpop Hnd)
    as (Hok & Hgone & Hother & _).
  destruct (remove_task_removes_only_its_name _ _ "scrub" two_jobs Hpop Hnd)
    as (_ & _ & _ & _ & _ & Hsame).
  split; [exact Hpop|]. split; [exact Hok|]. split; [exact Hgone|].
  split; [exact (Hother "bake"%string ltac:(discriminate))|exact (Hsame Hno)].
Defined.

Lemma execute_by_name_witness :
  ready (one_job false) /\
  execute demo_call second_clock (Some "scrub"%string) (one_job false)
    = (Raise (mkExn ValueError "Task 'scrub' not found"), one_job false) /\
  (exists t',
      dict_get (tasks (snd (execute demo_call second_clock (Some "bake"%string)
                              (one_job false)))) "bake" = Some t' /\
      runs t' = 1) /\
  execute demo_call second_clock (Some ""%string) (one_job false)
    = execute demo_call second_clock None (one_job false).
Proof.
  assert (Hr : ready (one_job false)) by (vm_compute; auto).
  assert (Hno : dict_get (tasks (one_job false)) "scrub" = None)
    by (vm_compute; reflexivity).
  assert (Hjob : dict_get (tasks (one_job false)) "bake"
                 = Some (mkTask "bake"%string ("bake"%string, false) [] []
                           (Some "every_5s"%string) None (Some 1000000%Z) 0 true))
    by (vm_compute; reflexivity).
  destruct (execute_by_name _ _ demo_call second_clock "scrub" (one_job false)
              Hr ltac:(discriminate)) as (Hmiss & _ & Hempty).
  destruct (execute_by_name _ _ demo_call second_clock "bake" (one_job false)
              Hr ltac:(discriminate)) as (_ & Hrun & _).
  split; [exact Hr|]. split; [exact (Hmiss Hno)|]. split; [|exact Hempty].
  destruct (Hrun _ (PStr "bake")
              (world (one_job false) ++ ["bake"%string]) Hjob eq_refl)
    as (t' & Hget & Hruns & _).
  exists t'. split; [exact Hget|exact Hruns].
Defined.

Lemma pass_runs_only_due_jobs_witness :
  ready two_jobs /\
  due_jobs (second_clock (clock_reads two_jobs)) (tasks two_jobs) = ["bake"%string] /\
  dict_keys (tasks (snd (execute demo_call second_clock None two_jobs)))
    = ["restock"%string; "bake"%string] /\
  dict_get (tasks (snd (execute demo_call second_clock None two_jobs))) "restock"
    = dict_get (tasks two_jobs) "restock".
Proof.
  assert (Hr : ready two_jobs) by (vm_compute; auto).
  assert (Hjob : dict_get (tasks two_jobs) "restock"
                 = Some (mkTask "restock"%string ("restock"%string, true) [] []
                           (Some "every_4s"%string) None (Some 4000000%Z) 0 true))
    by (vm_compute; reflexivity).
  assert (Hidle' : is_due (second_clock (clock_reads two_jobs))
                     (mkTask "restock"%string ("restock"%string, true) [] []
                        (Some "every_4s"%string) None (Some 4000000%Z) 0 true)
                   = false)
    by (vm_compute; reflexivity).
  destruct (pass_runs_only_due_jobs _ _ demo_call second_clock two_jobs Hr)
    as (Hkeys & Hidle & _).
  split; [exact Hr|]. split; [vm_compute; reflexivity|].
  split; [rewrite Hkeys; vm_compute; reflexivity|].
  rewrite (Hidle "restock"%string _ Hjob Hidle'). symmetry. exact Hjob.
Defined.


Lemma cleanup_then_use_forgets_jobs_witness :
  ready two_jobs /\
  fst (cleanup two_jobs) = Ok tt /\
  dict_keys (tasks (snd (cleanup two_jobs))) = ["restock"%string; "bake"%string] /\
  exists A2,
    execute demo_call second_clock None (snd (cleanup two_jobs))
      = (Ok (PDict []), A2) /\
    tasks A2 = [].
Proof.
  assert (Hr : ready two_jobs) by (vm_compute; auto).
  destruct (cleanup_then_use_forgets_jobs _ _ demo_call second_clock two_jobs Hr)
    as (Hok & Ht & _ & _ & _ & (A2 & Hex & Hts & _) & _).
  split; [exact Hr|]. split; [exact Hok|].
  split; [rewrite Ht; vm_compute; reflexivity|].
  exists A2. split; [exact Hex|exact Hts].
Defined.


Lemma new_scheduler_needs_initializing_witness :
  start demo_call second_clock 2 fresh_agent
    = (Raise (mkExn KeyError "running"), fresh_agent) /\
  fst (start demo_call second_clock 2
         (snd (execute demo_call second_clock None fresh_agent))) = Ok tt /\
  running (snd (start demo_call second_clock 2
                  (snd (execute demo_call second_clock None fresh_agent)))) = true.
Proof.
  destruct (new_scheduler_needs_initializing _ _ demo_call second_clock
              "TaskSchedulerAgent" [] 0 2 "bake")
    as (Hstart & _ & _ & _ & Hafter).
  destruct (Hafter (snd (execute demo_call second_clock None fresh_agent))
              (or_intror eq_refl))
    as (_ & _ & _ & _ & Hok & Hrun).
  split; [exact Hstart|]. split; [exact Hok|exact Hrun].
Defined.

Lemma get_history_is_the_tail_witness :
  get_history 10 fresh_agent = Raise (mkExn KeyError "history") /\
  populated (one_job false) = true /\
  exists h,
    get_history 1
      (snd (_execute_task demo_call second_clock
              (mkTask "bake"%string ("bake"%string, false) [] []
                 (Some "every_5s"%string) None (Some 1000000%Z) 0 true)
              (one_job false)))
    = Ok [h] /\
    h_task h = "bake"%string.
Proof.
  assert (Hpop : populated (one_job false) = true) by (vm_compute; reflexivity).
  destruct (get_history_is_the_tail _ _ demo_call second_clock fresh_agent 10)
    as (Hfresh & _).
  destruct (get_history_is_the_tail _ _ demo_call second_clock (one_job false) 10)
    as (_ & _ & Hlast).
  split; [exact (Hfresh eq_refl)|]. split; [exact Hpop|].
  destruct (Hlast Hpop
              (mkTask "bake"%string ("bake"%string, false) [] []
                 (Some "every_5s"%string) None (Some 1000000%Z) 0 true))
    as (h & Hg & _ & Hn).
  exists h. split; [exact Hg|exact Hn].
Defined.
End Scheduler.
